(** * Pokemon student system: the persistence and domain-logic layer of server.js

    A shallow embedding of the request handlers of [src/server.js] and of the
    two helpers they share, [readJSONFile] and [writeJSONFile].

    - Numbers of the program (ids, points, totals, limits) are the Numbers
      of JavaScript that are integers, held in [Z]; the sums and quotients
      the program computes are rounded as a double rounds them.  Text is
      [string], a sequence of bytes.
    - [toLowerCase], [trim] and [parseInt] belong to the engine, not to the
      repository: the handlers take them from an [Engine], and the
      properties hold for every engine.
    - A call that may throw returns a [Completion]: [Normal v] or [Throw e].
    - The disk is a finite map from paths to nodes.  An [async] function is
      an [Async] computation: it takes the disk and returns its completion
      together with the disk it leaves.  The [try { ... } catch] blocks of
      the source are [try_catch].
    - [Date.now()] and the formatted dates are read from a [Clock] the caller
      passes in. *)

From Stdlib Require Import ZArith String Ascii List Lia Bool.
From Stdlib Require Import DecimalString DecimalZ DecimalPos DecimalFacts.
From stdpp Require Import base option gmap strings list sorting.

Local Open Scope Z_scope.
Local Arguments String.append !_ _ / : simpl nomatch.
Local Set Warnings "-register-all".

(** * Part I: the program *)

(** ** Completions *)

Inductive Error := ENOENT | EACCES | SyntaxError.

Inductive Completion (A : Type) :=
| Normal (a : A)
| Throw (e : Error).
Arguments Normal {A} a.
Arguments Throw {A} e.

(** ** The file system

    A path holds a file with its text, or a node on which every access fails
    (a directory, a file without permissions); an absent path has no node.
    A write to a file or to an absent path completes in this model: a
    read-only file or a full disk is not one of its states, and the
    properties of a handler that writes are stated for writes that
    complete. *)

Inductive node := File (data : string) | Denied.

Abbreviation FileSystem := (gmap string node).

Definition Async (A : Type) : Type := FileSystem → Completion A * FileSystem.

Global Instance Async_ret : MRet Async := λ A a fs, (Normal a, fs).
Global Instance Async_bind : MBind Async :=
  λ A B f m fs,
    match m fs with
    | (Normal a, fs') => f a fs'
    | (Throw e, fs') => (Throw e, fs')
    end.

(** [try { body } catch (error) { handler }] *)
Definition try_catch {A} (body : Async A) (handler : Error → Async A) : Async A :=
  λ fs,
    match body fs with
    | (Normal a, fs') => (Normal a, fs')
    | (Throw e, fs') => handler e fs'
    end.

(** A synchronous call that may throw, inside an [async] function. *)
Definition sync {A} (c : Completion A) : Async A := λ fs, (c, fs).

(** [await Promise.all([a, b])] of two writes: both are started, so the
    second runs whether or not the first fails; the await throws when one of
    them did. *)
Definition Promise_all2 (a b : Async ()) : Async () :=
  λ fs,
    let '(ra, fs1) := a fs in
    let '(rb, fs2) := b fs1 in
    (match ra with Normal _ => rb | Throw e => Throw e end, fs2).

(** [fs.readFile(filePath, 'utf8')] *)
Definition fs_readFile (filePath : string) : Async string :=
  λ fs,
    match fs !! filePath with
    | Some (File data) => (Normal data, fs)
    | Some Denied => (Throw EACCES, fs)
    | None => (Throw ENOENT, fs)
    end.

(** [fs.writeFile(filePath, data, 'utf8')]: replaces the whole file. *)
Definition fs_writeFile (filePath data : string) : Async () :=
  λ fs,
    match fs !! filePath with
    | Some Denied => (Throw EACCES, fs)
    | _ => (Normal (), <[filePath := File data]> fs)
    end.

(** ** The document store (server.js, lines 29-43)

    [JSON.stringify(data, null, 2)] and [JSON.parse(data)] at the type of the
    document a file holds. *)

Class JSON (A : Type) := {
  JSON_stringify : A → string;
  JSON_parse : string → Completion A
}.

Definition readJSONFile {A} `{JSON A} (filePath : string) (defaultValue : A)
  : Async A :=
  try_catch
    (data ← fs_readFile filePath;
     sync (JSON_parse data))
    (λ error, mret defaultValue).

Definition writeJSONFile {A} `{JSON A} (filePath : string) (data : A) : Async () :=
  fs_writeFile filePath (JSON_stringify data).

(** ** JSON text

    The values [JSON.parse] builds and [JSON.stringify] prints.  Numbers are
    the integers (the ids, points and counts of the program, which a double
    holds exactly); an object is the list of its members in the order its
    properties are enumerated; a string is the bytes of its UTF-8 text. *)

Inductive json :=
| JNull
| JBool (b : bool)
| JNum (z : Z)
| JStr (s : string)
| JArr (l : list json)
| JObj (m : list (string * json)).

Definition dquote : ascii := "034"%char.
Definition newline : ascii := "010"%char.

(** *** Printing: [JSON.stringify(value, null, 2)] *)

Definition hex_digit (n : N) : ascii :=
  if (n <? 10)%N then ascii_of_N (48 + n) else ascii_of_N (87 + n).

(** One byte of a string literal (QuoteJSONString): the two-character
    escapes, [\u00xx] for the other control characters, the byte itself
    otherwise. *)
Definition escape_char (c : ascii) : string :=
  match c with
  | "008"%char => "\b"
  | "009"%char => "\t"
  | "010"%char => "\n"
  | "012"%char => "\f"
  | "013"%char => "\r"
  | "034"%char => String "\" (String dquote "")
  | "\"%char => "\\"
  | _ =>
      let n := N_of_ascii c in
      if (n <? 32)%N
      then "\u00" +:+ String (hex_digit (n / 16)) (String (hex_digit (n mod 16)) "")
      else String c ""
  end.

Fixpoint escape (s : string) : string :=
  match s with
  | EmptyString => ""
  | String c s' => escape_char c +:+ escape s'
  end.

Definition quote (s : string) : string :=
  String dquote (escape s +:+ String dquote "").

(** Number::toString of an integer of magnitude below 10^21, which the
    engine prints with all its digits; the safe integers of the data model
    are among them. *)
Definition string_of_Z (z : Z) : string :=
  NilEmpty.string_of_int (Z.to_int z).

Fixpoint spaces (n : nat) : string :=
  match n with
  | O => ""
  | S n' => String " " (spaces n')
  end.

Fixpoint join (separator : string) (partial : list string) : string :=
  match partial with
  | [] => ""
  | [x] => x
  | x :: rest => x +:+ separator +:+ join separator rest
  end.

(** SerializeJSONProperty with gap of two spaces; [indent] counts the spaces
    of the current indentation. *)
Fixpoint serialize (indent : nat) (value : json) : string :=
  match value with
  | JNull => "null"
  | JBool true => "true"
  | JBool false => "false"
  | JNum z => string_of_Z z
  | JStr s => quote s
  | JArr l =>
      let stepback := indent in
      let indent := (indent + 2)%nat in
      match l with
      | [] => "[]"
      | _ =>
          let partial := map (serialize indent) l in
          let separator := String "," (String newline (spaces indent)) in
          String "[" (String newline (spaces indent))
            +:+ join separator partial
            +:+ String newline (spaces stepback) +:+ "]"
      end
  | JObj m =>
      let stepback := indent in
      let indent := (indent + 2)%nat in
      match m with
      | [] => "{}"
      | _ =>
          let partial :=
            map (λ member, quote (fst member) +:+ ": " +:+ serialize indent (snd member)) m in
          let separator := String "," (String newline (spaces indent)) in
          String "{" (String newline (spaces indent))
            +:+ join separator partial
            +:+ String newline (spaces stepback) +:+ "}"
      end
  end.

(** *** Parsing: [JSON.parse(text)] *)

Definition is_ws (c : ascii) : bool :=
  match c with
  | " "%char | "009"%char | "010"%char | "013"%char => true
  | _ => false
  end.

Fixpoint skip_ws (s : string) : string :=
  match s with
  | String c s' => if is_ws c then skip_ws s' else s
  | EmptyString => s
  end.

Definition simple_escape (e : ascii) : option ascii :=
  match e with
  | "034"%char => Some dquote
  | "\"%char => Some "\"%char
  | "/"%char => Some "/"%char
  | "b"%char => Some "008"%char
  | "f"%char => Some "012"%char
  | "n"%char => Some "010"%char
  | "r"%char => Some "013"%char
  | "t"%char => Some "009"%char
  | _ => None
  end.

Definition hex_value (c : ascii) : option N :=
  let n := N_of_ascii c in
  if ((48 <=? n) && (n <=? 57))%N then Some (n - 48)%N
  else if ((97 <=? n) && (n <=? 102))%N then Some (n - 87)%N
  else if ((65 <=? n) && (n <=? 70))%N then Some (n - 55)%N
  else None.

Definition hex4 (h1 h2 h3 h4 : ascii) : option N :=
  a ← hex_value h1; b ← hex_value h2; c ← hex_value h3; d ← hex_value h4;
  Some (((a * 16 + b) * 16 + c) * 16 + d)%N.

(** The bytes of the character a [\uXXXX] escape denotes.  Surrogate code
    units have no bytes of their own and are outside this byte-level model. *)
Definition utf8_of_code_unit (n : N) : option string :=
  if (n <? 128)%N then Some (String (ascii_of_N n) "")
  else if (n <? 2048)%N then
    Some (String (ascii_of_N (192 + n / 64)) (String (ascii_of_N (128 + n mod 64)) ""))
  else if ((55296 <=? n) && (n <? 57344))%N then None
  else
    Some (String (ascii_of_N (224 + n / 4096))
            (String (ascii_of_N (128 + (n / 64) mod 64))
               (String (ascii_of_N (128 + n mod 64)) ""))).

(** The characters of a string literal, after its opening quote. *)
Fixpoint parse_chars (s : string) : option (string * string) :=
  match s with
  | EmptyString => None
  | String c s1 =>
      if Ascii.eqb c dquote then Some (EmptyString, s1)
      else if Ascii.eqb c "\" then
        match s1 with
        | EmptyString => None
        | String e s2 =>
            match simple_escape e with
            | Some c' =>
                match parse_chars s2 with
                | Some (str, r) => Some (String c' str, r)
                | None => None
                end
            | None =>
                if Ascii.eqb e "u" then
                  match s2 with
                  | String h1 (String h2 (String h3 (String h4 s3))) =>
                      match hex4 h1 h2 h3 h4 ≫= utf8_of_code_unit with
                      | Some bytes =>
                          match parse_chars s3 with
                          | Some (str, r) => Some (bytes +:+ str, r)
                          | None => None
                          end
                      | None => None
                      end
                  | _ => None
                  end
                else None
            end
        end
      else if (N_of_ascii c <? 32)%N then None
      else
        match parse_chars s1 with
        | Some (str, r) => Some (String c str, r)
        | None => None
        end
  end.

Definition digit_of (c : ascii) : option (Decimal.uint → Decimal.uint) :=
  match c with
  | "0"%char => Some Decimal.D0
  | "1"%char => Some Decimal.D1
  | "2"%char => Some Decimal.D2
  | "3"%char => Some Decimal.D3
  | "4"%char => Some Decimal.D4
  | "5"%char => Some Decimal.D5
  | "6"%char => Some Decimal.D6
  | "7"%char => Some Decimal.D7
  | "8"%char => Some Decimal.D8
  | "9"%char => Some Decimal.D9
  | _ => None
  end.

Fixpoint parse_digits (s : string) : Decimal.uint * string :=
  match s with
  | EmptyString => (Decimal.Nil, s)
  | String c s' =>
      match digit_of c with
      | Some d => let '(u, r) := parse_digits s' in (d u, r)
      | None => (Decimal.Nil, s)
      end
  end.

(** What may not follow the digits of an integer: a fraction or an exponent
    makes the literal a number outside the integers. *)
Definition continues_number (s : string) : bool :=
  match s with
  | String c _ =>
      match c with
      | "."%char | "e"%char | "E"%char => true
      | _ => false
      end
  | EmptyString => false
  end.

(** [0], or a digit from 1 to 9 followed by digits. *)
Definition parse_unsigned (s : string) : option (Z * string) :=
  let '(u, r) := parse_digits s in
  match u with
  | Decimal.Nil => None
  | _ =>
      if Decimal.uint_beq (Decimal.unorm u) u && negb (continues_number r)
      then Some (Z.of_uint u, r)
      else None
  end.

Definition parse_number (s : string) : option (Z * string) :=
  match s with
  | String "-"%char s' =>
      match parse_unsigned s' with
      | Some (z, r) => Some (- z, r)
      | None => None
      end
  | _ => parse_unsigned s
  end.

Fixpoint expect (word s : string) : option string :=
  match word with
  | EmptyString => Some s
  | String c word' =>
      match s with
      | String c' s' => if Ascii.eqb c c' then expect word' s' else None
      | EmptyString => None
      end
  end.

Definition head_is (c : ascii) (s : string) : bool :=
  match s with
  | String c' _ => Ascii.eqb c' c
  | EmptyString => false
  end.

Definition tail (s : string) : string :=
  match s with
  | String _ s' => s'
  | EmptyString => ""
  end.

(** A value, the elements of an array after its bracket, the members of an
    object after its brace.  [fuel] bounds the nesting of the calls; [parse]
    starts with more than a text can use. *)
Fixpoint parse_value (fuel : nat) (s : string) : option (json * string) :=
  match fuel with
  | O => None
  | S fuel' =>
      match skip_ws s with
      | EmptyString => None
      | String c r =>
          match c with
          | "n"%char => r' ← expect "ull" r; Some (JNull, r')
          | "t"%char => r' ← expect "rue" r; Some (JBool true, r')
          | "f"%char => r' ← expect "alse" r; Some (JBool false, r')
          | "034"%char => '(str, r') ← parse_chars r; Some (JStr str, r')
          | "["%char =>
              let r1 := skip_ws r in
              if head_is "]" r1 then Some (JArr [], tail r1)
              else '(l, r') ← parse_elements fuel' r1; Some (JArr l, r')
          | "{"%char =>
              let r1 := skip_ws r in
              if head_is "}" r1 then Some (JObj [], tail r1)
              else '(m, r') ← parse_members fuel' r1; Some (JObj m, r')
          | _ => '(z, r') ← parse_number (String c r); Some (JNum z, r')
          end
      end
  end
with parse_elements (fuel : nat) (s : string) : option (list json * string) :=
  match fuel with
  | O => None
  | S fuel' =>
      '(v, r) ← parse_value fuel' s;
      match skip_ws r with
      | String ","%char r' => '(l, r'') ← parse_elements fuel' r'; Some (v :: l, r'')
      | String "]"%char r' => Some ([v], r')
      | _ => None
      end
  end
with parse_members (fuel : nat) (s : string) : option (list (string * json) * string) :=
  match fuel with
  | O => None
  | S fuel' =>
      match skip_ws s with
      | String "034"%char r =>
          '(k, r1) ← parse_chars r;
          match skip_ws r1 with
          | String ":"%char r2 =>
              '(v, r3) ← parse_value fuel' r2;
              match skip_ws r3 with
              | String ","%char r4 =>
                  '(m, r5) ← parse_members fuel' r4; Some ((k, v) :: m, r5)
              | String "}"%char r4 => Some ([(k, v)], r4)
              | _ => None
              end
          | _ => None
          end
      | _ => None
      end
  end.

(** The whole text is one value between optional white space.  A text with
    a number that has a fraction or an exponent, or with an escape of a
    surrogate, is outside the model, which reads it as a text that does not
    parse. *)
Definition parse (text : string) : Completion json :=
  match parse_value (S (String.length text)) text with
  | Some (v, r) =>
      match skip_ws r with
      | EmptyString => Normal v
      | _ => Throw SyntaxError
      end
  | None => Throw SyntaxError
  end.

Global Instance JSON_json : JSON json :=
  {| JSON_stringify := serialize 0; JSON_parse := parse |}.

(** ** The three documents *)

Record Student := {
  student_id : Z;
  student_name : string;
  pokemonType : string;
  totalPoints : Z;
  student_createdAt : string;
  updatedAt : option string
}.

Record CreatedActivity := {
  activity_id : Z;
  activity_name : string;
  defaultPoints : Z;
  description : string;
  activity_createdAt : string
}.

Record ActivityRecord := {
  record_id : Z;
  studentId : Z;
  activityId : Z;
  record_name : string;
  points : Z;
  date : string;
  record_createdAt : string
}.

(** [object[key]] for the object [JSON.parse] builds of the members [m]:
    of two members with one name the later one is kept. *)
Fixpoint property (key : string) (m : list (string * json)) : option json :=
  match m with
  | [] => None
  | (k, v) :: m' =>
      match property key m' with
      | Some w => Some w
      | None => if String.eqb k key then Some v else None
      end
  end.

Definition number_property (key : string) (m : list (string * json)) : option Z :=
  match property key m with
  | Some (JNum z) => Some z
  | _ => None
  end.

Definition string_property (key : string) (m : list (string * json)) : option string :=
  match property key m with
  | Some (JStr s) => Some s
  | _ => None
  end.

Definition json_of_Student (s : Student) : json :=
  JObj ([("id", JNum (student_id s));
         ("name", JStr (student_name s));
         ("pokemonType", JStr (pokemonType s));
         ("totalPoints", JNum (totalPoints s));
         ("createdAt", JStr (student_createdAt s))]
        ++ match updatedAt s with
           | Some u => [("updatedAt", JStr u)]
           | None => []
           end).

Definition Student_of_json (v : json) : option Student :=
  match v with
  | JObj m =>
      i ← number_property "id" m;
      n ← string_property "name" m;
      t ← string_property "pokemonType" m;
      p ← number_property "totalPoints" m;
      c ← string_property "createdAt" m;
      Some {| student_id := i; student_name := n; pokemonType := t;
              totalPoints := p; student_createdAt := c;
              updatedAt := string_property "updatedAt" m |}
  | _ => None
  end.

Definition json_of_CreatedActivity (a : CreatedActivity) : json :=
  JObj [("id", JNum (activity_id a));
        ("name", JStr (activity_name a));
        ("defaultPoints", JNum (defaultPoints a));
        ("description", JStr (description a));
        ("createdAt", JStr (activity_createdAt a))].

Definition CreatedActivity_of_json (v : json) : option CreatedActivity :=
  match v with
  | JObj m =>
      i ← number_property "id" m;
      n ← string_property "name" m;
      p ← number_property "defaultPoints" m;
      d ← string_property "description" m;
      c ← string_property "createdAt" m;
      Some {| activity_id := i; activity_name := n; defaultPoints := p;
              description := d; activity_createdAt := c |}
  | _ => None
  end.

Definition json_of_ActivityRecord (r : ActivityRecord) : json :=
  JObj [("id", JNum (record_id r));
        ("studentId", JNum (studentId r));
        ("activityId", JNum (activityId r));
        ("name", JStr (record_name r));
        ("points", JNum (points r));
        ("date", JStr (date r));
        ("createdAt", JStr (record_createdAt r))].

Definition ActivityRecord_of_json (v : json) : option ActivityRecord :=
  match v with
  | JObj m =>
      i ← number_property "id" m;
      s ← number_property "studentId" m;
      a ← number_property "activityId" m;
      n ← string_property "name" m;
      p ← number_property "points" m;
      d ← string_property "date" m;
      c ← string_property "createdAt" m;
      Some {| record_id := i; studentId := s; activityId := a; record_name := n;
              points := p; date := d; record_createdAt := c |}
  | _ => None
  end.

(** A document of the data model is an array of records.  A file whose text
    is JSON of another shape is outside the data model; reading it at the
    type of the document fails like a text that does not parse. *)
Definition stringify_array {A} (to_json : A → json) (l : list A) : string :=
  JSON_stringify (JArr (map to_json l)).

Definition parse_array {A} (of_json : json → option A) (text : string)
  : Completion (list A) :=
  match JSON_parse text with
  | Normal (JArr l) =>
      match mapM of_json l with
      | Some d => Normal d
      | None => Throw SyntaxError
      end
  | Normal _ => Throw SyntaxError
  | Throw e => Throw e
  end.

Global Instance JSON_students : JSON (list Student) :=
  {| JSON_stringify := stringify_array json_of_Student;
     JSON_parse := parse_array Student_of_json |}.

Global Instance JSON_createdActivities : JSON (list CreatedActivity) :=
  {| JSON_stringify := stringify_array json_of_CreatedActivity;
     JSON_parse := parse_array CreatedActivity_of_json |}.

Global Instance JSON_activities : JSON (list ActivityRecord) :=
  {| JSON_stringify := stringify_array json_of_ActivityRecord;
     JSON_parse := parse_array ActivityRecord_of_json |}.

(** Paths of the data files, relative to the directory of the script. *)
Definition STUDENTS_FILE : string := "data/students.json".
Definition ACTIVITIES_FILE : string := "data/activities.json".
Definition CREATED_ACTIVITIES_FILE : string := "data/created-activities.json".

(** ** Numbers

    A Number of the program is a double.  Those that are integers are held
    in [Z]; a sum is rounded to the nearest double, a quotient is a
    [double] of its own.  (Doubles of magnitude 2^1024 and more do not
    exist; the engine has [Infinity] there, which no property reaches.) *)

(** The numbers [parseInt] returns. *)
Inductive number := NaN | Num (z : Z).

(** [Number.MAX_SAFE_INTEGER] and [Number.isSafeInteger]. *)
Definition MAX_SAFE_INTEGER : Z := 2 ^ 53 - 1.

Definition safe (n : Z) : Prop := (- MAX_SAFE_INTEGER) ≤ n ≤ MAX_SAFE_INTEGER.

Definition Number_isSafeInteger (n : Z) : bool :=
  (- MAX_SAFE_INTEGER <=? n) && (n <=? MAX_SAFE_INTEGER).

(** The integer nearest to [n / d], the even one of two that are equally
    near, for [n ≥ 0] and [d > 0]. *)
Definition round_half_even (n d : Z) : Z :=
  let q := n / d in
  let r := n mod d in
  if 2 * r <? d then q
  else if d <? 2 * r then q + 1
  else if Z.even q then q else q + 1.

(** The double nearest to an integer: the integer itself up to 2^53, and
    above that its 53 leading bits, rounded half to even. *)
Definition to_double (z : Z) : Z :=
  let a := Z.abs z in
  if a <=? 2 ^ 53 then z
  else
    let shift := Z.log2 a - 52 in
    Z.sgn z * (round_half_even a (2 ^ shift) * 2 ^ shift).

(** A double that need not be an integer: [mantissa * 2 ^ exponent]. *)
Record double := { mantissa : Z; exponent : Z }.

(** The [e] with [2 ^ e ≤ a / y < 2 ^ (e + 1)], for [a > 0] and [y > 0]. *)
Definition binary_exponent (a y : Z) : Z :=
  if y <=? a then Z.log2 (a / y) else - Z.log2_up ((y + a - 1) / a).

(** [x / y] for integers [x] and [y > 0]: the double nearest to the
    quotient, a mantissa of 53 bits rounded half to even. *)
Definition divide (x y : Z) : double :=
  let a := Z.abs x in
  if a =? 0 then {| mantissa := 0; exponent := 0 |}
  else
    let k := 52 - binary_exponent a y in
    let m :=
      if 0 <=? k then round_half_even (a * 2 ^ k) y
      else round_half_even a (y * 2 ^ (- k)) in
    {| mantissa := Z.sgn x * m; exponent := - k |}.

(** [Math.floor] *)
Definition Math_floor (d : double) : Z :=
  if 0 <=? exponent d then mantissa d * 2 ^ exponent d
  else mantissa d / 2 ^ (- exponent d).

(** [Math.round]: the nearest integer, the upper one of two that are
    equally near. *)
Definition Math_round (d : double) : Z :=
  if 0 <=? exponent d then mantissa d * 2 ^ exponent d
  else (mantissa d + 2 ^ (- exponent d - 1)) / 2 ^ (- exponent d).

(** [Math.min(2, Math.floor(totalPoints / 100))] *)
Definition level (totalPoints : Z) : Z :=
  Z.min 2 (Math_floor (divide totalPoints 100)).

(** ** The engine's built-ins

    [String.prototype.toLowerCase], [String.prototype.trim] and [parseInt]
    are functions of the engine the server runs on.  [parseInt_Number n] is
    [parseInt(n)] for a Number [n] that is an integer, as a field of a
    request body is: the engine prints [n] and reads the digits back, which
    gives [n] when [n] is a safe integer. *)
Class Engine := {
  toLowerCase : string → string;
  trim : string → string;
  parseInt : string → number;
  parseInt_Number : Z → Z;
  parseInt_Number_safe : ∀ n : Z, safe n → parseInt_Number n = n
}.

(** The built-ins on text of one-byte characters and on integers a double
    holds, for running the handlers on sample requests. *)
Module OneByte.

(** [String.prototype.toLowerCase], on the letters A to Z; other bytes are
    left as they are. *)
Definition lower_ascii (c : ascii) : ascii :=
  let n := N_of_ascii c in
  if ((65 <=? n) && (n <=? 90))%N then ascii_of_N (n + 32) else c.

Fixpoint toLowerCase (s : string) : string :=
  match s with
  | EmptyString => ""
  | String c s' => String (lower_ascii c) (toLowerCase s')
  end.

(** [String.prototype.trim]: white space and line terminators of one byte. *)
Fixpoint trimStart (s : string) : string :=
  match s with
  | String c s' => if Ascii.is_space c then trimStart s' else s
  | EmptyString => ""
  end.

Fixpoint trimEnd (s : string) : string :=
  match s with
  | EmptyString => ""
  | String c s' =>
      match trimEnd s' with
      | EmptyString => if Ascii.is_space c then "" else String c ""
      | t => String c t
      end
  end.

Definition trim (s : string) : string := trimEnd (trimStart s).

Definition radix_digit (c : ascii) : option Z :=
  let n := Z.of_N (N_of_ascii c) in
  if (48 <=? n) && (n <=? 57) then Some (n - 48)
  else if (97 <=? n) && (n <=? 122) then Some (n - 87)
  else if (65 <=? n) && (n <=? 90) then Some (n - 55)
  else None.

Fixpoint parseInt_digits (radix : Z) (s : string) (acc : option Z) : option Z :=
  match s with
  | EmptyString => acc
  | String c s' =>
      match radix_digit c with
      | Some d =>
          if d <? radix
          then parseInt_digits radix s' (Some (default 0 acc * radix + d))
          else acc
      | None => acc
      end
  end.

(** [parseInt(string)] without a radix: leading white space, a sign, [0x] for
    base sixteen, then the longest run of digits, as the double nearest to
    their value; [NaN] when there is none. *)
Definition parseInt (s : string) : number :=
  let s := trimStart s in
  let '(sign, s) :=
    match s with
    | String "-"%char s' => (-1, s')
    | String "+"%char s' => (1, s')
    | _ => (1, s)
    end in
  let '(radix, s) :=
    match s with
    | String "0"%char (String "x"%char s') => (16, s')
    | String "0"%char (String "X"%char s') => (16, s')
    | _ => (10, s)
    end in
  match parseInt_digits radix s None with
  | Some z => Num (to_double (sign * z))
  | None => NaN
  end.

End OneByte.

Global Instance one_byte : Engine :=
  {| toLowerCase := OneByte.toLowerCase;
     trim := OneByte.trim;
     parseInt := OneByte.parseInt;
     parseInt_Number := λ n, n;
     parseInt_Number_safe := λ n _, eq_refl |}.

(** [array.slice(0, end)] *)
Definition slice0 {A} (l : list A) (end_ : number) : list A :=
  let len := Z.of_nat (length l) in
  let relativeEnd := match end_ with NaN => 0 | Num z => z end in
  let final :=
    if relativeEnd <? 0 then Z.max (len + relativeEnd) 0 else Z.min relativeEnd len in
  take (Z.to_nat final) l.

(** [array.sort(compareFn)] is a stable sort: an element goes before the
    first one it does not compare greater than. *)
Fixpoint sort_insert {A} (compareFn : A → A → Z) (x : A) (l : list A) : list A :=
  match l with
  | [] => [x]
  | y :: l' =>
      if compareFn x y <=? 0 then x :: l else y :: sort_insert compareFn x l'
  end.

Definition sort {A} (compareFn : A → A → Z) (l : list A) : list A :=
  foldr (sort_insert compareFn) [] l.

(** [levels[level] = (levels[level] || 0) + 1] on an object whose keys are
    numbers.  (A count is at most the length of an array, which is below
    2^32: the sum is exact.) *)
Definition increment `{Countable K} (key : K) (counts : gmap K Z) : gmap K Z :=
  <[key := default 0 (counts !! key) + 1]> counts.

(** What a property of the object of counts per category holds: a number,
    or a text, when the category is the name of a function the object
    inherits from [Object.prototype] and [+ 1] was applied to the function. *)
Inductive tally := Count (n : Z) | Text (s : string).

(** The functions an object literal inherits. *)
Definition Object_prototype : list string :=
  ["constructor"; "__defineGetter__"; "__defineSetter__"; "hasOwnProperty";
   "__lookupGetter__"; "__lookupSetter__"; "isPrototypeOf";
   "propertyIsEnumerable"; "toString"; "valueOf"; "toLocaleString"].

(** [String(f)] for one of them, as V8 prints it; the function at
    [constructor] is [Object]. *)
Definition native_function (name : string) : string :=
  "function " +:+ (if String.eqb name "constructor" then "Object" else name)
  +:+ "() { [native code] }".

(** [counts[key] = (counts[key] || 0) + 1] on an object literal whose keys
    are categories.  An assignment to [__proto__] of a value that is not an
    object does nothing. *)
Definition count_category (key : string) (counts : gmap string tally)
  : gmap string tally :=
  if String.eqb key "__proto__" then counts
  else
    match counts !! key with
    | Some (Count n) => <[key := Count (n + 1)]> counts
    | Some (Text s) => <[key := Text (s +:+ "1")]> counts
    | None =>
        if bool_decide (key ∈ Object_prototype)
        then <[key := Text (native_function key +:+ "1")]> counts
        else <[key := Count 1]> counts
    end.

(** ** Requests and responses *)

Record Clock := {
  Date_now : Z;
  toISOString : string;
  toLocaleDateString : string
}.

Record StatsData := {
  totalStudents : Z;
  totalActivities : Z;
  totalActivitiesAssigned : Z;
  stats_totalPoints : Z;
  averagePoints : Z;
  pokemonDistribution : gmap string tally;
  evolutionDistribution : gmap Z Z
}.

Inductive Data :=
| NoData
| Students (l : list Student)
| OneStudent (s : Student)
| CreatedActivities (l : list CreatedActivity)
| OneCreatedActivity (a : CreatedActivity)
| Activities (l : list ActivityRecord)
| Award (activity : ActivityRecord) (student : Student) (evolved : bool) (newLevel : Z)
| Ranking (data : list Student) (total : Z)
| Stats (s : StatsData).

(** [res.status(status).json({ success, data, ... })]; the message texts are
    left out. *)
Record Response := {
  status : Z;
  success : bool;
  data : Data
}.

Definition ok (status : Z) (data : Data) : Response :=
  {| status := status; success := true; data := data |}.

Definition failure (status : Z) : Response :=
  {| status := status; success := false; data := NoData |}.

(** The catch block every handler ends with. *)
Definition internal_error (error : Error) : Async Response := mret (failure 500).

(** ** The handlers

    The text fields of a request are [string] and the number fields are
    integers: a request with a field of another type (a name that is a
    number, points that are a text or a fraction) is not a request of this
    model.  A field the request leaves out has the falsy value of its type:
    the empty string for text, zero for a number. *)

Definition with_totalPoints (s : Student) (points : Z) (now : string) : Student :=
  {| student_id := student_id s;
     student_name := student_name s;
     pokemonType := pokemonType s;
     totalPoints := points;
     student_createdAt := student_createdAt s;
     updatedAt := Some now |}.

(** GET /api/students *)
Definition get_students : Async Response :=
  try_catch
    (students ← readJSONFile STUDENTS_FILE [];
     mret (ok 200 (Students students)))
    internal_error.

(** POST /api/students *)
Definition post_students `{Engine} (clock : Clock) (name pokemonType : string)
  : Async Response :=
  try_catch
    (if String.eqb name "" || String.eqb pokemonType "" then mret (failure 400)
     else
       students ← readJSONFile STUDENTS_FILE [];
       let existingStudent :=
         list_find (λ student, toLowerCase (student_name student) = toLowerCase name)
           students in
       match existingStudent with
       | Some _ => mret (failure 409)
       | None =>
         let newStudent :=
           {| student_id := Date_now clock;
              student_name := trim name;
              pokemonType := pokemonType;
              totalPoints := 0;
              student_createdAt := toISOString clock;
              updatedAt := None |} in
         let students := students ++ [newStudent] in
         writeJSONFile STUDENTS_FILE students;;
         mret (ok 201 (OneStudent newStudent))
       end)
    internal_error.

(** PUT /api/students/:id; [totalPoints] is the field of the body, an
    integer, or [None] when the body has none. *)
Definition put_students `{Engine} (clock : Clock) (id : string) (totalPoints : option Z)
  : Async Response :=
  try_catch
    (match parseInt id with
     | NaN => mret (failure 400)
     | Num studentId =>
         students ← readJSONFile STUDENTS_FILE [];
         match list_find (λ s, student_id s = studentId) students with
         | None => mret (failure 404)
         | Some (studentIndex, student) =>
             let student :=
               match totalPoints with
               | Some points => with_totalPoints student points (toISOString clock)
               | None => student
               end in
             let students := <[studentIndex := student]> students in
             writeJSONFile STUDENTS_FILE students;;
             mret (ok 200 (OneStudent student))
         end
     end)
    internal_error.

(** DELETE /api/students/:id *)
Definition delete_students `{Engine} (id : string) : Async Response :=
  try_catch
    (match parseInt id with
     | NaN => mret (failure 400)
     | Num studentId =>
         students ← readJSONFile STUDENTS_FILE [];
         let initialLength := length students in
         let filteredStudents := filter (λ s, student_id s ≠ studentId) students in
         if Nat.eqb (length filteredStudents) initialLength then mret (failure 404)
         else
           writeJSONFile STUDENTS_FILE filteredStudents;;
           mret (ok 200 NoData)
     end)
    internal_error.

(** GET /api/created-activities *)
Definition get_created_activities : Async Response :=
  try_catch
    (createdActivities ← readJSONFile CREATED_ACTIVITIES_FILE [];
     mret (ok 200 (CreatedActivities createdActivities)))
    internal_error.

(** POST /api/created-activities *)
Definition post_created_activities `{Engine} (clock : Clock) (name : string)
    (defaultPoints : Z) (description : string) : Async Response :=
  try_catch
    (if String.eqb name "" || (defaultPoints =? 0) then mret (failure 400)
     else if (defaultPoints <? 1) || (defaultPoints >? 100) then mret (failure 400)
     else
       createdActivities ← readJSONFile CREATED_ACTIVITIES_FILE [];
       let existingActivity :=
         list_find (λ activity, toLowerCase (activity_name activity) = toLowerCase name)
           createdActivities in
       match existingActivity with
       | Some _ => mret (failure 409)
       | None =>
         let newActivity :=
           {| activity_id := Date_now clock;
              activity_name := trim name;
              defaultPoints := parseInt_Number defaultPoints;
              description :=
                if String.eqb description "" then "" else trim description;
              activity_createdAt := toISOString clock |} in
         let createdActivities := createdActivities ++ [newActivity] in
         writeJSONFile CREATED_ACTIVITIES_FILE createdActivities;;
         mret (ok 201 (OneCreatedActivity newActivity))
       end)
    internal_error.

(** DELETE /api/created-activities/:id *)
Definition delete_created_activities `{Engine} (id : string) : Async Response :=
  try_catch
    (match parseInt id with
     | NaN => mret (failure 400)
     | Num activityId =>
         createdActivities ← readJSONFile CREATED_ACTIVITIES_FILE [];
         let initialLength := length createdActivities in
         let filteredActivities :=
           filter (λ a, activity_id a ≠ activityId) createdActivities in
         if Nat.eqb (length filteredActivities) initialLength then mret (failure 404)
         else
           writeJSONFile CREATED_ACTIVITIES_FILE filteredActivities;;
           mret (ok 200 NoData)
     end)
    internal_error.

(** GET /api/activities *)
Definition get_activities : Async Response :=
  try_catch
    (activities ← readJSONFile ACTIVITIES_FILE [];
     mret (ok 200 (Activities activities)))
    internal_error.

(** POST /api/activities *)
Definition post_activities `{Engine} (clock : Clock) (studentId activityId points : Z)
  : Async Response :=
  try_catch
    (if (studentId =? 0) || (activityId =? 0) || (points =? 0) then mret (failure 400)
     else if (points <? 1) || (points >? 100) then mret (failure 400)
     else
       students ← readJSONFile STUDENTS_FILE [];
       createdActivities ← readJSONFile CREATED_ACTIVITIES_FILE [];
       activities ← readJSONFile ACTIVITIES_FILE [];
       let student :=
         list_find (λ s, student_id s = parseInt_Number studentId) students in
       let createdActivity :=
         list_find (λ a, activity_id a = parseInt_Number activityId)
           createdActivities in
       match student with
       | None => mret (failure 404)
       | Some (studentIndex, student) =>
           match createdActivity with
           | None => mret (failure 404)
           | Some (_, createdActivity) =>
               let oldPoints := totalPoints student in
               let student :=
                 with_totalPoints student
                   (to_double (oldPoints + parseInt_Number points))
                   (toISOString clock) in
               let students := <[studentIndex := student]> students in
               let newActivityRecord :=
                 {| record_id := Date_now clock;
                    studentId := parseInt_Number studentId;
                    activityId := parseInt_Number activityId;
                    record_name := activity_name createdActivity;
                    points := parseInt_Number points;
                    date := toLocaleDateString clock;
                    record_createdAt := toISOString clock |} in
               let activities := activities ++ [newActivityRecord] in
               Promise_all2
                 (writeJSONFile STUDENTS_FILE students)
                 (writeJSONFile ACTIVITIES_FILE activities);;
               let oldLevel := level oldPoints in
               let newLevel := level (totalPoints student) in
               let evolved := newLevel >? oldLevel in
               mret (ok 201 (Award newActivityRecord student evolved newLevel))
           end
       end)
    internal_error.

(** GET /api/activities/student/:studentId *)
Definition get_activities_student `{Engine} (id : string) : Async Response :=
  try_catch
    (match parseInt id with
     | NaN => mret (failure 400)
     | Num student =>
         activities ← readJSONFile ACTIVITIES_FILE [];
         let studentActivities := filter (λ a, studentId a = student) activities in
         mret (ok 200 (Activities studentActivities))
     end)
    internal_error.

(** GET /api/ranking; [pokemon] and [limit] are the parameters of the query
    string, [None] when the query does not have them. *)
Definition get_ranking `{Engine} (pokemon limit : option string) : Async Response :=
  try_catch
    (let limit := match limit with Some text => parseInt text | None => Num 5 end in
     students ← readJSONFile STUDENTS_FILE [];
     let filteredStudents :=
       match pokemon with
       | Some type =>
           if negb (String.eqb type "") && negb (String.eqb type "all")
           then filter (λ student, pokemonType student = type) students
           else students
       | None => students
       end in
     let sorted := sort (λ a b, totalPoints b - totalPoints a) filteredStudents in
     let ranking := slice0 sorted limit in
     mret (ok 200 (Ranking ranking (Z.of_nat (length sorted)))))
    internal_error.

(** GET /api/stats *)
Definition get_stats : Async Response :=
  try_catch
    (students ← readJSONFile STUDENTS_FILE [];
     activities ← readJSONFile (A := list ActivityRecord) ACTIVITIES_FILE [];
     createdActivities ← readJSONFile (A := list CreatedActivity) CREATED_ACTIVITIES_FILE [];
     let sumPoints :=
       foldl (λ sum student, to_double (sum + totalPoints student)) 0 students in
     let avgPoints :=
       if (0 <? Z.of_nat (length students))
       then Math_round (divide sumPoints (Z.of_nat (length students)))
       else 0 in
     let pokemonCount :=
       foldl (λ counts student, count_category (pokemonType student) counts) ∅
         students in
     let evolutionLevels :=
       foldl (λ levels student, increment (level (totalPoints student)) levels) ∅
         students in
     mret (ok 200 (Stats
       {| totalStudents := Z.of_nat (length students);
          totalActivities := Z.of_nat (length createdActivities);
          totalActivitiesAssigned := Z.of_nat (length activities);
          stats_totalPoints := sumPoints;
          averagePoints := avgPoints;
          pokemonDistribution := pokemonCount;
          evolutionDistribution := evolutionLevels |})))
    internal_error.

(** The routes of the application; the last one is the 404 middleware. *)
Inductive Request :=
| GET_students
| POST_students (name pokemonType : string)
| PUT_students (id : string) (totalPoints : option Z)
| DELETE_students (id : string)
| GET_created_activities
| POST_created_activities (name : string) (defaultPoints : Z) (description : string)
| DELETE_created_activities (id : string)
| GET_activities
| POST_activities (studentId activityId points : Z)
| GET_activities_student (studentId : string)
| GET_ranking (pokemon limit : option string)
| GET_stats
| Unmatched.

Definition app `{Engine} (clock : Clock) (request : Request) : Async Response :=
  match request with
  | GET_students => get_students
  | POST_students name type => post_students clock name type
  | PUT_students id points => put_students clock id points
  | DELETE_students id => delete_students id
  | GET_created_activities => get_created_activities
  | POST_created_activities name points text =>
      post_created_activities clock name points text
  | DELETE_created_activities id => delete_created_activities id
  | GET_activities => get_activities
  | POST_activities student activity points =>
      post_activities clock student activity points
  | GET_activities_student id => get_activities_student id
  | GET_ranking pokemon limit => get_ranking pokemon limit
  | GET_stats => get_stats
  | Unmatched => mret (failure 404)
  end.

(** ** Notions the properties are stated with *)

(** The calls [parse_value] nests to read a value back. *)
Fixpoint size (v : json) : nat :=
  match v with
  | JArr l => S (list_sum (map (λ e, S (size e)) l))
  | JObj m => S (list_sum (map (λ member, S (size (snd member))) m))
  | _ => 1%nat
  end.

(** What follows a value in a text that [serialize] prints: the end of the
    text, a comma, or the line break before a closing bracket. *)
Definition delimited (r : string) : bool :=
  match r with
  | EmptyString => true
  | String c _ => Ascii.eqb c "," || Ascii.eqb c newline
  end.

(** The first character of an integer literal: a minus sign or a digit. *)
Definition number_start (s : string) : bool :=
  match s with
  | String c _ => Ascii.eqb c "-" || bool_decide (is_Some (digit_of c))
  | EmptyString => false
  end.

(** The document [readJSONFile] finds at a path: the text of the file read
    at the type of the document, the default when there is no such text. *)
Definition loaded {A} `{JSON A} (fs : FileSystem) (filePath : string)
    (defaultValue : A) : A :=
  match fs !! filePath with
  | Some (File data) =>
      match JSON_parse data with
      | Normal v => v
      | Throw _ => defaultValue
      end
  | _ => defaultValue
  end.

(** Printing a document and parsing the text gives the document back. *)
Class Lossless (A : Type) `{JSON A} : Prop :=
  parse_stringify_eq : ∀ value : A, JSON_parse (JSON_stringify value) = Normal value.

(** The student a request with [studentId] resolves to, with its index. *)
Definition find_student (studentId : Z) (fs : FileSystem) : option (nat * Student) :=
  list_find (λ s, student_id s = studentId) (loaded fs STUDENTS_FILE []).



(** A run of a handler either leaves the disk as it was or answers with one
    of the statuses of a request that was served or failed inside. *)
Definition quiet_or_served (fs : FileSystem)
    (result : Completion Response * FileSystem) : Prop :=
  snd result = fs
  ∨ ∃ response,
      fst result = Normal response
      ∧ (status response = 200 ∨ status response = 201 ∨ status response = 500).

(** ** Sample clocks, records and disks *)

Definition clock_1 : Clock :=
  {| Date_now := 1717000000000;
     toISOString := "2024-05-29T16:26:40.000Z";
     toLocaleDateString := "29/05/2024" |}.

Definition clock_2 : Clock :=
  {| Date_now := 1717000060000;
     toISOString := "2024-05-29T16:27:40.000Z";
     toLocaleDateString := "29/05/2024" |}.

Definition ash : Student :=
  {| student_id := 1717000000000;
     student_name := "Ash";
     pokemonType := "Fire";
     totalPoints := 0;
     student_createdAt := "2024-05-29T16:26:40.000Z";
     updatedAt := None |}.

(** The student [POST /api/students] stores for the name [" Ash"]. *)
Definition padded_ash : Student :=
  {| student_id := 1717000060000;
     student_name := "Ash";
     pokemonType := "Water";
     totalPoints := 0;
     student_createdAt := "2024-05-29T16:27:40.000Z";
     updatedAt := None |}.

(** A second student created at the reading of the clock at which [ash] was
    created. *)
Definition brock : Student :=
  {| student_id := 1717000000000;
     student_name := "Brock";
     pokemonType := "Rock";
     totalPoints := 0;
     student_createdAt := "2024-05-29T16:26:40.000Z";
     updatedAt := None |}.

Definition misty : Student :=
  {| student_id := 1717000000001;
     student_name := "Misty";
     pokemonType := "Water";
     totalPoints := 95;
     student_createdAt := "2024-05-29T16:26:40.001Z";
     updatedAt := None |}.

(** Misty after ten points at [clock_2], and the record of the award. *)
Definition misty_105 : Student :=
  with_totalPoints misty 105 (toISOString clock_2).

Definition homework : CreatedActivity :=
  {| activity_id := 1717000000002;
     activity_name := "Homework";
     defaultPoints := 10;
     description := "";
     activity_createdAt := "2024-05-29T16:26:40.002Z" |}.

Definition homework_record : ActivityRecord :=
  {| record_id := 1717000060000;
     studentId := 1717000000001;
     activityId := 1717000000002;
     record_name := "Homework";
     points := 10;
     date := "29/05/2024";
     record_createdAt := "2024-05-29T16:27:40.000Z" |}.

Definition disk_ash : FileSystem :=
  {[ STUDENTS_FILE := File (JSON_stringify [ash]) ]}.

Definition disk_twins : FileSystem :=
  {[ STUDENTS_FILE := File (JSON_stringify [ash; brock]) ]}.

Definition disk_class : FileSystem :=
  {[ STUDENTS_FILE := File (JSON_stringify [ash; misty]);
     CREATED_ACTIVITIES_FILE := File (JSON_stringify [homework]) ]}.

(** A students document as a JSON value. *)
Definition class_document : json :=
  JArr [json_of_Student ash; json_of_Student misty_105].

(** [disk_class] with a ledger that cannot be written. *)
Definition disk_locked : FileSystem := <[ACTIVITIES_FILE := Denied]> disk_class.

(** The writes a request can leave on the disk: none, the registry, the
    activities, or the registry and the ledger with one record more. *)
Definition writes_of (fs fs' : FileSystem) : Prop :=
  fs' = fs
  ∨ (∃ students : list Student,
       fs' = <[STUDENTS_FILE := File (JSON_stringify students)]> fs)
  ∨ (∃ createdActivities : list CreatedActivity,
       fs' = <[CREATED_ACTIVITIES_FILE := File (JSON_stringify createdActivities)]> fs)
  ∨ (∃ (students : list Student) (record : ActivityRecord),
       fs' = <[ACTIVITIES_FILE :=
                 File (JSON_stringify (loaded fs ACTIVITIES_FILE [] ++ [record]))]>
               (<[STUDENTS_FILE := File (JSON_stringify students)]> fs)).

(** The routes that read only. *)
Definition is_GET (request : Request) : bool :=
  match request with
  | GET_students | GET_created_activities | GET_activities
  | GET_activities_student _ | GET_ranking _ _ | GET_stats => true
  | _ => false
  end.

(** The sum of the counts of a distribution. *)
Definition count_sum `{Countable K} (counts : gmap K Z) : Z :=
  map_fold (λ _ count sum, count + sum) 0 counts.

(** What identifies a student: the fields no update writes. *)
Definition identity (student : Student) : Z * string * string * string :=
  (student_id student, student_name student, pokemonType student,
   student_createdAt student).

(** [disk_class] with a registry file that is empty. *)
Definition disk_blank : FileSystem := <[STUDENTS_FILE := File ""]> disk_class.

(** ** The data model on the disk

    What [readJSONFile] returns for a file whose text is JSON of another
    shape than the arrays of records of the data model (a [null], a record
    without a name, a total that is a text or a fraction), or whose numbers
    a double does not hold, is not a value of the types above.  The
    properties that depend on what a file holds are stated for disks of the
    data model. *)

(** The file at a path, when there is one that can be read, holds a
    document of the type [A]. *)
Definition held (A : Type) `{JSON A} (fs : FileSystem) (filePath : string) : bool :=
  match fs !! filePath with
  | Some (File text) =>
      match (JSON_parse text : Completion A) with
      | Normal _ => true
      | Throw _ => false
      end
  | _ => true
  end.

Definition students_stored (fs : FileSystem) : bool :=
  held (list Student) fs STUDENTS_FILE
  && forallb
       (λ s, Number_isSafeInteger (student_id s)
             && Number_isSafeInteger (totalPoints s))
       (loaded fs STUDENTS_FILE []).

Definition activities_stored (fs : FileSystem) : bool :=
  held (list CreatedActivity) fs CREATED_ACTIVITIES_FILE
  && forallb
       (λ a, Number_isSafeInteger (activity_id a)
             && Number_isSafeInteger (defaultPoints a))
       (loaded fs CREATED_ACTIVITIES_FILE []).

Definition ledger_stored (fs : FileSystem) : bool :=
  held (list ActivityRecord) fs ACTIVITIES_FILE
  && forallb
       (λ r, Number_isSafeInteger (record_id r)
             && Number_isSafeInteger (studentId r)
             && Number_isSafeInteger (activityId r)
             && Number_isSafeInteger (points r))
       (loaded fs ACTIVITIES_FILE []).

Definition data_model (fs : FileSystem) : bool :=
  students_stored fs && activities_stored fs && ledger_stored fs.

(** The categories the object of counts keeps a number for: those that
    are not the name of a property an object literal inherits. *)
Definition counted (category : string) : bool :=
  negb (String.eqb category "__proto__")
  && negb (bool_decide (category ∈ Object_prototype)).

(** The sum of the magnitudes of the totals of a registry. *)
Definition magnitude (students : list Student) : Z :=
  foldr (λ s sum, Z.abs (totalPoints s) + sum) 0 students.

(** ** More sample records and disks *)

Definition gary : Student :=
  {| student_id := 1717000000003;
     student_name := "Gary";
     pokemonType := "Fire";
     totalPoints := 150;
     student_createdAt := "2024-05-29T16:26:40.003Z";
     updatedAt := None |}.

Definition red : Student :=
  {| student_id := 1717000000004;
     student_name := "Red";
     pokemonType := "Fire";
     totalPoints := 50;
     student_createdAt := "2024-05-29T16:26:40.004Z";
     updatedAt := None |}.

(** Three students of one category and one of another. *)
Definition disk_league : FileSystem :=
  {[ STUDENTS_FILE := File (JSON_stringify [ash; misty; gary; red]) ]}.

(** [disk_class] after [PUT /api/students/1717000000001] with a total a
    double holds and no safe integer reaches. *)
Definition disk_deep : FileSystem :=
  <[STUDENTS_FILE :=
      File (JSON_stringify
        [ash; with_totalPoints misty (-9007199254741002) (toISOString clock_1)])]>
    disk_class.


(** Three students whose totals add up to 9000000000000001. *)
Definition disk_rich : FileSystem :=
  {[ STUDENTS_FILE :=
       File (JSON_stringify
         [with_totalPoints ash 3000000000000000 (toISOString clock_1);
          with_totalPoints misty 3000000000000000 (toISOString clock_1);
          with_totalPoints gary 3000000000000001 (toISOString clock_1)]) ]}.

(** * Part II: properties *)

(** ** The built-ins on sample inputs *)

Example parseInt_examples :
  parseInt "42" = Num 42
  ∧ parseInt "  -7px" = Num (-7)
  ∧ parseInt "+15" = Num 15
  ∧ parseInt "0x1F" = Num 31
  ∧ parseInt "1717000000000" = Num 1717000000000
  ∧ parseInt "abc" = NaN
  ∧ parseInt "" = NaN.
Proof. repeat split. Qed.

Example trim_examples :
  trim "  Ash " = "Ash" ∧ trim "Ash Ketchum" = "Ash Ketchum" ∧ trim "   " = "".
Proof. repeat split. Qed.

Example toLowerCase_examples :
  toLowerCase "Ash KETCHUM" = "ash ketchum" ∧ toLowerCase " Ash" = " ash".
Proof. repeat split. Qed.

Example slice0_examples :
  slice0 [1; 2; 3] (Num 2) = [1; 2]
  ∧ slice0 [1; 2; 3] (Num 5) = [1; 2; 3]
  ∧ slice0 [1; 2; 3] (Num (-1)) = [1; 2]
  ∧ slice0 [1; 2; 3] (Num (-7)) = []
  ∧ slice0 [1; 2; 3] NaN = [].
Proof. repeat split. Qed.

(** Equal keys keep their order. *)
Example sort_example :
  sort (λ a b : Z * string, fst b - fst a) [(10, "a"); (95, "b"); (10, "c"); (200, "d")]
  = [(200, "d"); (95, "b"); (10, "a"); (10, "c")].
Proof. reflexivity. Qed.

Example to_double_examples :
  to_double 105 = 105
  ∧ to_double (2 ^ 53 + 1) = 2 ^ 53
  ∧ to_double (2 ^ 53 + 3) = 2 ^ 53 + 4
  ∧ to_double (-9007199254741001) = -9007199254741000
  ∧ to_double (2 ^ 60 + 2 ^ 7) = 2 ^ 60
  ∧ to_double (2 ^ 60 + 3 * 2 ^ 7) = 2 ^ 60 + 2 ^ 9.
Proof. repeat split. Qed.

Example level_examples :
  level 95 = 0 ∧ level 105 = 1 ∧ level 199 = 1 ∧ level 200 = 2 ∧ level 260 = 2
  ∧ level 0 = 0 ∧ level (-1) = -1 ∧ level (-100) = -1 ∧ level (-101) = -2
  ∧ level (-9007199254741002) = -90071992547411
  ∧ level (-9007199254741000) = -90071992547410.
Proof. repeat split. Qed.

Example Math_round_examples :
  Math_round (divide 5 2) = 3 ∧ Math_round (divide 7 3) = 2
  ∧ Math_round (divide 8 3) = 3 ∧ Math_round (divide (-5) 2) = -2
  ∧ Math_round (divide (-3) 2) = -1 ∧ Math_round (divide 0 3) = 0
  ∧ Math_round (divide 9000000000000001 3) = 3000000000000001.
Proof. repeat split. Qed.

Example count_category_examples :
  count_category "Fire" (count_category "Fire" ∅) !! "Fire" = Some (Count 2)
  ∧ count_category "__proto__" ∅ = ∅
  ∧ count_category "valueOf" ∅ !! "valueOf"
    = Some (Text "function valueOf() { [native code] }1")
  ∧ count_category "constructor" (count_category "constructor" ∅) !! "constructor"
    = Some (Text "function Object() { [native code] }11").
Proof. repeat split. Qed.

(** ** Numbers *)

Lemma safe_spec (n : Z) : Number_isSafeInteger n = true ↔ safe n.
Proof. unfold Number_isSafeInteger, safe. rewrite andb_true_iff, !Z.leb_le. tauto. Qed.

Lemma round_half_even_near (n d : Z) :
  0 < d → 2 * n - d ≤ 2 * (d * round_half_even n d) ≤ 2 * n + d.
Proof.
  intros Hd. unfold round_half_even.
  pose proof (Z.div_mod n d ltac:(lia)) as Hn.
  pose proof (Z.mod_pos_bound n d Hd) as Hr.
  destruct (Z.ltb_spec (2 * (n mod d)) d); [nia|].
  destruct (Z.ltb_spec d (2 * (n mod d))); [nia|].
  destruct (Z.even (n / d)); nia.
Qed.

(** A sum that stays within 2^53 is exact. *)
Lemma to_double_exact (n : Z) : Z.abs n ≤ 2 ^ 53 → to_double n = n.
Proof.
  intros Hn. unfold to_double. by destruct (Z.leb_spec (Z.abs n) (2 ^ 53)); [|lia].
Qed.

Lemma to_double_safe (n : Z) : safe n → to_double n = n.
Proof. unfold safe, MAX_SAFE_INTEGER. intros Hn. apply to_double_exact. lia. Qed.

Lemma binary_exponent_spec (a y : Z) :
  0 < a → 0 < y →
  let e := binary_exponent a y in
  (0 ≤ e → y * 2 ^ e ≤ a) ∧ (e < 0 → y ≤ a * 2 ^ (- e)).
Proof.
  intros Ha Hy. cbv zeta. unfold binary_exponent.
  destruct (Z.leb_spec y a) as [Hle|Hlt].
  - assert (0 < a / y) as Hq by (apply Z.div_str_pos; lia).
    pose proof (Z.log2_spec (a / y) Hq) as [Hlow _].
    pose proof (Z.log2_nonneg (a / y)).
    split; [|lia]. intros _.
    pose proof (Z.mul_div_le a y Hy). nia.
  - assert (1 < (y + a - 1) / a) as Hc.
    { assert (2 ≤ (y + a - 1) / a); [|lia]. apply Z.div_le_lower_bound; lia. }
    pose proof (Z.log2_up_spec _ Hc) as [_ Hup].
    pose proof (Z.log2_up_pos _ Hc).
    split; [lia|]. intros _. rewrite Z.opp_involutive.
    assert (y ≤ a * ((y + a - 1) / a)); [|nia].
    pose proof (Z.div_mod (y + a - 1) a ltac:(lia)).
    pose proof (Z.mod_pos_bound (y + a - 1) a Ha). lia.
Qed.

(** The quotient of [x] by [y] as a double: a mantissa [M] at a scale
    [2 ^ k] that is within a half of [x * 2 ^ k / y]. *)
Lemma divide_spec (x y : Z) :
  0 < y → x ≠ 0 → Z.abs x < 2 ^ 53 * y →
  ∃ k M,
    divide x y = {| mantissa := M; exponent := - k |}
    ∧ 0 ≤ k
    ∧ y * 2 ^ 52 ≤ Z.abs x * 2 ^ k
    ∧ 2 * (x * 2 ^ k) - y ≤ 2 * (y * M) ≤ 2 * (x * 2 ^ k) + y.
Proof.
  intros Hy Hx Hbound. unfold divide.
  destruct (Z.eqb_spec (Z.abs x) 0) as [|_]; [lia|].
  destruct (binary_exponent_spec (Z.abs x) y ltac:(lia) Hy) as [Hpos Hneg].
  cbv zeta in *. set (e := binary_exponent (Z.abs x) y) in *.
  assert (e ≤ 52) as He.
  { destruct (Z_lt_le_dec 52 e) as [Hbig|]; [|lia]. exfalso.
    assert (2 ^ 53 ≤ 2 ^ e) by (apply Z.pow_le_mono_r; lia).
    specialize (Hpos ltac:(lia)). nia. }
  exists (52 - e), (Z.sgn x * round_half_even (Z.abs x * 2 ^ (52 - e)) y).
  destruct (Z.leb_spec 0 (52 - e)); [|lia].
  split; [reflexivity|]. split; [lia|]. split.
  - destruct (Z_lt_le_dec e 0) as [Hlt|Hge].
    + specialize (Hneg Hlt).
      replace (52 - e) with (52 + - e) by lia. rewrite Z.pow_add_r by lia.
      rewrite (Z.mul_comm (2 ^ 52)), Z.mul_assoc.
      apply Z.mul_le_mono_nonneg_r; lia.
    + specialize (Hpos Hge).
      assert (2 ^ 52 = 2 ^ e * 2 ^ (52 - e)) as ->
        by (rewrite <- Z.pow_add_r by lia; f_equal; lia).
      rewrite Z.mul_assoc.
      apply Z.mul_le_mono_nonneg_r; [|done].
      apply Z.pow_nonneg. lia.
  - pose proof (round_half_even_near (Z.abs x * 2 ^ (52 - e)) y Hy) as Hnear.
    clearbody e. destruct (Z_lt_le_dec x 0).
    + rewrite Z.sgn_neg by lia. rewrite Z.abs_neq in * by lia. lia.
    + rewrite Z.sgn_pos by lia. rewrite Z.abs_eq in * by lia. lia.
Qed.

(** Up to 2^53 the hundreds of a total are the hundreds the program
    computes. *)
Lemma Math_floor_divide_100 (t : Z) :
  Z.abs t ≤ 2 ^ 53 → Math_floor (divide t 100) = t / 100.
Proof.
  intros Ht. destruct (decide (t = 0)) as [->|Hne]; [reflexivity|].
  destruct (divide_spec t 100 ltac:(lia) Hne ltac:(lia))
    as (k & M & -> & Hk & Hexp & Hnear).
  assert (6 ≤ k) as Hk6.
  { destruct (Z_lt_le_dec k 6) as [Hsmall|]; [|lia]. exfalso.
    assert (2 ^ k ≤ 2 ^ 5) by (apply Z.pow_le_mono_r; lia).
    change (2 ^ 5) with 32 in *.
    pose proof (Z.pow_pos_nonneg 2 k ltac:(lia) Hk). nia. }
  assert (64 ≤ 2 ^ k) as HP.
  { change 64 with (2 ^ 6). apply Z.pow_le_mono_r; lia. }
  unfold Math_floor. cbn [exponent mantissa].
  destruct (Z.leb_spec 0 (- k)); [lia|]. rewrite Z.opp_involutive.
  set (P := 2 ^ k) in *.
  pose proof (Z.div_mod t 100 ltac:(lia)) as Hdiv.
  pose proof (Z.mod_pos_bound t 100 ltac:(lia)) as Hmod.
  symmetry. apply (Z.div_unique M P (t / 100) (M - P * (t / 100))); [|lia].
  left. nia.
Qed.

Lemma level_exact (t : Z) : Z.abs t ≤ 2 ^ 53 → level t = Z.min 2 (t / 100).
Proof. intros Ht. unfold level. by rewrite Math_floor_divide_100. Qed.

Lemma level_safe (t : Z) : safe t → level t = Z.min 2 (t / 100).
Proof. unfold safe, MAX_SAFE_INTEGER. intros Ht. apply level_exact. lia. Qed.

Lemma level_le_2 (total : Z) : level total ≤ 2.
Proof. unfold level. lia. Qed.

(** Below 2^52 the rounded quotient the program computes is the nearest
    integer to the quotient. *)
Lemma Math_round_divide (x y : Z) :
  0 < y → Z.abs x < 2 ^ 52 → Math_round (divide x y) = (2 * x + y) / (2 * y).
Proof.
  intros Hy Hx. destruct (decide (x = 0)) as [->|Hne].
  { cbn. symmetry. apply Z.div_small. lia. }
  destruct (divide_spec x y Hy Hne ltac:(nia)) as (k & M & -> & Hk & Hexp & Hnear).
  assert (y < 2 ^ k) as HP by nia.
  assert (1 ≤ k) as Hk1.
  { destruct (decide (k = 0)) as [->|]; [|lia]. change (2 ^ 0) with 1 in HP. lia. }
  unfold Math_round. cbn [exponent mantissa].
  destruct (Z.leb_spec 0 (- k)); [lia|]. rewrite Z.opp_involutive.
  assert (2 ^ k = 2 * 2 ^ (k - 1)) as Hhalf.
  { rewrite <- Z.pow_succ_r by lia. f_equal. lia. }
  set (P := 2 ^ k) in *. set (half := 2 ^ (k - 1)) in *.
  set (R := (2 * x + y) / (2 * y)).
  pose proof (Z.div_mod (2 * x + y) (2 * y) ltac:(lia)) as Hdiv.
  pose proof (Z.mod_pos_bound (2 * x + y) (2 * y) ltac:(lia)) as Hmod.
  fold R in Hdiv.
  symmetry. apply (Z.div_unique (M + half) P R (M + half - P * R)); [|lia].
  left. split.
  - assert (2 * (y * (P * R)) - y ≤ 2 * (y * (M + half))); nia.
  - assert (2 * (y * (M + half)) < 2 * (y * (P * (R + 1)))); nia.
Qed.

Example serialize_example :
  serialize 0 (JArr [JObj [("id", JNum 7); ("tags", JArr [])]; JNum (-2)])
  = String "[" (String newline ("  {" +:+ String newline
      ("    " +:+ quote "id" +:+ ": 7," +:+ String newline
      ("    " +:+ quote "tags" +:+ ": []" +:+ String newline
      ("  }," +:+ String newline
      ("  -2" +:+ String newline "]")))))).
Proof. reflexivity. Qed.

Example parse_examples :
  parse "[1, 2 ,3]" = Normal (JArr [JNum 1; JNum 2; JNum 3])
  ∧ parse " {} " = Normal (JObj [])
  ∧ parse "[01]" = Throw SyntaxError
  ∧ parse "[1,]" = Throw SyntaxError
  ∧ parse "" = Throw SyntaxError.
Proof. repeat split. Qed.

(** ** Text *)

Lemma append_assoc (a b c : string) : (a +:+ b) +:+ c = a +:+ (b +:+ c).
Proof. induction a as [|x a IH]; simpl; [reflexivity|]. by rewrite IH. Qed.

Lemma append_empty_r (a : string) : a +:+ "" = a.
Proof. induction a as [|x a IH]; simpl; [reflexivity|]. by rewrite IH. Qed.

Lemma length_append (a b : string) :
  String.length (a +:+ b) = (String.length a + String.length b)%nat.
Proof. induction a as [|x a IH]; simpl; [reflexivity|]. by rewrite IH. Qed.

(** ** String literals *)

Lemma parse_chars_escape_char (c : ascii) (t : string) :
  parse_chars (escape_char c +:+ t) =
  match parse_chars t with
  | Some (str, r) => Some (String c str, r)
  | None => None
  end.
Proof. destruct c as [[] [] [] [] [] [] [] []]; reflexivity. Qed.

Lemma parse_chars_escape (s r : string) :
  parse_chars (escape s +:+ String dquote r) = Some (s, r).
Proof.
  induction s as [|c s IH]; [reflexivity|].
  cbn [escape]. rewrite append_assoc, parse_chars_escape_char, IH. reflexivity.
Qed.

(** ** Numbers *)

Lemma delimited_no_digit (r : string) :
  delimited r = true → number_start r = false ∧ continues_number r = false.
Proof.
  destruct r as [|c r]; [done|].
  destruct c as [[] [] [] [] [] [] [] []]; done.
Qed.

Lemma parse_digits_string_of_uint (u : Decimal.uint) (r : string) :
  number_start r = false →
  parse_digits (NilEmpty.string_of_uint u +:+ r) = (u, r).
Proof.
  intros Hr. induction u; simpl; rewrite ?IHu; try reflexivity.
  destruct r as [|c r]; [reflexivity|]. simpl in *.
  apply orb_false_iff in Hr as [_ Hr]. apply bool_decide_eq_false in Hr.
  destruct (digit_of c); [|reflexivity]. destruct Hr; eauto.
Qed.

Lemma uint_beq_refl (u : Decimal.uint) : Decimal.uint_beq u u = true.
Proof. by apply Decimal.internal_uint_dec_lb. Qed.

Lemma unorm_to_uint (p : positive) : Decimal.unorm (Pos.to_uint p) = Pos.to_uint p.
Proof. by rewrite <- Unsigned.to_of, Unsigned.of_to. Qed.

Lemma parse_unsigned_to_uint (p : positive) (r : string) :
  delimited r = true →
  parse_unsigned (NilEmpty.string_of_uint (Pos.to_uint p) +:+ r) = Some (Z.pos p, r).
Proof.
  intros [Hd Hc]%delimited_no_digit. unfold parse_unsigned.
  rewrite parse_digits_string_of_uint by done.
  pose proof (Unsigned.to_uint_nonnil p) as Hnil.
  rewrite unorm_to_uint, uint_beq_refl, Hc. simpl.
  unfold Z.of_uint. rewrite Unsigned.of_to.
  by destruct (Pos.to_uint p).
Qed.

Lemma string_of_uint_start (u : Decimal.uint) (r : string) :
  u ≠ Decimal.Nil →
  ∃ c t, NilEmpty.string_of_uint u +:+ r = String c t ∧ is_Some (digit_of c).
Proof. destruct u; [done|..]; intros _; simpl; eauto. Qed.

Lemma parse_number_string_of_Z (z : Z) (r : string) :
  delimited r = true →
  parse_number (string_of_Z z +:+ r) = Some (z, r).
Proof.
  intros Hr. destruct z as [|p|p]; unfold string_of_Z; simpl.
  - destruct (delimited_no_digit _ Hr) as [Hd Hc].
    unfold parse_unsigned. simpl.
    change r with ("" +:+ r) at 1.
    rewrite (parse_digits_string_of_uint Decimal.Nil) by done. simpl.
    by rewrite Hc.
  - destruct (string_of_uint_start (Pos.to_uint p) r) as (c & t & Heq & Hc);
      [apply Unsigned.to_uint_nonnil|].
    pose proof (parse_unsigned_to_uint p r Hr) as Hp. rewrite Heq in *.
    unfold parse_number.
    destruct c as [[] [] [] [] [] [] [] []]; try done;
      by destruct Hc.
  - by rewrite parse_unsigned_to_uint.
Qed.

Lemma string_of_Z_start (z : Z) (r : string) :
  number_start (string_of_Z z +:+ r) = true.
Proof.
  destruct z as [|p|p]; unfold string_of_Z; simpl; try done.
  destruct (string_of_uint_start (Pos.to_uint p) r) as (c & t & -> & Hc);
    [apply Unsigned.to_uint_nonnil|].
  simpl. rewrite bool_decide_eq_true_2 by done. apply orb_true_r.
Qed.

(** ** White space *)

Lemma skip_ws_spaces (n : nat) (t : string) : skip_ws (spaces n +:+ t) = skip_ws t.
Proof. induction n as [|n IH]; [reflexivity|]. exact IH. Qed.

Lemma skip_ws_newline_spaces (n : nat) (t : string) :
  skip_ws (String newline (spaces n +:+ t)) = skip_ws t.
Proof. exact (skip_ws_spaces n t). Qed.

Lemma skip_ws_idemp (s : string) : skip_ws (skip_ws s) = skip_ws s.
Proof.
  induction s as [|c s IH]; [reflexivity|].
  simpl. destruct (is_ws c) eqn:Hc; [exact IH|]. simpl. by rewrite Hc.
Qed.

Lemma number_start_no_space (s : string) :
  number_start s = true → skip_ws s = s ∧ head_is "]" s = false.
Proof.
  destruct s as [|c s]; [done|].
  destruct c as [[] [] [] [] [] [] [] []]; done.
Qed.

Lemma serialize_start (i : nat) (v : json) (r : string) :
  skip_ws (serialize i v +:+ r) = serialize i v +:+ r
  ∧ head_is "]" (serialize i v +:+ r) = false.
Proof.
  destruct v as [|[]|z|s|[|x l]|[|x m]]; try done.
  apply number_start_no_space, string_of_Z_start.
Qed.

Lemma join_cons (separator x : string) (l : list string) (r : string) :
  join separator (x :: l) +:+ r =
  x +:+ match l with [] => r | _ => separator +:+ join separator l +:+ r end.
Proof. destruct l; [reflexivity|]. cbn [join]. by rewrite !append_assoc. Qed.

Lemma elements_start (i : nat) (separator : string) (l : list json) (r : string) :
  l ≠ [] →
  skip_ws (join separator (map (serialize i) l) +:+ r)
    = join separator (map (serialize i) l) +:+ r
  ∧ head_is "]" (join separator (map (serialize i) l) +:+ r) = false.
Proof.
  destruct l as [|x l]; [done|]. intros _.
  rewrite map_cons, join_cons. apply serialize_start.
Qed.

(** ** One step of the parser *)

Lemma parse_value_skip_ws (fuel : nat) (s : string) :
  parse_value fuel (skip_ws s) = parse_value fuel s.
Proof. destruct fuel; [reflexivity|]. simpl. by rewrite skip_ws_idemp. Qed.

Lemma parse_elements_skip_ws (fuel : nat) (s : string) :
  parse_elements fuel (skip_ws s) = parse_elements fuel s.
Proof. destruct fuel; [reflexivity|]. simpl. by rewrite parse_value_skip_ws. Qed.

Lemma parse_value_number (fuel : nat) (s : string) :
  number_start s = true →
  parse_value (S fuel) s =
  match parse_number s with
  | Some (z, r) => Some (JNum z, r)
  | None => None
  end.
Proof.
  destruct s as [|c s]; [done|].
  destruct c as [[] [] [] [] [] [] [] []]; try done; intros _;
    cbn [parse_value skip_ws is_ws]; unfold mbind, option_bind;
    by destruct (parse_number _) as [[]|].
Qed.

Lemma parse_value_string (fuel : nat) (s : string) :
  parse_value (S fuel) (String dquote s) =
  match parse_chars s with
  | Some (str, r) => Some (JStr str, r)
  | None => None
  end.
Proof.
  cbn [parse_value skip_ws is_ws dquote]. unfold mbind, option_bind.
  by destruct (parse_chars s) as [[]|].
Qed.

Lemma parse_value_array (fuel : nat) (s : string) :
  head_is "]" (skip_ws s) = false →
  parse_value (S fuel) (String "[" s) =
  match parse_elements fuel (skip_ws s) with
  | Some (l, r) => Some (JArr l, r)
  | None => None
  end.
Proof.
  intros Hs. cbn [parse_value skip_ws is_ws]. rewrite Hs.
  unfold mbind, option_bind. by destruct (parse_elements _ _) as [[]|].
Qed.

Lemma parse_value_object (fuel : nat) (s : string) :
  head_is "}" (skip_ws s) = false →
  parse_value (S fuel) (String "{" s) =
  match parse_members fuel (skip_ws s) with
  | Some (m, r) => Some (JObj m, r)
  | None => None
  end.
Proof.
  intros Hs. cbn [parse_value skip_ws is_ws]. rewrite Hs.
  unfold mbind, option_bind. by destruct (parse_members _ _) as [[]|].
Qed.

Lemma parse_elements_step (fuel : nat) (s : string) :
  parse_elements (S fuel) s =
  match parse_value fuel s with
  | Some (v, r) =>
      match skip_ws r with
      | String ","%char r' =>
          match parse_elements fuel r' with
          | Some (l, r'') => Some (v :: l, r'')
          | None => None
          end
      | String "]"%char r' => Some ([v], r')
      | _ => None
      end
  | None => None
  end.
Proof.
  cbn [parse_elements]. unfold mbind, option_bind.
  destruct (parse_value fuel s) as [[v r]|]; [|reflexivity].
  destruct (skip_ws r) as [|c r']; [reflexivity|].
  destruct c as [[] [] [] [] [] [] [] []]; reflexivity.
Qed.

Lemma parse_members_step (fuel : nat) (s : string) :
  parse_members (S fuel) (String dquote s) =
  match parse_chars s with
  | Some (k, r1) =>
      match skip_ws r1 with
      | String ":"%char r2 =>
          match parse_value fuel r2 with
          | Some (v, r3) =>
              match skip_ws r3 with
              | String ","%char r4 =>
                  match parse_members fuel r4 with
                  | Some (m, r5) => Some ((k, v) :: m, r5)
                  | None => None
                  end
              | String "}"%char r4 => Some ([(k, v)], r4)
              | _ => None
              end
          | None => None
          end
      | _ => None
      end
  | None => None
  end.
Proof.
  cbn [parse_members skip_ws is_ws dquote]. unfold mbind, option_bind.
  destruct (parse_chars s) as [[k r1]|]; [|reflexivity].
  destruct (skip_ws r1) as [|c r2]; [reflexivity|].
  destruct c as [[] [] [] [] [] [] [] []]; reflexivity.
Qed.

Lemma parse_members_skip_ws (fuel : nat) (s : string) :
  parse_members fuel (skip_ws s) = parse_members fuel s.
Proof. destruct fuel; [reflexivity|]. simpl. by rewrite skip_ws_idemp. Qed.

(** ** Reading back what [serialize] prints *)

Lemma serialize_array_cons (i : nat) (x : json) (l : list json) (r : string) :
  serialize i (JArr (x :: l)) +:+ r =
  String "[" (String newline (spaces (i + 2) +:+
    (join (String "," (String newline (spaces (i + 2))))
       (map (serialize (i + 2)) (x :: l))
     +:+ String newline (spaces i +:+ String "]" r)))).
Proof.
  cbn [serialize]. repeat (cbn [String.append]; rewrite ?append_assoc). reflexivity.
Qed.

Lemma serialize_object_cons (i : nat) (x : string * json)
    (m : list (string * json)) (r : string) :
  serialize i (JObj (x :: m)) +:+ r =
  String "{" (String newline (spaces (i + 2) +:+
    (join (String "," (String newline (spaces (i + 2))))
       (map (λ member, quote (fst member) +:+ ": " +:+ serialize (i + 2) (snd member))
          (x :: m))
     +:+ String newline (spaces i +:+ String "}" r)))).
Proof.
  cbn [serialize]. repeat (cbn [String.append]; rewrite ?append_assoc). reflexivity.
Qed.

Lemma member_text (i : nat) (k : string) (v : json) (r : string) :
  (quote k +:+ ": " +:+ serialize i v) +:+ r =
  String dquote (escape k +:+ String dquote (String ":" (String " " (serialize i v +:+ r)))).
Proof.
  unfold quote. repeat (cbn [String.append]; rewrite ?append_assoc). reflexivity.
Qed.

Lemma join_cons_ne (separator x : string) (l : list string) (r : string) :
  l ≠ [] →
  join separator (x :: l) +:+ r = x +:+ (separator +:+ (join separator l +:+ r)).
Proof. destruct l; [done|]. intros _. cbn [join]. by rewrite !append_assoc. Qed.

Lemma separator_append (i : nat) (t : string) :
  String "," (String newline (spaces i)) +:+ t
  = String "," (String newline (spaces i +:+ t)).
Proof. reflexivity. Qed.

Lemma members_start (i : nat) (x : string * json) (m : list (string * json))
    (r : string) :
  let text :=
    join (String "," (String newline (spaces i)))
      (map (λ member, quote (fst member) +:+ ": " +:+ serialize i (snd member)) (x :: m))
    +:+ r in
  ∃ t, text = String dquote t.
Proof.
  cbn zeta. rewrite map_cons, join_cons. unfold quote. cbn [String.append]. eauto.
Qed.

Lemma parse_serialize (fuel : nat) :
  (∀ v i r, (size v ≤ fuel)%nat → delimited r = true →
     parse_value fuel (serialize i v +:+ r) = Some (v, r))
  ∧ (∀ l i j r, l ≠ [] → (list_sum (map (λ e, S (size e)) l) ≤ fuel)%nat →
       parse_elements fuel
         (join (String "," (String newline (spaces i))) (map (serialize i) l)
          +:+ String newline (spaces j +:+ String "]" r)) = Some (l, r))
  ∧ (∀ m i j r, m ≠ [] →
       (list_sum (map (λ member, S (size (snd member))) m) ≤ fuel)%nat →
       parse_members fuel
         (join (String "," (String newline (spaces i)))
            (map (λ member, quote (fst member) +:+ ": " +:+ serialize i (snd member)) m)
          +:+ String newline (spaces j +:+ String "}" r)) = Some (m, r)).
Proof.
  induction fuel as [|fuel (IHv & IHe & IHm)].
  { split; [|split].
    - intros v i r Hsize. destruct v; simpl in Hsize; lia.
    - intros [|x l] i j r Hl Hsize; [done|]. simpl in Hsize. lia.
    - intros [|x m] i j r Hm Hsize; [done|]. simpl in Hsize. lia. }
  split; [|split].
  - intros v i r Hsize Hr. destruct v as [|[]|z|s|l|m].
    + reflexivity.
    + reflexivity.
    + reflexivity.
    + cbn [serialize]. rewrite parse_value_number by apply string_of_Z_start.
      by rewrite parse_number_string_of_Z.
    + cbn [serialize]. unfold quote.
      repeat (cbn [String.append]; rewrite ?append_assoc).
      by rewrite parse_value_string, parse_chars_escape.
    + destruct l as [|x l]; [reflexivity|].
      rewrite serialize_array_cons.
      destruct (elements_start (i + 2) (String "," (String newline (spaces (i + 2))))
                  (x :: l) (String newline (spaces i +:+ String "]" r)))
        as [Hskip Hhead]; [done|].
      rewrite parse_value_array; rewrite skip_ws_newline_spaces, Hskip; [|done].
      rewrite IHe; [done..|]. simpl in Hsize. simpl. lia.
    + destruct m as [|x m]; [reflexivity|].
      rewrite serialize_object_cons.
      destruct (members_start (i + 2) x m (String newline (spaces i +:+ String "}" r)))
        as [t Ht].
      rewrite parse_value_object; rewrite skip_ws_newline_spaces;
        [|by rewrite Ht].
      assert (skip_ws (String dquote t) = String dquote t) as Hskip by reflexivity.
      rewrite <- Ht in Hskip. rewrite Hskip.
      rewrite IHm; [done..|]. simpl in Hsize. simpl. lia.
  - intros l i j r Hl Hsize. destruct l as [|x l]; [done|].
    rewrite parse_elements_step.
    cbn [map list_sum foldr] in Hsize.
    destruct l as [|y l].
    + cbn [map join]. rewrite IHv; [|lia|done]. cbv beta iota.
      by rewrite skip_ws_newline_spaces.
    + rewrite map_cons, join_cons_ne by done.
      rewrite IHv; [|lia|done]. cbv beta iota.
      rewrite separator_append. cbn [skip_ws is_ws].
      destruct (elements_start i (String "," (String newline (spaces i)))
                  (y :: l) (String newline (spaces j +:+ String "]" r)))
        as [Hskip _]; [done|].
      rewrite <- parse_elements_skip_ws, skip_ws_newline_spaces, Hskip.
      rewrite IHe; [done..|]. unfold list_sum in *. lia.
  - intros m i j r Hm Hsize. destruct m as [|[k v] m]; [done|].
    cbn [map list_sum foldr snd] in Hsize.
    destruct m as [|y m].
    + cbn [map join fst snd].
      rewrite member_text, parse_members_step, parse_chars_escape. cbv beta iota.
      cbn [skip_ws is_ws].
      rewrite <- parse_value_skip_ws. cbn [skip_ws is_ws].
      rewrite parse_value_skip_ws, IHv; [|lia|done]. cbv beta iota.
      by rewrite skip_ws_newline_spaces.
    + rewrite map_cons, join_cons_ne by done. cbn [fst snd].
      rewrite member_text, parse_members_step, parse_chars_escape. cbv beta iota.
      cbn [skip_ws is_ws].
      rewrite <- parse_value_skip_ws. cbn [skip_ws is_ws].
      rewrite parse_value_skip_ws, IHv; [|lia|done]. cbv beta iota.
      rewrite separator_append. cbn [skip_ws is_ws].
      destruct (members_start i y m (String newline (spaces j +:+ String "}" r)))
        as [t Ht].
      rewrite <- parse_members_skip_ws, skip_ws_newline_spaces.
      assert (skip_ws (String dquote t) = String dquote t) as Hskip by reflexivity.
      rewrite <- Ht in Hskip. rewrite Hskip.
      rewrite IHm; [done..|]. unfold list_sum in *. lia.
Qed.

(** ** The fuel [parse] starts with is enough *)

Lemma length_join_bound {A} (f : A → string) (g : A → nat) (separator : string)
    (l : list A) :
  (1 ≤ String.length separator)%nat →
  Forall (λ e, (g e ≤ String.length (f e))%nat) l →
  (list_sum (map (λ e, S (g e)) l) ≤ S (String.length (join separator (map f l))))%nat.
Proof.
  intros Hsep Hl. induction Hl as [|x l Hx Hl IH]; [simpl; lia|].
  destruct l as [|y l]; [simpl in *; lia|].
  rewrite map_cons. cbn [list_sum foldr map] in *.
  change (join separator (f x :: f y :: map f l))
    with (f x +:+ separator +:+ join separator (f y :: map f l)).
  rewrite !length_append. lia.
Qed.

Lemma size_element (e : json) (l : list json) :
  e ∈ l → (S (size e) ≤ list_sum (map (λ e, S (size e)) l))%nat.
Proof.
  induction 1 as [|x y l Hin IH]; cbn [map list_sum foldr] in *; unfold list_sum in *; lia.
Qed.

Lemma size_member (x : string * json) (m : list (string * json)) :
  x ∈ m → (S (size (snd x)) ≤ list_sum (map (λ member, S (size (snd member))) m))%nat.
Proof.
  induction 1 as [|x y l Hin IH]; cbn [map list_sum foldr] in *; unfold list_sum in *; lia.
Qed.

Lemma size_le_length (n : nat) (v : json) (i : nat) :
  (size v ≤ n)%nat → (size v ≤ String.length (serialize i v))%nat.
Proof.
  revert v i. induction n as [|n IH]; intros v i Hn.
  { destruct v; simpl in Hn; lia. }
  destruct v as [|[]|z|s|[|x l]|[|x m]]; try (simpl; lia).
  - pose proof (string_of_Z_start z "") as Hz. cbn [serialize size].
    destruct (string_of_Z z); [done|]. simpl. lia.
  - rewrite <- (append_empty_r (serialize i _)), serialize_array_cons.
    cbn [size String.length]. rewrite !length_append. cbn [size] in Hn.
    pose proof (length_join_bound (serialize (i + 2)) size
      (String "," (String newline (spaces (i + 2)))) (x :: l)) as Hb.
    cbn [String.length] in Hb.
    assert (Forall (λ e, (size e ≤ String.length (serialize (i + 2) e))%nat) (x :: l)).
    { apply Forall_forall. intros e He. apply IH.
      apply size_element in He. lia. }
    specialize (Hb ltac:(lia) ltac:(done)). lia.
  - rewrite <- (append_empty_r (serialize i _)), serialize_object_cons.
    cbn [size String.length]. rewrite !length_append. cbn [size] in Hn.
    pose proof (length_join_bound
      (λ member, quote (fst member) +:+ ": " +:+ serialize (i + 2) (snd member))
      (λ member, size (snd member))
      (String "," (String newline (spaces (i + 2)))) (x :: m)) as Hb.
    cbn [String.length] in Hb.
    assert (Forall (λ member : string * json,
              (size (snd member)
               ≤ String.length (quote (fst member) +:+ ": " +:+ serialize (i + 2) (snd member)))%nat)
              (x :: m)).
    { apply Forall_forall. intros e He. rewrite !length_append.
      apply size_member in He.
      specialize (IH (snd e) (i + 2)%nat ltac:(lia)). lia. }
    specialize (Hb ltac:(lia) ltac:(done)). lia.
Qed.

(** [JSON.parse(JSON.stringify(value, null, 2))] is [value]. *)
Lemma parse_stringify (v : json) : JSON_parse (JSON_stringify v) = Normal v.
Proof.
  cbn [JSON_parse JSON_stringify JSON_json]. unfold parse.
  destruct (parse_serialize (S (String.length (serialize 0 v)))) as [Hv _].
  specialize (Hv v 0%nat "" ltac:(pose proof (size_le_length (size v) v 0%nat); lia) eq_refl).
  rewrite append_empty_r in Hv. by rewrite Hv.
Qed.

Global Instance Lossless_json : Lossless json := parse_stringify.

(** ** The typed documents *)

Lemma Student_of_json_of_Student (s : Student) :
  Student_of_json (json_of_Student s) = Some s.
Proof. destruct s as [i n t p c [u|]]; reflexivity. Qed.

Lemma CreatedActivity_of_json_of_CreatedActivity (a : CreatedActivity) :
  CreatedActivity_of_json (json_of_CreatedActivity a) = Some a.
Proof. destruct a; reflexivity. Qed.

Lemma ActivityRecord_of_json_of_ActivityRecord (r : ActivityRecord) :
  ActivityRecord_of_json (json_of_ActivityRecord r) = Some r.
Proof. destruct r; reflexivity. Qed.

Lemma mapM_map_Some {A B} (of_json : B → option A) (to_json : A → B) (l : list A) :
  (∀ x, of_json (to_json x) = Some x) → mapM of_json (map to_json l) = Some l.
Proof.
  intros Hx. induction l as [|x l IH]; [reflexivity|].
  cbn [map mapM]. rewrite Hx. cbn. rewrite IH. reflexivity.
Qed.

Lemma parse_array_stringify_array {A} (of_json : json → option A)
    (to_json : A → json) (l : list A) :
  (∀ x, of_json (to_json x) = Some x) →
  parse_array of_json (stringify_array to_json l) = Normal l.
Proof.
  intros Hx. unfold parse_array, stringify_array.
  rewrite parse_stringify_eq, mapM_map_Some by done. reflexivity.
Qed.

Global Instance Lossless_students : Lossless (list Student).
Proof.
  intros l. apply parse_array_stringify_array, Student_of_json_of_Student.
Qed.

Global Instance Lossless_createdActivities : Lossless (list CreatedActivity).
Proof.
  intros l.
  apply parse_array_stringify_array, CreatedActivity_of_json_of_CreatedActivity.
Qed.

Global Instance Lossless_activities : Lossless (list ActivityRecord).
Proof.
  intros l. apply parse_array_stringify_array, ActivityRecord_of_json_of_ActivityRecord.
Qed.

(** ** The document store *)

Lemma readJSONFile_loaded {A} `{JSON A} (filePath : string) (defaultValue : A)
    (fs : FileSystem) :
  readJSONFile filePath defaultValue fs = (Normal (loaded fs filePath defaultValue), fs).
Proof.
  unfold readJSONFile, loaded, try_catch, mbind, Async_bind, fs_readFile, sync.
  destruct (fs !! filePath) as [[text|]|]; try reflexivity.
  destruct (JSON_parse text); reflexivity.
Qed.

Lemma writeJSONFile_run {A} `{JSON A} (filePath : string) (data : A) (fs : FileSystem) :
  writeJSONFile filePath data fs =
  match fs !! filePath with
  | Some Denied => (Throw EACCES, fs)
  | _ => (Normal (), <[filePath := File (JSON_stringify data)]> fs)
  end.
Proof. reflexivity. Qed.

Lemma loaded_insert {A} `{Lossless A} (filePath : string) (data defaultValue : A)
    (fs : FileSystem) :
  loaded (<[filePath := File (JSON_stringify data)]> fs) filePath defaultValue = data.
Proof. unfold loaded. by rewrite lookup_insert_eq, parse_stringify_eq. Qed.

Lemma loaded_insert_ne {A} `{JSON A} (filePath other : string) (n : node)
    (defaultValue : A) (fs : FileSystem) :
  other ≠ filePath →
  loaded (<[other := n]> fs) filePath defaultValue = loaded fs filePath defaultValue.
Proof. intros Hne. unfold loaded. by rewrite lookup_insert_ne. Qed.

(** C7: [readJSONFile] never throws and leaves the disk as it is.  It
    returns the parsed document when the path holds a file whose text
    parses, and the default value when the path is missing, cannot be read,
    or holds a text that does not parse. *)
Theorem readJSONFile_never_raises {A} `{JSON A} (fs : FileSystem)
    (filePath : string) (defaultValue : A) :
  readJSONFile filePath defaultValue fs =
  (Normal
     match fs_readFile filePath fs with
     | (Normal text, _) =>
         match JSON_parse text with
         | Normal document => document
         | Throw _ => defaultValue
         end
     | (Throw _, _) => defaultValue
     end,
   fs).
Proof.
  rewrite readJSONFile_loaded. unfold loaded, fs_readFile.
  by destruct (fs !! filePath) as [[text|]|].
Qed.

(** C8: a document written to a path is the document read from that path
    afterwards: for every JSON value [value], arrays of records with integer
    and string fields among them, if [writeJSONFile] completes then
    [readJSONFile] returns a value equal to [value]. *)
Theorem write_then_read (fs fs' : FileSystem) (filePath : string)
    (value defaultValue : json) :
  writeJSONFile filePath value fs = (Normal (), fs') →
  readJSONFile filePath defaultValue fs' = (Normal value, fs').
Proof.
  rewrite writeJSONFile_run, readJSONFile_loaded.
  intros Hw.
  assert (fs' = <[filePath := File (JSON_stringify value)]> fs) as ->
    by (destruct (fs !! filePath) as [[text|]|]; congruence).
  by rewrite loaded_insert.
Qed.

Lemma write_then_read_witness :
  readJSONFile STUDENTS_FILE (JArr [])
    (<[STUDENTS_FILE := File (JSON_stringify class_document)]> disk_ash)
  = (Normal class_document,
     <[STUDENTS_FILE := File (JSON_stringify class_document)]> disk_ash).
Proof.
  apply (write_then_read disk_ash _ STUDENTS_FILE class_document (JArr [])).
  reflexivity.
Defined.

(** ** Running a handler *)

Lemma bind_run {A B} (m : Async A) (f : A → Async B) (fs : FileSystem) :
  (m ≫= f) fs =
  match m fs with
  | (Normal a, fs') => f a fs'
  | (Throw e, fs') => (Throw e, fs')
  end.
Proof. reflexivity. Qed.

Lemma try_catch_ret {A} (a : A) (handler : Error → Async A) (fs : FileSystem) :
  try_catch (mret a) handler fs = (Normal a, fs).
Proof. reflexivity. Qed.

Lemma try_catch_read {A B} `{JSON A} (filePath : string) (defaultValue : A)
    (k : A → Async B) (handler : Error → Async B) (fs : FileSystem) :
  try_catch (readJSONFile filePath defaultValue ≫= k) handler fs
  = try_catch (k (loaded fs filePath defaultValue)) handler fs.
Proof. unfold try_catch. by rewrite bind_run, readJSONFile_loaded. Qed.

Lemma read_bind {A B} `{JSON A} (filePath : string) (defaultValue : A)
    (k : A → Async B) (fs : FileSystem) :
  (readJSONFile filePath defaultValue ≫= k) fs = k (loaded fs filePath defaultValue) fs.
Proof. by rewrite bind_run, readJSONFile_loaded. Qed.

(** A path [readJSONFile] found a record in can be written. *)
Lemma loaded_not_Denied {A} `{JSON (list A)} (fs : FileSystem) (filePath : string) :
  loaded fs filePath [] ≠ [] → fs !! filePath ≠ Some Denied.
Proof. unfold loaded. by destruct (fs !! filePath) as [[text|]|]. Qed.

(** ** Disks of the data model *)

Lemma students_stored_safe (fs : FileSystem) (s : Student) :
  students_stored fs = true → s ∈ loaded fs STUDENTS_FILE [] →
  safe (student_id s) ∧ safe (totalPoints s).
Proof.
  unfold students_stored. intros [_ Hall]%andb_true_iff Hs.
  rewrite forallb_forall in Hall. apply list_elem_of_In, Hall in Hs.
  apply andb_true_iff in Hs as [Hid Htotal]. by rewrite <- !safe_spec.
Qed.

Lemma find_student_safe (fs : FileSystem) (n : Z) (i : nat) (s : Student) :
  students_stored fs = true → find_student n fs = Some (i, s) →
  safe n ∧ safe (totalPoints s).
Proof.
  intros Hstored (Hi & <- & _)%list_find_Some.
  apply (students_stored_safe fs); [done|]. by eapply list_elem_of_lookup_2.
Qed.

Lemma data_model_students (fs : FileSystem) :
  data_model fs = true → students_stored fs = true.
Proof. unfold data_model. by intros [[? _]%andb_true_iff _]%andb_true_iff. Qed.

Lemma data_model_activities (fs : FileSystem) :
  data_model fs = true → activities_stored fs = true.
Proof. unfold data_model. by intros [[_ ?]%andb_true_iff _]%andb_true_iff. Qed.

Lemma data_model_ledger (fs : FileSystem) :
  data_model fs = true → ledger_stored fs = true.
Proof. unfold data_model. by intros [_ ?]%andb_true_iff. Qed.

(** ** Creating a student *)

Lemma post_students_conflict `{Engine} (clock : Clock) (name type : string)
    (fs : FileSystem) (existing : Student) :
  name ≠ "" → type ≠ "" →
  existing ∈ loaded fs STUDENTS_FILE [] →
  toLowerCase (student_name existing) = toLowerCase name →
  post_students clock name type fs = (Normal (failure 409), fs).
Proof.
  intros Hname Htype Hin Hlow. unfold post_students.
  apply String.eqb_neq in Hname, Htype. rewrite Hname, Htype. cbn [orb].
  rewrite try_catch_read.
  destruct (list_find _ _) as [[i s]|] eqn:Hfind; [reflexivity|].
  apply list_find_None in Hfind. rewrite Forall_forall in Hfind.
  by destruct (Hfind existing Hin).
Qed.

(** C1: the request name [" Ash"] is, once its padding is trimmed, the
    stored name ["Ash"] of a student of the registry; [POST /api/students]
    answers 201, not 409, and the registry it writes has two students of
    that name. *)
Theorem post_students_padded_name :
  toLowerCase (trim " Ash") = toLowerCase (student_name ash)
  ∧ loaded disk_ash STUDENTS_FILE [] = [ash]
  ∧ post_students clock_2 " Ash" "Water" disk_ash
    = (Normal (ok 201 (OneStudent padded_ash)),
       <[STUDENTS_FILE := File (JSON_stringify [ash; padded_ash])]> disk_ash).
Proof. split; [|split]; reflexivity. Qed.

(** ** Awarding points *)

Lemma STUDENTS_FILE_ne_ACTIVITIES_FILE : ACTIVITIES_FILE ≠ STUDENTS_FILE.
Proof. done. Qed.

Lemma list_find_insert {A} (P : A → Prop) `{∀ x, Decision (P x)} (l : list A)
    (i : nat) (x y : A) :
  list_find P l = Some (i, x) → P y → list_find P (<[i := y]> l) = Some (i, y).
Proof.
  intros (Hi & Hx & Hbefore)%list_find_Some Hy. apply list_find_Some.
  split; [|split; [done|]].
  - apply list_lookup_insert_eq. by eapply lookup_lt_Some.
  - intros j z Hj Hlt. rewrite list_lookup_insert_ne in Hj by lia. eauto.
Qed.

Lemma in_range (n : Z) : (n <? 1) || (n >? 100) = false ↔ 1 ≤ n ≤ 100.
Proof. rewrite orb_false_iff, Z.ltb_ge, Z.gtb_ltb, Z.ltb_ge. lia. Qed.

Lemma in_range_safe (n : Z) : 1 ≤ n ≤ 100 → safe n.
Proof. unfold safe, MAX_SAFE_INTEGER. lia. Qed.

(** What a call of [POST /api/activities] that answers 201 did. *)
Lemma post_activities_201 `{Engine} (clock : Clock) (student activity awarded : Z)
    (fs fs' : FileSystem) (response : Response) :
  post_activities clock student activity awarded fs = (Normal response, fs') →
  status response = 201 →
  ∃ i old j created,
    find_student (parseInt_Number student) fs = Some (i, old)
    ∧ list_find (λ a, activity_id a = parseInt_Number activity)
        (loaded fs CREATED_ACTIVITIES_FILE []) = Some (j, created)
    ∧ 1 ≤ awarded ≤ 100
    ∧ let new :=
        with_totalPoints old (to_double (totalPoints old + parseInt_Number awarded))
          (toISOString clock) in
      let record :=
        {| record_id := Date_now clock;
           studentId := parseInt_Number student;
           activityId := parseInt_Number activity;
           record_name := activity_name created;
           points := parseInt_Number awarded;
           date := toLocaleDateString clock; record_createdAt := toISOString clock |} in
      response = ok 201 (Award record new
                           (level (totalPoints new) >? level (totalPoints old))
                           (level (totalPoints new)))
      ∧ fs' = <[ACTIVITIES_FILE :=
                  File (JSON_stringify (loaded fs ACTIVITIES_FILE [] ++ [record]))]>
                (<[STUDENTS_FILE :=
                     File (JSON_stringify (<[i := new]> (loaded fs STUDENTS_FILE [])))]> fs).
Proof.
  unfold post_activities, find_student.
  destruct (_ || _ || _) eqn:Hfalsy; [by intros [= <- <-]|].
  destruct ((awarded <? 1) || (awarded >? 100)) eqn:Hrange; [by intros [= <- <-]|].
  apply in_range in Hrange.
  rewrite try_catch_read.
  destruct (list_find _ (loaded fs STUDENTS_FILE [])) as [[i old]|] eqn:Hs.
  2:{ unfold try_catch. rewrite !read_bind. by intros [= <- <-]. }
  destruct (list_find _ (loaded fs CREATED_ACTIVITIES_FILE [])) as [[j created]|] eqn:Ha.
  2:{ unfold try_catch. rewrite !read_bind, Ha. by intros [= <- <-]. }
  unfold try_catch. rewrite !read_bind, Ha, bind_run.
  unfold Promise_all2. rewrite !writeJSONFile_run.
  intros Hrun Hstatus. exists i, old, j, created.
  split; [done|]. split; [done|]. split; [done|]. cbv zeta.
  destruct (fs !! STUDENTS_FILE) as [[text|]|] eqn:Hfile.
  - rewrite writeJSONFile_run, lookup_insert_ne in Hrun by done.
    destruct (fs !! ACTIVITIES_FILE) as [[text'|]|];
      unfold mret, Async_ret, internal_error in Hrun;
      injection Hrun as <- <-; first [discriminate Hstatus | split; reflexivity].
  - apply list_find_Some in Hs as (Hi & _). unfold loaded in Hi.
    rewrite Hfile in Hi. done.
  - rewrite writeJSONFile_run, lookup_insert_ne in Hrun by done.
    destruct (fs !! ACTIVITIES_FILE) as [[text'|]|];
      unfold mret, Async_ret, internal_error in Hrun;
      injection Hrun as <- <-; first [discriminate Hstatus | split; reflexivity].
Qed.

(** C2, where it fails: Misty's total is -9007199254741002, a Number the
    update endpoint stores as it is, and one point is awarded.  The sum is
    rounded to -9007199254741000, so the level goes from -90071992547411 to
    -90071992547410 and [evolved] is true, while the hundreds of the exact
    sum are those of the old total. *)
Theorem post_activities_deep_total :
  find_student 1717000000001 disk_deep
  = Some (1%nat, with_totalPoints misty (-9007199254741002) (toISOString clock_1))
  ∧ (∃ record updated fs',
       post_activities clock_2 1717000000001 1717000000002 1 disk_deep
       = (Normal (ok 201 (Award record updated true (-90071992547410))), fs'))
  ∧ Z.min 2 ((-9007199254741002 + 1) / 100) = -90071992547411
  ∧ ¬ (Z.min 2 ((-9007199254741002 + 1) / 100) > Z.min 2 (-9007199254741002 / 100)).
Proof.
  split; [reflexivity|]. split; [|split; [reflexivity|]].
  - exists {| record_id := Date_now clock_2; studentId := 1717000000001;
              activityId := 1717000000002; record_name := "Homework"; points := 1;
              date := toLocaleDateString clock_2;
              record_createdAt := toISOString clock_2 |},
           (with_totalPoints misty (-9007199254741000) (toISOString clock_2)),
           (snd (post_activities clock_2 1717000000001 1717000000002 1 disk_deep)).
    reflexivity.
  - intros Hgt. discriminate Hgt.
Qed.

(** C2, as the code has it: when [POST /api/activities] answers 201 on a
    disk of the data model, for a student id that is a safe integer, a
    student whose total was [oldTotal] and [awarded] points whose sum with
    it is a safe integer, the answer carries the award: [newLevel] is
    [min(2, floor((oldTotal + awarded) / 100))], [evolved] is true exactly
    when that level is greater than [min(2, floor(oldTotal / 100))], and a
    new total of 200 or more gives level 2. *)
Theorem post_activities_evolved `{Engine} (clock : Clock)
    (student activity awarded : Z) (fs fs' : FileSystem) (response : Response)
    (i : nat) (old : Student) :
  post_activities clock student activity awarded fs = (Normal response, fs') →
  status response = 201 →
  data_model fs = true →
  safe student →
  find_student student fs = Some (i, old) →
  safe (totalPoints old + awarded) →
  ∃ record updated evolved newLevel,
    data response = Award record updated evolved newLevel
    ∧ points record = awarded
    ∧ totalPoints updated = totalPoints old + awarded
    ∧ newLevel = Z.min 2 ((totalPoints old + awarded) / 100)
    ∧ (evolved = true ↔
       Z.min 2 ((totalPoints old + awarded) / 100) > Z.min 2 (totalPoints old / 100))
    ∧ (200 ≤ totalPoints old + awarded → newLevel = 2).
Proof.
  intros Hrun Hstatus Hmodel Hstudent Hfind Hsum.
  destruct (post_activities_201 _ _ _ _ _ _ _ Hrun Hstatus)
    as (i' & old' & j & created & Hfind' & _ & Hrange & Hresponse & _).
  rewrite (parseInt_Number_safe student Hstudent), Hfind in Hfind'.
  injection Hfind' as <- <-.
  destruct (find_student_safe fs student i old (data_model_students fs Hmodel) Hfind)
    as [_ Hold].
  cbv zeta in Hresponse. subst response.
  rewrite (parseInt_Number_safe awarded (in_range_safe awarded Hrange)).
  rewrite (to_double_safe _ Hsum).
  eexists _, _, _, _. split; [reflexivity|].
  cbn [points totalPoints with_totalPoints].
  rewrite (level_safe _ Hsum), (level_safe _ Hold).
  split; [done|]. split; [done|]. split; [done|]. split.
  - rewrite Z.gtb_gt. lia.
  - intros Hnew. assert (2 ≤ (totalPoints old + awarded) / 100); [|lia].
    apply Z.div_le_lower_bound; lia.
Qed.

Lemma post_activities_evolved_witness :
  ∃ record updated evolved newLevel,
    Award homework_record misty_105 true 1 = Award record updated evolved newLevel
    ∧ points record = 10
    ∧ totalPoints updated = totalPoints misty + 10
    ∧ newLevel = Z.min 2 ((totalPoints misty + 10) / 100)
    ∧ (evolved = true ↔
       Z.min 2 ((totalPoints misty + 10) / 100) > Z.min 2 (totalPoints misty / 100))
    ∧ (200 ≤ totalPoints misty + 10 → newLevel = 2).
Proof.
  apply (post_activities_evolved clock_2 1717000000001 1717000000002 10 disk_class
           (snd (post_activities clock_2 1717000000001 1717000000002 10 disk_class))
           (ok 201 (Award homework_record misty_105 true 1)) 1 misty).
  - reflexivity.
  - reflexivity.
  - reflexivity.
  - unfold safe, MAX_SAFE_INTEGER. lia.
  - reflexivity.
  - unfold safe, MAX_SAFE_INTEGER. cbn. lia.
Defined.







(** ** Deleting by id *)

Lemma filter_all_length {A} (P : A → Prop) `{∀ x, Decision (P x)} (l : list A) :
  length (filter P l) = length l ↔ Forall P l.
Proof.
  split.
  - intros Hlen. induction l as [|x l IH]; [constructor|].
    rewrite filter_cons in Hlen. pose proof (length_filter P l) as Hle.
    destruct (decide (P x)); cbn [length] in Hlen; [|lia].
    constructor; [done|]. apply IH. lia.
  - intros Hall. induction Hall as [|x l Hx Hall IH]; [done|].
    rewrite filter_cons_True by done. cbn [length]. by rewrite IH.
Qed.

Lemma filter_unique_length {A} (key : A → Z) (n : Z) (l : list A) :
  NoDup (map key l) → Exists (λ x, key x = n) l →
  length l = S (length (filter (λ x, key x ≠ n) l)).
Proof.
  intros Hnodup Hex. induction l as [|x l IH]; [by apply Exists_nil in Hex|].
  cbn [map] in Hnodup. apply NoDup_cons in Hnodup as [Hx Hnodup].
  rewrite filter_cons. destruct (decide (key x ≠ n)) as [Hne|Heq].
  - cbn [length]. f_equal. apply IH; [done|].
    apply Exists_cons in Hex as [?|?]; done.
  - apply dec_stable in Heq. cbn [length]. f_equal. symmetry.
    apply filter_all_length, Forall_forall. intros y Hy Hkey.
    apply Hx. rewrite Heq, <- Hkey.
    apply list_elem_of_In, in_map. by apply list_elem_of_In.
Qed.

Lemma delete_students_run `{Engine} (id : string) (n : Z) (fs : FileSystem) :
  parseInt id = Num n →
  let students := loaded fs STUDENTS_FILE [] in
  let survivors := filter (λ s, student_id s ≠ n) students in
  (Forall (λ s, student_id s ≠ n) students →
   delete_students id fs = (Normal (failure 404), fs))
  ∧ (Exists (λ s, student_id s = n) students →
     delete_students id fs
       = (Normal (ok 200 NoData), <[STUDENTS_FILE := File (JSON_stringify survivors)]> fs)).
Proof.
  intros Hid students survivors. unfold delete_students. rewrite Hid, try_catch_read.
  fold students. fold survivors. split.
  - intros Hall. pose proof (proj2 (filter_all_length _ _) Hall) as Hlen.
    fold survivors in Hlen. by rewrite Hlen, Nat.eqb_refl.
  - intros Hex.
    destruct (Nat.eqb (length survivors) (length students)) eqn:Hlen.
    { apply Nat.eqb_eq in Hlen. apply filter_all_length in Hlen.
      apply Exists_exists in Hex.
      rewrite Forall_forall in Hlen. destruct Hex as (s & Hs & Hn).
      by destruct (Hlen s Hs). }
    unfold try_catch. rewrite bind_run, writeJSONFile_run.
    assert (fs !! STUDENTS_FILE ≠ Some Denied) as Hfile.
    { apply (loaded_not_Denied (A := Student)). fold students.
      intros Hnil. rewrite Hnil in Hex. by apply Exists_nil in Hex. }
    by destruct (fs !! STUDENTS_FILE) as [[text|]|].
Qed.

Lemma delete_created_activities_run `{Engine} (id : string) (n : Z) (fs : FileSystem) :
  parseInt id = Num n →
  let createdActivities := loaded fs CREATED_ACTIVITIES_FILE [] in
  let survivors := filter (λ a, activity_id a ≠ n) createdActivities in
  (Forall (λ a, activity_id a ≠ n) createdActivities →
   delete_created_activities id fs = (Normal (failure 404), fs))
  ∧ (Exists (λ a, activity_id a = n) createdActivities →
     delete_created_activities id fs
       = (Normal (ok 200 NoData),
          <[CREATED_ACTIVITIES_FILE := File (JSON_stringify survivors)]> fs)).
Proof.
  intros Hid createdActivities survivors. unfold delete_created_activities.
  rewrite Hid, try_catch_read. fold createdActivities. fold survivors. split.
  - intros Hall. pose proof (proj2 (filter_all_length _ _) Hall) as Hlen.
    fold survivors in Hlen. by rewrite Hlen, Nat.eqb_refl.
  - intros Hex.
    destruct (Nat.eqb (length survivors) (length createdActivities)) eqn:Hlen.
    { apply Nat.eqb_eq in Hlen. apply filter_all_length in Hlen.
      apply Exists_exists in Hex.
      rewrite Forall_forall in Hlen. destruct Hex as (s & Hs & Hn).
      by destruct (Hlen s Hs). }
    unfold try_catch. rewrite bind_run, writeJSONFile_run.
    assert (fs !! CREATED_ACTIVITIES_FILE ≠ Some Denied) as Hfile.
    { apply (loaded_not_Denied (A := CreatedActivity)). fold createdActivities.
      intros Hnil. rewrite Hnil in Hex. by apply Exists_nil in Hex. }
    by destruct (fs !! CREATED_ACTIVITIES_FILE) as [[text|]|].
Qed.

(** C5, as the code has it, for an id that [parseInt] reads as [n] and a
    disk of the data model: a delete by an id no record has answers 404 and
    leaves the disk as it is; a delete by an id some record has, when the
    write completes, answers 200, and the document read afterwards is the
    document without the records of that id, which is one record less when
    the ids of the document are distinct, every other path holding what it
    held; the records of other ids all stay, unchanged and in their order. *)
Theorem delete_by_id `{Engine} (id : string) (n : Z) (fs : FileSystem) :
  parseInt id = Num n →
  students_stored fs = true →
  activities_stored fs = true →
  (let students := loaded fs STUDENTS_FILE [] in
   let survivors := filter (λ s, student_id s ≠ n) students in
   (Forall (λ s, student_id s ≠ n) students →
    delete_students id fs = (Normal (failure 404), fs))
   ∧ (Exists (λ s, student_id s = n) students →
      fst (writeJSONFile STUDENTS_FILE survivors fs) = Normal () →
      ∃ fs',
        delete_students id fs = (Normal (ok 200 NoData), fs')
        ∧ loaded fs' STUDENTS_FILE [] = survivors
        ∧ (∀ path, path ≠ STUDENTS_FILE → fs' !! path = fs !! path)
        ∧ (NoDup (map student_id students) → length students = S (length survivors)))
   ∧ survivors `sublist_of` students
   ∧ (∀ s, s ∈ survivors ↔ s ∈ students ∧ student_id s ≠ n))
  ∧ (let createdActivities := loaded fs CREATED_ACTIVITIES_FILE [] in
     let survivors := filter (λ a, activity_id a ≠ n) createdActivities in
     (Forall (λ a, activity_id a ≠ n) createdActivities →
      delete_created_activities id fs = (Normal (failure 404), fs))
     ∧ (Exists (λ a, activity_id a = n) createdActivities →
        fst (writeJSONFile CREATED_ACTIVITIES_FILE survivors fs) = Normal () →
        ∃ fs',
          delete_created_activities id fs = (Normal (ok 200 NoData), fs')
          ∧ loaded fs' CREATED_ACTIVITIES_FILE [] = survivors
          ∧ (∀ path, path ≠ CREATED_ACTIVITIES_FILE → fs' !! path = fs !! path)
          ∧ (NoDup (map activity_id createdActivities) →
             length createdActivities = S (length survivors)))
     ∧ survivors `sublist_of` createdActivities
     ∧ (∀ a, a ∈ survivors ↔ a ∈ createdActivities ∧ activity_id a ≠ n)).
Proof.
  intros Hid _ _. split.
  - destruct (delete_students_run id n fs Hid) as [Hnone Hsome]. cbv zeta in *.
    split; [exact Hnone|]. split.
    + intros Hex _. eexists. split; [by apply Hsome|].
      split; [apply loaded_insert|]. split.
      * intros path Hpath. by rewrite lookup_insert_ne.
      * intros Hnodup. by apply filter_unique_length.
    + split; [apply sublist_filter|]. intros s. rewrite list_elem_of_filter. tauto.
  - destruct (delete_created_activities_run id n fs Hid) as [Hnone Hsome].
    cbv zeta in *. split; [exact Hnone|]. split.
    + intros Hex _. eexists. split; [by apply Hsome|].
      split; [apply loaded_insert|]. split.
      * intros path Hpath. by rewrite lookup_insert_ne.
      * intros Hnodup. by apply filter_unique_length.
    + split; [apply sublist_filter|]. intros s. rewrite list_elem_of_filter. tauto.
Qed.

Lemma delete_by_id_witness :
  ∃ fs',
    delete_students "1717000000001" disk_class = (Normal (ok 200 NoData), fs')
    ∧ loaded fs' STUDENTS_FILE [] = [ash].
Proof.
  destruct (delete_by_id "1717000000001" 1717000000001 disk_class)
    as [(_ & Hsome & _) _]; [reflexivity|reflexivity|reflexivity|].
  destruct Hsome as (fs' & Hrun & Hread & _).
  - apply Exists_cons_tl, Exists_cons_hd. reflexivity.
  - reflexivity.
  - exists fs'. split; [exact Hrun|]. rewrite Hread. reflexivity.
Defined.

(** C5, as it is stated, fails on a document with two records of one id:
    two students created at the same reading of the clock have the same id,
    and one delete removes the two of them, not exactly one. *)
Lemma delete_students_removes_twins :
  snd (post_students clock_1 "Brock" "Rock" (snd (post_students clock_1 "Ash" "Fire" ∅)))
  = disk_twins
  ∧ loaded disk_twins STUDENTS_FILE [] = [ash; brock]
  ∧ delete_students "1717000000000" disk_twins
    = (Normal (ok 200 NoData),
       <[STUDENTS_FILE := File (JSON_stringify ([] : list Student))]> disk_twins)
  ∧ loaded (<[STUDENTS_FILE := File (JSON_stringify ([] : list Student))]> disk_twins)
      STUDENTS_FILE [] = ([] : list Student)
  ∧ length [ash; brock] ≠ S (length ([] : list Student)).
Proof. repeat split; done. Qed.

(** ** Ranking *)

(** C9: a ranking for the category ["all"] skips the category filter: it
    is the ranking without a category, the same list and the same total,
    whatever the disk and the limit; the list is cut from all the students
    sorted, and the total counts all the students. *)
Theorem get_ranking_all (limit : option string) (fs : FileSystem) :
  get_ranking (Some "all") limit fs = get_ranking None limit fs
  ∧ get_ranking (Some "all") limit fs
    = let students : list Student := loaded fs STUDENTS_FILE [] in
      let sorted := sort (λ a b, totalPoints b - totalPoints a) students in
      let limit := match limit with Some text => parseInt text | None => Num 5 end in
      (Normal (ok 200 (Ranking (slice0 sorted limit) (Z.of_nat (length sorted)))), fs).
Proof.
  split; [reflexivity|].
  unfold get_ranking. rewrite try_catch_read. cbn [String.eqb Ascii.eqb negb andb].
  apply try_catch_ret.
Qed.

Section Sort.
Context {A : Type} (key : A → Z).

Lemma sort_insert_perm (x : A) (l : list A) :
  sort_insert (λ a b, key b - key a) x l ≡ₚ x :: l.
Proof.
  induction l as [|y l IH]; [done|]. cbn [sort_insert].
  destruct (key y - key x <=? 0); [done|].
  rewrite IH. apply Permutation_swap.
Qed.

Lemma sort_perm (l : list A) : sort (λ a b, key b - key a) l ≡ₚ l.
Proof.
  induction l as [|x l IH]; [done|].
  unfold sort. cbn [foldr]. rewrite sort_insert_perm. by constructor.
Qed.

Lemma sort_insert_sorted (x : A) (l : list A) :
  StronglySorted (λ a b, key b ≤ key a) l →
  StronglySorted (λ a b, key b ≤ key a) (sort_insert (λ a b, key b - key a) x l).
Proof.
  induction 1 as [|y l Hl IH Hy]; cbn [sort_insert]; [repeat constructor|].
  destruct (key y - key x <=? 0) eqn:Hcmp.
  - apply Z.leb_le in Hcmp. constructor; [by constructor|].
    constructor; [lia|]. eapply Forall_impl; [exact Hy|]. cbn. lia.
  - apply Z.leb_gt in Hcmp. constructor; [exact IH|].
    rewrite sort_insert_perm. constructor; [lia|exact Hy].
Qed.

Lemma sort_sorted (l : list A) :
  StronglySorted (λ a b, key b ≤ key a) (sort (λ a b, key b - key a) l).
Proof.
  induction l as [|x l IH]; [constructor|]. by apply sort_insert_sorted.
Qed.

End Sort.

Lemma StronglySorted_take {A} (R : A → A → Prop) (n : nat) (l : list A) :
  StronglySorted R l → StronglySorted R (take n l).
Proof.
  intros Hl. revert n. induction Hl as [|x l Hl IH Hx]; intros [|n]; cbn [take];
    try constructor; [apply IH|].
  eapply Forall_forall. intros y Hy. rewrite Forall_forall in Hx. apply Hx.
  by apply (subseteq_take n l).
Qed.

Lemma slice0_take {A} (l : list A) (n : Z) :
  0 ≤ n → slice0 l (Num n) = take (Z.to_nat n) l.
Proof.
  intros Hn. unfold slice0. destruct (n <? 0) eqn:Hneg; [lia|].
  destruct (Z.min_spec n (Z.of_nat (length l))) as [[Hlt ->]|[Hge ->]]; [done|].
  rewrite Nat2Z.id. rewrite !take_ge; [done|lia|lia].
Qed.



(** ** Statistics *)

Lemma get_stats_run (fs : FileSystem) :
  let students : list Student := loaded fs STUDENTS_FILE [] in
  let activities : list ActivityRecord := loaded fs ACTIVITIES_FILE [] in
  let createdActivities : list CreatedActivity := loaded fs CREATED_ACTIVITIES_FILE [] in
  let sumPoints :=
    foldl (λ sum student, to_double (sum + totalPoints student)) 0 students in
  get_stats fs =
  (Normal (ok 200 (Stats
     {| totalStudents := Z.of_nat (length students);
        totalActivities := Z.of_nat (length createdActivities);
        totalActivitiesAssigned := Z.of_nat (length activities);
        stats_totalPoints := sumPoints;
        averagePoints :=
          if 0 <? Z.of_nat (length students)
          then Math_round (divide sumPoints (Z.of_nat (length students))) else 0;
        pokemonDistribution :=
          foldl (λ counts student, count_category (pokemonType student) counts) ∅
            students;
        evolutionDistribution :=
          foldl (λ levels student, increment (level (totalPoints student)) levels) ∅
            students |})), fs).
Proof.
  cbv zeta. unfold get_stats. rewrite try_catch_read. unfold try_catch.
  by rewrite !read_bind.
Qed.

Lemma magnitude_nonneg (l : list Student) : 0 ≤ magnitude l.
Proof. unfold magnitude. induction l as [|s l IH]; cbn [foldr]; lia. Qed.

(** The sum of totals of a small magnitude is exact. *)
Lemma foldl_sum_points (l : list Student) (a : Z) :
  Z.abs a + magnitude l ≤ 2 ^ 53 →
  foldl (λ sum student, to_double (sum + totalPoints student)) a l
  = a + foldr Z.add 0 (map totalPoints l).
Proof.
  revert a. induction l as [|s l IH]; intros a Ha; cbn [foldl foldr map]; [lia|].
  pose proof (magnitude_nonneg l) as Hl. unfold magnitude in *. cbn [foldr] in Ha.
  rewrite to_double_exact by lia. rewrite IH by lia. lia.
Qed.

Lemma sum_magnitude (l : list Student) :
  Z.abs (foldr Z.add 0 (map totalPoints l)) ≤ magnitude l.
Proof. unfold magnitude. induction l as [|s l IH]; cbn [foldr map]; lia. Qed.

Lemma foldl_increment {A} `{Countable K} (key : A → K) (l : list A)
    (counts : gmap K Z) (k : K) :
  foldl (λ counts x, increment (key x) counts) counts l !! k
  = let c := Z.of_nat (length (filter (λ x, key x = k) l)) in
    if c =? 0 then counts !! k else Some (default 0 (counts !! k) + c).
Proof.
  revert counts. induction l as [|x l IH]; intros counts; [done|].
  cbn [foldl]. rewrite IH. cbv zeta. rewrite filter_cons. unfold increment.
  destruct (decide (key x = k)) as [Heq|Hne].
  - rewrite Heq, lookup_insert_eq. cbn [length default]. unfold id.
    match goal with |- context [length ?f] => generalize (length f) end.
    intros c.
    destruct (Z.eqb_spec (Z.of_nat c) 0), (Z.eqb_spec (Z.of_nat (S c)) 0);
      try lia; f_equal; lia.
  - by rewrite lookup_insert_ne.
Qed.

(** On categories that are counted the object literal is a map of
    numbers. *)
Lemma count_category_increment (key : string) (counts : gmap string Z) :
  counted key = true →
  count_category key (Count <$> counts) = Count <$> increment key counts.
Proof.
  unfold counted. rewrite andb_true_iff, !negb_true_iff. intros [Hproto Hinherited].
  unfold count_category, increment. rewrite Hproto, lookup_fmap.
  destruct (counts !! key) as [n|]; cbn [fmap option_fmap option_map default].
  - by rewrite fmap_insert.
  - by rewrite Hinherited, fmap_insert.
Qed.

Lemma foldl_count_category (l : list Student) (counts : gmap string Z) :
  forallb (λ s, counted (pokemonType s)) l = true →
  foldl (λ counts s, count_category (pokemonType s) counts) (Count <$> counts) l
  = Count <$> foldl (λ counts s, increment (pokemonType s) counts) counts l.
Proof.
  revert counts. induction l as [|s l IH]; intros counts; [done|].
  cbn [forallb foldl]. intros [Hs Hl]%andb_true_iff.
  by rewrite count_category_increment, IH.
Qed.

Lemma foldl_levels (l : list Student) (levels : gmap Z Z) :
  Forall (λ s, safe (totalPoints s)) l →
  foldl (λ levels student, increment (level (totalPoints student)) levels) levels l
  = foldl (λ levels student, increment (Z.min 2 (totalPoints student / 100)) levels)
      levels l.
Proof.
  intros Hsafe. revert levels. induction Hsafe as [|s l Hs Hl IH]; intros levels;
    [done|]. cbn [foldl]. by rewrite (level_safe _ Hs), IH.
Qed.

(** C6, where it fails: three students with 3000000000000000,
    3000000000000000 and 3000000000000001 points.  The sum is
    9000000000000001, a third of it is 3000000000000000 and a third, the
    double nearest to that is 3000000000000000.5, and the average answered
    is 3000000000000001, which is not the integer nearest to the sum
    divided by the count. *)
Theorem get_stats_rounded_average :
  ∃ stats,
    get_stats disk_rich = (Normal (ok 200 (Stats stats)), disk_rich)
    ∧ totalStudents stats = 3
    ∧ stats_totalPoints stats = 9000000000000001
    ∧ averagePoints stats = 3000000000000001
    ∧ ¬ (2 * stats_totalPoints stats - 3
         < 2 * (3 * averagePoints stats) ≤ 2 * stats_totalPoints stats + 3).
Proof.
  eexists. split; [apply get_stats_run|].
  cbn [totalStudents stats_totalPoints averagePoints].
  assert (loaded disk_rich STUDENTS_FILE []
          = [with_totalPoints ash 3000000000000000 (toISOString clock_1);
             with_totalPoints misty 3000000000000000 (toISOString clock_1);
             with_totalPoints gary 3000000000000001 (toISOString clock_1)]) as ->
    by reflexivity.
  split; [reflexivity|]. split; [reflexivity|]. split; [reflexivity|].
  change (¬ (2 * 9000000000000001 - 3
             < 2 * (3 * 3000000000000001) ≤ 2 * 9000000000000001 + 3)).
  lia.
Qed.

(** C6, as the code has it, for a disk of the data model whose totals
    have magnitudes that add up to less than 2^52 and whose categories are
    not names an object literal inherits: [GET /api/stats] answers with the
    number of students, the sum of their [totalPoints], the nearest integer
    to the sum divided by the number of students (0 without students), the
    number of students of each category and of each level; all of them zero
    or empty when the registry is empty. *)
Theorem get_stats_totals (fs : FileSystem) :
  data_model fs = true →
  magnitude (loaded fs STUDENTS_FILE []) < 2 ^ 52 →
  forallb (λ s, counted (pokemonType s)) (loaded fs STUDENTS_FILE []) = true →
  let students : list Student := loaded fs STUDENTS_FILE [] in
  let activities : list ActivityRecord := loaded fs ACTIVITIES_FILE [] in
  let createdActivities : list CreatedActivity := loaded fs CREATED_ACTIVITIES_FILE [] in
  let n := Z.of_nat (length students) in
  let sum := foldr Z.add 0 (map totalPoints students) in
  ∃ stats,
    get_stats fs = (Normal (ok 200 (Stats stats)), fs)
    ∧ totalStudents stats = n
    ∧ totalActivities stats = Z.of_nat (length createdActivities)
    ∧ totalActivitiesAssigned stats = Z.of_nat (length activities)
    ∧ stats_totalPoints stats = sum
    ∧ averagePoints stats = (if n =? 0 then 0 else (2 * sum + n) / (2 * n))
    ∧ (0 < n → 2 * sum - n < 2 * n * averagePoints stats ≤ 2 * sum + n)
    ∧ (∀ type,
         pokemonDistribution stats !! type
         = let c := Z.of_nat (length (filter (λ s, pokemonType s = type) students)) in
           if c =? 0 then None else Some (Count c))
    ∧ (∀ lv,
         evolutionDistribution stats !! lv
         = let c :=
             Z.of_nat (length (filter (λ s, Z.min 2 (totalPoints s / 100) = lv) students)) in
           if c =? 0 then None else Some c)
    ∧ (students = [] →
       totalStudents stats = 0 ∧ stats_totalPoints stats = 0
       ∧ averagePoints stats = 0
       ∧ pokemonDistribution stats = ∅ ∧ evolutionDistribution stats = ∅).
Proof.
  intros Hmodel Hsmall Hcounted students activities createdActivities n sum.
  eexists. split; [apply get_stats_run|].
  fold students n in Hsmall, Hcounted |- *.
  cbn [totalStudents totalActivities totalActivitiesAssigned
    stats_totalPoints averagePoints pokemonDistribution evolutionDistribution].
  rewrite foldl_sum_points, Z.add_0_l by (cbn; lia). fold sum.
  pose proof (sum_magnitude students) as Hsum. fold sum in Hsum.
  assert ((if 0 <? n then Math_round (divide sum n) else 0)
          = (if n =? 0 then 0 else (2 * sum + n) / (2 * n))) as Havg.
  { destruct (Z.ltb_spec 0 n), (Z.eqb_spec n 0); try lia.
    apply Math_round_divide; lia. }
  rewrite Havg.
  assert (Forall (λ s, safe (totalPoints s)) students) as Hsafe.
  { apply Forall_forall. intros s Hs.
    by apply (students_stored_safe fs s (data_model_students fs Hmodel)). }
  pose proof (foldl_levels students ∅ Hsafe) as Hlevels.
  rewrite Hlevels.
  pose proof (foldl_count_category students ∅ Hcounted) as Htally.
  rewrite fmap_empty in Htally. rewrite Htally.
  split; [done|]. split; [done|]. split; [done|]. split; [done|]. split; [done|].
  split; [|split; [|split]].
  - intros Hn. destruct (Z.eqb_spec n 0); [lia|].
    pose proof (Z.mul_div_le (2 * sum + n) (2 * n) ltac:(lia)).
    pose proof (Z.mul_succ_div_gt (2 * sum + n) (2 * n) ltac:(lia)). lia.
  - intros type. rewrite lookup_fmap, (foldl_increment pokemonType).
    cbv zeta. rewrite lookup_empty. cbn [default].
    by destruct (Z.eqb (Z.of_nat _) 0).
  - intros lv. rewrite (foldl_increment (λ s, Z.min 2 (totalPoints s / 100))).
    by rewrite lookup_empty.
  - intros Hnil. subst n sum. rewrite Hnil. done.
Qed.

Lemma get_stats_totals_witness :
  ∃ stats,
    get_stats disk_class = (Normal (ok 200 (Stats stats)), disk_class)
    ∧ totalStudents stats = 2
    ∧ totalActivities stats = 1
    ∧ totalActivitiesAssigned stats = 0
    ∧ stats_totalPoints stats = 95
    ∧ averagePoints stats = 48
    ∧ pokemonDistribution stats !! "Water" = Some (Count 1)
    ∧ evolutionDistribution stats !! 0 = Some 2.
Proof.
  destruct (get_stats_totals disk_class)
    as (stats & Hrun & Hn & Hcreated & Hawards & Hsum & Havg & _ & Htypes & Hlevels & _);
    [reflexivity|reflexivity|reflexivity|].
  exists stats. split; [exact Hrun|].
  rewrite Hn, Hcreated, Hawards, Hsum, Havg, (Htypes "Water"), (Hlevels 0).
  repeat split; reflexivity.
Defined.

(** ** Errors leave the disk as it is *)

Ltac branch :=
  match goal with
  | |- context [if ?b then _ else _] => destruct b eqn:?
  | |- context [match list_find ?P ?l with _ => _ end] =>
      destruct (list_find P l) as [[? ?]|] eqn:?
  | |- context [match parseInt ?s with _ => _ end] => destruct (parseInt s) eqn:?
  | |- context [match ?fs !! ?p with _ => _ end] =>
      destruct (fs !! p) as [[?|]|] eqn:?
  | |- context [match ?x with _ => _ end] => is_var x; destruct x
  end.

Ltac run_handler :=
  repeat first
    [ rewrite try_catch_read
    | rewrite try_catch_ret
    | rewrite read_bind
    | rewrite writeJSONFile_run
    | branch
    | progress unfold try_catch, Promise_all2
    | rewrite bind_run
    | progress unfold internal_error, mret, Async_ret
    | progress cbv beta iota ].

Ltac quiet_or_served :=
  unfold quiet_or_served; run_handler; cbn [fst snd];
  first [ by left | right; eexists; split; [reflexivity|]; cbn; tauto ].

Lemma post_students_quiet `{Engine} (clock : Clock) (name type : string) (fs : FileSystem) :
  quiet_or_served fs (post_students clock name type fs).
Proof. unfold post_students. quiet_or_served. Qed.

Lemma put_students_quiet `{Engine} (clock : Clock) (id : string) (total : option Z)
    (fs : FileSystem) :
  quiet_or_served fs (put_students clock id total fs).
Proof. unfold put_students. quiet_or_served. Qed.

Lemma delete_students_quiet `{Engine} (id : string) (fs : FileSystem) :
  quiet_or_served fs (delete_students id fs).
Proof. unfold delete_students. quiet_or_served. Qed.

Lemma post_created_activities_quiet `{Engine} (clock : Clock) (name : string) (n : Z)
    (text : string) (fs : FileSystem) :
  quiet_or_served fs (post_created_activities clock name n text fs).
Proof. unfold post_created_activities. quiet_or_served. Qed.

Lemma delete_created_activities_quiet `{Engine} (id : string) (fs : FileSystem) :
  quiet_or_served fs (delete_created_activities id fs).
Proof. unfold delete_created_activities. quiet_or_served. Qed.

Lemma post_activities_quiet `{Engine} (clock : Clock) (student activity awarded : Z)
    (fs : FileSystem) :
  quiet_or_served fs (post_activities clock student activity awarded fs).
Proof. unfold post_activities. quiet_or_served. Qed.

Lemma app_quiet `{Engine} (clock : Clock) (request : Request) (fs : FileSystem) :
  quiet_or_served fs (app clock request fs).
Proof.
  destruct request; cbn [app];
    first [ apply post_students_quiet | apply put_students_quiet
          | apply delete_students_quiet | apply post_created_activities_quiet
          | apply delete_created_activities_quiet | apply post_activities_quiet
          | idtac ].
  - unfold get_students. quiet_or_served.
  - unfold get_created_activities. quiet_or_served.
  - unfold get_activities. quiet_or_served.
  - unfold get_activities_student. quiet_or_served.
  - unfold get_ranking. quiet_or_served.
  - unfold get_stats. quiet_or_served.
  - by left.
Qed.

(** Every error is caught at the boundary of the request: a handler
    completes with a response. *)
Lemma app_completes `{Engine} (clock : Clock) (request : Request) (fs : FileSystem) :
  ∃ response, fst (app clock request fs) = Normal response.
Proof.
  destruct request; cbn [app];
    unfold get_students, post_students, put_students, delete_students,
      get_created_activities, post_created_activities, delete_created_activities,
      get_activities, post_activities, get_activities_student, get_ranking,
      get_stats;
    run_handler; cbn [fst]; eauto.
Qed.

(** C10: whatever the request, when the answer is 400, 404 or 409 the disk
    after the call is the disk before it: none of the three documents is
    written. *)
Theorem errors_leave_disk (clock : Clock) (request : Request)
    (fs fs' : FileSystem) (response : Response) :
  app clock request fs = (Normal response, fs') →
  status response = 400 ∨ status response = 404 ∨ status response = 409 →
  fs' = fs.
Proof.
  intros Hrun Hstatus. destruct (app_quiet clock request fs) as [Hfs|Hserved].
  - by rewrite Hrun in Hfs.
  - destruct Hserved as (r & Hr & Hs). rewrite Hrun in Hr. cbn in Hr.
    injection Hr as <-. lia.
Qed.

Lemma errors_leave_disk_witness :
  snd (app clock_2 (POST_students "ASH" "Water") disk_ash) = disk_ash.
Proof.
  apply (errors_leave_disk clock_2 (POST_students "ASH" "Water") disk_ash _
           (failure 409)).
  - reflexivity.
  - right. right. reflexivity.
Defined.


(** * Part III: the rest of the handlers *)

(** ** Writing and listing *)

Lemma writeJSONFile_ok {A} `{JSON A} (filePath : string) (data : A) (fs : FileSystem) :
  fs !! filePath ≠ Some Denied →
  writeJSONFile filePath data fs
  = (Normal (), <[filePath := File (JSON_stringify data)]> fs).
Proof. intros Hfile. rewrite writeJSONFile_run. by destruct (fs !! filePath) as [[?|]|]. Qed.

Lemma writeJSONFile_denied {A} `{JSON A} (filePath : string) (data : A) (fs : FileSystem) :
  fs !! filePath = Some Denied →
  writeJSONFile filePath data fs = (Throw EACCES, fs).
Proof. intros Hfile. by rewrite writeJSONFile_run, Hfile. Qed.

(** Whether a write completes depends on the path, not on the document. *)
Lemma writeJSONFile_completes {A} `{JSON A} (filePath : string) (data : A)
    (fs : FileSystem) :
  fst (writeJSONFile filePath data fs) = Normal () ↔ fs !! filePath ≠ Some Denied.
Proof.
  rewrite writeJSONFile_run. by destruct (fs !! filePath) as [[?|]|].
Qed.

Lemma loaded_denied {A} `{JSON A} (fs : FileSystem) (filePath : string) (d : A) :
  fs !! filePath = Some Denied → loaded fs filePath d = d.
Proof. intros Hfile. unfold loaded. by rewrite Hfile. Qed.

Lemma get_students_run (fs : FileSystem) :
  get_students fs = (Normal (ok 200 (Students (loaded fs STUDENTS_FILE []))), fs).
Proof. unfold get_students. by rewrite try_catch_read. Qed.

Lemma list_find_Exists {A} (P : A → Prop) `{∀ x, Decision (P x)} (l : list A) :
  is_Some (list_find P l) ↔ Exists P l.
Proof.
  rewrite Exists_exists. split.
  - intros [[i x] (Hi & Hx & _)%list_find_Some]. exists x. split; [|done].
    by eapply list_elem_of_lookup_2.
  - intros (x & Hin & Hx). destruct (list_find P l) as [p|] eqn:Hfind; [by eexists|].
    apply list_find_None in Hfind. rewrite Forall_forall in Hfind.
    by destruct (Hfind x Hin).
Qed.

(** ** Creating a student *)

Lemma post_students_run `{Engine} (clock : Clock) (name type : string)
    (fs : FileSystem) :
  name ≠ "" → type ≠ "" →
  let students := loaded fs STUDENTS_FILE [] in
  let newStudent :=
    {| student_id := Date_now clock; student_name := trim name; pokemonType := type;
       totalPoints := 0; student_createdAt := toISOString clock; updatedAt := None |} in
  post_students clock name type fs =
  match list_find (λ s, toLowerCase (student_name s) = toLowerCase name) students with
  | Some _ => (Normal (failure 409), fs)
  | None =>
      match fs !! STUDENTS_FILE with
      | Some Denied => (Normal (failure 500), fs)
      | _ => (Normal (ok 201 (OneStudent newStudent)),
              <[STUDENTS_FILE := File (JSON_stringify (students ++ [newStudent]))]> fs)
      end
  end.
Proof.
  intros Hname Htype students newStudent. unfold post_students.
  apply String.eqb_neq in Hname, Htype. rewrite Hname, Htype. cbn [orb].
  rewrite try_catch_read. fold students.
  destruct (list_find _ students) as [[i s]|]; [reflexivity|].
  unfold try_catch. rewrite bind_run, writeJSONFile_run.
  by destruct (fs !! STUDENTS_FILE) as [[text|]|].
Qed.

(** X1: on a disk of the data model, a request with a name and a type, a
    name no stored name matches and a write of the students file that
    completes answers 201 with a student who has the clock's id, the
    trimmed name, the type, no points and no [updatedAt]; the registry
    listed afterwards is the old one followed by that student, and no other
    file changed.  This holds for every engine's [trim] and
    [toLowerCase]. *)
Theorem post_students_created `{Engine} (clock : Clock) (name type : string)
    (fs : FileSystem) :
  students_stored fs = true →
  name ≠ "" → type ≠ "" →
  Forall (λ s, toLowerCase (student_name s) ≠ toLowerCase name)
    (loaded fs STUDENTS_FILE []) →
  let newStudent :=
    {| student_id := Date_now clock; student_name := trim name; pokemonType := type;
       totalPoints := 0; student_createdAt := toISOString clock; updatedAt := None |} in
  fst (writeJSONFile STUDENTS_FILE (loaded fs STUDENTS_FILE [] ++ [newStudent]) fs)
  = Normal () →
  ∃ fs',
    post_students clock name type fs = (Normal (ok 201 (OneStudent newStudent)), fs')
    ∧ get_students fs'
      = (Normal (ok 200 (Students (loaded fs STUDENTS_FILE [] ++ [newStudent]))), fs')
    ∧ (∀ path, path ≠ STUDENTS_FILE → fs' !! path = fs !! path).
Proof.
  intros _ Hname Htype Hfree newStudent Hfile.
  apply writeJSONFile_completes in Hfile.
  rewrite post_students_run by done. cbv zeta.
  rewrite (proj2 (list_find_None _ _) Hfree).
  eexists. split; [by destruct (fs !! STUDENTS_FILE) as [[text|]|]|].
  split.
  - by rewrite get_students_run, loaded_insert.
  - intros path Hpath. by rewrite lookup_insert_ne.
Qed.

Lemma post_students_created_witness :
  ∃ fs',
    post_students clock_2 "Misty" "Water" disk_ash
    = (Normal (ok 201 (OneStudent
         {| student_id := Date_now clock_2; student_name := trim "Misty";
            pokemonType := "Water"; totalPoints := 0;
            student_createdAt := toISOString clock_2; updatedAt := None |})), fs')
    ∧ get_students fs'
      = (Normal (ok 200 (Students (loaded disk_ash STUDENTS_FILE [] ++
           [{| student_id := Date_now clock_2; student_name := trim "Misty";
               pokemonType := "Water"; totalPoints := 0;
               student_createdAt := toISOString clock_2; updatedAt := None |}]))), fs')
    ∧ (∀ path, path ≠ STUDENTS_FILE → fs' !! path = disk_ash !! path).
Proof.
  apply (post_students_created clock_2 "Misty" "Water" disk_ash); try done.
  repeat constructor. done.
Defined.

(** X2: which status [POST /api/students] answers with on a disk of the
    data model: 400 exactly when the name or the type is missing; otherwise
    409 exactly when a stored name is the request name up to case;
    otherwise 201 when the write of the students file completes and 500
    when it does not.  A 400 and a 409 leave the disk as it was. *)
Theorem post_students_status `{Engine} (clock : Clock) (name type : string)
    (fs : FileSystem) :
  students_stored fs = true →
  let taken :=
    Exists (λ s, toLowerCase (student_name s) = toLowerCase name)
      (loaded fs STUDENTS_FILE []) in
  let newStudent :=
    {| student_id := Date_now clock; student_name := trim name; pokemonType := type;
       totalPoints := 0; student_createdAt := toISOString clock; updatedAt := None |} in
  let written :=
    fst (writeJSONFile STUDENTS_FILE (loaded fs STUDENTS_FILE [] ++ [newStudent]) fs)
    = Normal () in
  ∃ response fs',
    post_students clock name type fs = (Normal response, fs')
    ∧ (status response = 400 ↔ name = "" ∨ type = "")
    ∧ (status response = 409 ↔ name ≠ "" ∧ type ≠ "" ∧ taken)
    ∧ (status response = 201 ↔ name ≠ "" ∧ type ≠ "" ∧ ¬ taken ∧ written)
    ∧ (status response = 500 ↔ name ≠ "" ∧ type ≠ "" ∧ ¬ taken ∧ ¬ written)
    ∧ (status response = 400 ∨ status response = 409 → fs' = fs).
Proof.
  intros _ taken newStudent written.
  destruct (decide (name = "")) as [->|Hname].
  { eexists _, _. split; [reflexivity|]. cbn. intuition (try done; try lia). }
  destruct (decide (type = "")) as [->|Htype].
  { eexists _, _. split.
    - unfold post_students. apply String.eqb_neq in Hname. rewrite Hname. reflexivity.
    - cbn. intuition (try done; try lia). }
  rewrite post_students_run by done. cbv zeta.
  pose proof (list_find_Exists
    (λ s, toLowerCase (student_name s) = toLowerCase name)
    (loaded fs STUDENTS_FILE [])) as Hex. fold taken in Hex.
  assert (written ↔ fs !! STUDENTS_FILE ≠ Some Denied) as Hwritten
    by apply writeJSONFile_completes.
  clearbody written.
  destruct (list_find _ _) as [p|] eqn:Hfind.
  { assert taken as Htaken by (apply Hex; eauto).
    eexists _, _. split; [reflexivity|]. cbn.
    intuition (try done; try lia). }
  assert (¬ taken) as Htaken by (intros [? ?]%Hex; done).
  destruct (fs !! STUDENTS_FILE) as [[text|]|] eqn:Hfile;
    (eexists _, _; split; [reflexivity|]); cbn;
    intuition (try done; try lia).
Qed.

Lemma post_students_status_witness :
  ∃ response fs',
    post_students clock_2 "ASH" "Fire" disk_ash = (Normal response, fs')
    ∧ status response = 409 ∧ fs' = disk_ash.
Proof.
  destruct (post_students_status clock_2 "ASH" "Fire" disk_ash eq_refl)
    as (response & fs' & Hrun & _ & H409 & _ & _ & Hquiet).
  exists response, fs'. split; [exact Hrun|].
  assert (status response = 409) as Hstatus.
  { apply H409. split; [done|]. split; [done|]. vm_compute. by left. }
  split; [exact Hstatus|]. apply Hquiet. by right.
Defined.

(** ** Updating a student *)

Lemma put_students_run `{Engine} (clock : Clock) (id : string) (n : Z)
    (total : option Z) (fs : FileSystem) :
  parseInt id = Num n →
  put_students clock id total fs =
  match find_student n fs with
  | None => (Normal (failure 404), fs)
  | Some (i, old) =>
      let new :=
        match total with
        | Some points => with_totalPoints old points (toISOString clock)
        | None => old
        end in
      (Normal (ok 200 (OneStudent new)),
       <[STUDENTS_FILE :=
           File (JSON_stringify (<[i := new]> (loaded fs STUDENTS_FILE [])))]> fs)
  end.
Proof.
  intros Hid. unfold put_students, find_student. rewrite Hid, try_catch_read.
  destruct (list_find _ _) as [[i old]|] eqn:Hfind; [|reflexivity].
  unfold try_catch. rewrite bind_run, writeJSONFile_ok; [reflexivity|].
  apply (loaded_not_Denied (A := Student)). intros Hnil.
  by rewrite Hnil in Hfind.
Qed.

(** X3: [PUT /api/students/:id] with a [totalPoints] for the id of a stored
    student answers 200 with that student, its [totalPoints] overwritten and
    [updatedAt] stamped, its id, name, type and [createdAt] as they were; the
    registry read afterwards has the new record in the place of the old one
    and every other record as it was. *)
Theorem put_students_overwrites (clock : Clock) (id : string) (n points : Z)
    (fs : FileSystem) (i : nat) (old : Student) :
  parseInt id = Num n →
  find_student n fs = Some (i, old) →
  ∃ new fs',
    put_students clock id (Some points) fs = (Normal (ok 200 (OneStudent new)), fs')
    ∧ totalPoints new = points
    ∧ updatedAt new = Some (toISOString clock)
    ∧ student_id new = student_id old
    ∧ student_name new = student_name old
    ∧ pokemonType new = pokemonType old
    ∧ student_createdAt new = student_createdAt old
    ∧ find_student n fs' = Some (i, new)
    ∧ length (loaded fs' STUDENTS_FILE [] : list Student)
      = length (loaded fs STUDENTS_FILE [] : list Student)
    ∧ (∀ j, j ≠ i →
         (loaded fs' STUDENTS_FILE [] : list Student) !! j
         = (loaded fs STUDENTS_FILE [] : list Student) !! j)
    ∧ (∀ path, path ≠ STUDENTS_FILE → fs' !! path = fs !! path).
Proof.
  intros Hid Hfind. rewrite (put_students_run _ _ n) by done. rewrite Hfind.
  cbv zeta. eexists _, _. split; [reflexivity|].
  repeat (split; [reflexivity|]).
  split; [|split; [|split]].
  - unfold find_student. rewrite loaded_insert.
    eapply list_find_insert; [exact Hfind|].
    apply list_find_Some in Hfind as (_ & Hn & _). exact Hn.
  - by rewrite loaded_insert, length_insert.
  - intros j Hj. rewrite loaded_insert. by rewrite list_lookup_insert_ne.
  - intros path Hpath. by rewrite lookup_insert_ne.
Qed.

Lemma put_students_overwrites_witness :
  ∃ new fs',
    put_students clock_2 "1717000000001" (Some 250) disk_class
    = (Normal (ok 200 (OneStudent new)), fs')
    ∧ totalPoints new = 250
    ∧ updatedAt new = Some (toISOString clock_2)
    ∧ student_id new = student_id misty
    ∧ student_name new = student_name misty
    ∧ pokemonType new = pokemonType misty
    ∧ student_createdAt new = student_createdAt misty
    ∧ find_student 1717000000001 fs' = Some (1%nat, new)
    ∧ length (loaded fs' STUDENTS_FILE [] : list Student)
      = length (loaded disk_class STUDENTS_FILE [] : list Student)
    ∧ (∀ j, j ≠ 1%nat →
         (loaded fs' STUDENTS_FILE [] : list Student) !! j
         = (loaded disk_class STUDENTS_FILE [] : list Student) !! j)
    ∧ (∀ path, path ≠ STUDENTS_FILE → fs' !! path = disk_class !! path).
Proof.
  apply (put_students_overwrites clock_2 "1717000000001" 1717000000001 250
           disk_class 1 misty); reflexivity.
Defined.

(** X4: the other answers of [PUT /api/students/:id] on a disk of the data
    model: 400 when the id is not a number and 404 when no student has it,
    the disk untouched in both; and without a [totalPoints] in the body,
    when the write of the students file completes, 200 with the stored
    student as it is, the registry read afterwards being the registry read
    before. *)
Theorem put_students_otherwise `{Engine} (clock : Clock) (id : string)
    (total : option Z) (fs : FileSystem) :
  students_stored fs = true →
  (parseInt id = NaN → put_students clock id total fs = (Normal (failure 400), fs))
  ∧ (∀ n, parseInt id = Num n →
       Forall (λ s, student_id s ≠ n) (loaded fs STUDENTS_FILE []) →
       put_students clock id total fs = (Normal (failure 404), fs))
  ∧ (∀ n i old, parseInt id = Num n → find_student n fs = Some (i, old) →
       fst (writeJSONFile STUDENTS_FILE
              (loaded fs STUDENTS_FILE [] : list Student) fs) = Normal () →
       ∃ fs',
         put_students clock id None fs = (Normal (ok 200 (OneStudent old)), fs')
         ∧ (loaded fs' STUDENTS_FILE [] : list Student) = loaded fs STUDENTS_FILE []
         ∧ (∀ path, path ≠ STUDENTS_FILE → fs' !! path = fs !! path)).
Proof.
  intros _. split; [|split].
  - intros Hid. unfold put_students. by rewrite Hid.
  - intros n Hid Hnone. rewrite (put_students_run _ _ n) by done.
    unfold find_student. by rewrite (proj2 (list_find_None _ _) Hnone).
  - intros n i old Hid Hfind _. rewrite (put_students_run _ _ n) by done.
    rewrite Hfind. cbv zeta. eexists. split; [reflexivity|]. split.
    + rewrite loaded_insert. apply list_insert_id.
      by apply list_find_Some in Hfind as (Hi & _).
    + intros path Hpath. by rewrite lookup_insert_ne.
Qed.

Lemma put_students_otherwise_witness :
  put_students clock_2 "abc" None disk_class = (Normal (failure 400), disk_class)
  ∧ put_students clock_2 "7" None disk_class = (Normal (failure 404), disk_class)
  ∧ ∃ fs',
      put_students clock_2 "1717000000001" None disk_class
      = (Normal (ok 200 (OneStudent misty)), fs')
      ∧ (loaded fs' STUDENTS_FILE [] : list Student) = [ash; misty].
Proof.
  destruct (put_students_otherwise clock_2 "abc" None disk_class eq_refl)
    as (H400 & _ & _).
  destruct (put_students_otherwise clock_2 "7" None disk_class eq_refl)
    as (_ & H404 & _).
  destruct (put_students_otherwise clock_2 "1717000000001" None disk_class eq_refl)
    as (_ & _ & H200).
  split; [by apply H400|]. split.
  - apply (H404 7); [reflexivity|]. repeat constructor; by vm_compute.
  - destruct (H200 1717000000001 1%nat misty) as (fs' & Hrun & Hsame & _);
      [reflexivity..|].
    exists fs'. split; [exact Hrun|]. rewrite Hsame. reflexivity.
Defined.

(** ** Awarding points: what is written *)

Lemma post_activities_run `{Engine} (clock : Clock) (student activity awarded : Z)
    (fs : FileSystem) :
  student ≠ 0 → activity ≠ 0 → 1 ≤ awarded ≤ 100 →
  post_activities clock student activity awarded fs =
  match find_student (parseInt_Number student) fs with
  | None => (Normal (failure 404), fs)
  | Some (i, old) =>
      match list_find (λ a, activity_id a = parseInt_Number activity)
              (loaded fs CREATED_ACTIVITIES_FILE []) with
      | None => (Normal (failure 404), fs)
      | Some (_, created) =>
          let new :=
            with_totalPoints old (to_double (totalPoints old + awarded))
              (toISOString clock) in
          let record :=
            {| record_id := Date_now clock; studentId := parseInt_Number student;
               activityId := parseInt_Number activity;
               record_name := activity_name created;
               points := awarded; date := toLocaleDateString clock;
               record_createdAt := toISOString clock |} in
          let fs1 :=
            <[STUDENTS_FILE :=
                File (JSON_stringify (<[i := new]> (loaded fs STUDENTS_FILE [])))]> fs in
          match fs !! ACTIVITIES_FILE with
          | Some Denied => (Normal (failure 500), fs1)
          | _ =>
              (Normal (ok 201 (Award record new
                                 (level (totalPoints new) >? level (totalPoints old))
                                 (level (totalPoints new)))),
               <[ACTIVITIES_FILE :=
                   File (JSON_stringify (loaded fs ACTIVITIES_FILE [] ++ [record]))]> fs1)
          end
      end
  end.
Proof.
  intros Hs Ha Hp. unfold post_activities, find_student.
  assert ((student =? 0) || (activity =? 0) || (awarded =? 0) = false) as ->.
  { rewrite !orb_false_iff, !Z.eqb_neq. lia. }
  assert ((awarded <? 1) || (awarded >? 100) = false) as -> by by apply in_range.
  rewrite (parseInt_Number_safe awarded (in_range_safe awarded Hp)).
  rewrite try_catch_read. unfold try_catch. rewrite !read_bind.
  destruct (list_find _ (loaded fs STUDENTS_FILE [])) as [[i old]|] eqn:Hfind;
    [|reflexivity].
  destruct (list_find _ (loaded fs CREATED_ACTIVITIES_FILE [])) as [[j created]|];
    [|reflexivity].
  rewrite bind_run. unfold Promise_all2.
  rewrite writeJSONFile_ok.
  2:{ apply (loaded_not_Denied (A := Student)). intros Hnil. by rewrite Hnil in Hfind. }
  rewrite writeJSONFile_run, lookup_insert_ne by done.
  by destruct (fs !! ACTIVITIES_FILE) as [[text|]|].
Qed.

Lemma activity_found_safe (fs : FileSystem) (n : Z) (j : nat) (a : CreatedActivity) :
  activities_stored fs = true →
  list_find (λ a, activity_id a = n) (loaded fs CREATED_ACTIVITIES_FILE [])
    = Some (j, a) →
  safe n.
Proof.
  intros Hstored (Hj & <- & _)%list_find_Some.
  unfold activities_stored in Hstored.
  apply andb_true_iff in Hstored as [_ Hall]. rewrite forallb_forall in Hall.
  apply list_elem_of_lookup_2, list_elem_of_In, Hall in Hj.
  apply andb_true_iff in Hj as [Hid _]. by apply safe_spec.
Qed.

(** X5: on a disk of the data model, an award that goes through (ids and
    points integers, the points from 1 to 100, student and activity found,
    a new total that is a safe integer, both writes completing) appends one
    record to the ledger, with the ids of the request, the name of the
    activity and the points; in the registry it replaces the student by the
    same student with the points added and [updatedAt] stamped, and leaves
    every other student, the activities and every other path as they
    were. *)
Theorem post_activities_written `{Engine} (clock : Clock)
    (student activity awarded : Z) (fs : FileSystem) (i j : nat) (old : Student)
    (created : CreatedActivity) :
  data_model fs = true →
  student ≠ 0 → activity ≠ 0 → 1 ≤ awarded ≤ 100 →
  find_student student fs = Some (i, old) →
  list_find (λ a, activity_id a = activity) (loaded fs CREATED_ACTIVITIES_FILE [])
    = Some (j, created) →
  safe (totalPoints old + awarded) →
  let record :=
    {| record_id := Date_now clock; studentId := student; activityId := activity;
       record_name := activity_name created; points := awarded;
       date := toLocaleDateString clock; record_createdAt := toISOString clock |} in
  let updated :=
    with_totalPoints old (totalPoints old + awarded) (toISOString clock) in
  fst (writeJSONFile STUDENTS_FILE (<[i := updated]> (loaded fs STUDENTS_FILE [])) fs)
  = Normal () →
  fst (writeJSONFile ACTIVITIES_FILE (loaded fs ACTIVITIES_FILE [] ++ [record]) fs)
  = Normal () →
  ∃ evolved newLevel fs',
    post_activities clock student activity awarded fs
      = (Normal (ok 201 (Award record updated evolved newLevel)), fs')
    ∧ (loaded fs' ACTIVITIES_FILE [] : list ActivityRecord)
      = loaded fs ACTIVITIES_FILE [] ++ [record]
    ∧ (loaded fs' STUDENTS_FILE [] : list Student)
      = <[i := updated]> (loaded fs STUDENTS_FILE [])
    ∧ totalPoints updated = totalPoints old + awarded
    ∧ updatedAt updated = Some (toISOString clock)
    ∧ student_id updated = student_id old
    ∧ student_name updated = student_name old
    ∧ pokemonType updated = pokemonType old
    ∧ student_createdAt updated = student_createdAt old
    ∧ (∀ k, k ≠ i →
         (loaded fs' STUDENTS_FILE [] : list Student) !! k
         = (loaded fs STUDENTS_FILE [] : list Student) !! k)
    ∧ (loaded fs' CREATED_ACTIVITIES_FILE [] : list CreatedActivity)
      = loaded fs CREATED_ACTIVITIES_FILE []
    ∧ (∀ path, path ≠ STUDENTS_FILE → path ≠ ACTIVITIES_FILE →
         fs' !! path = fs !! path).
Proof.
  intros Hmodel Hs Ha Hp Hfind Hcreated Hsum record updated _ Hfile.
  apply writeJSONFile_completes in Hfile.
  destruct (find_student_safe fs student i old (data_model_students fs Hmodel) Hfind)
    as [Hstudent _].
  pose proof (activity_found_safe fs activity j created
                (data_model_activities fs Hmodel) Hcreated) as Hactivity.
  rewrite post_activities_run by done.
  rewrite (parseInt_Number_safe student Hstudent),
    (parseInt_Number_safe activity Hactivity), Hfind, Hcreated.
  cbv zeta. rewrite (to_double_safe _ Hsum). fold updated. fold record.
  eexists _, _, _. split.
  { destruct (fs !! ACTIVITIES_FILE) as [[text|]|]; [reflexivity|done|reflexivity]. }
  split; [by rewrite loaded_insert|].
  assert ((loaded
            (<[ACTIVITIES_FILE :=
                 File (JSON_stringify (loaded fs ACTIVITIES_FILE [] ++ [record]))]>
               (<[STUDENTS_FILE :=
                    File (JSON_stringify
                      (<[i := updated]> (loaded fs STUDENTS_FILE [])))]> fs))
            STUDENTS_FILE [] : list Student)
          = <[i := updated]> (loaded fs STUDENTS_FILE [])) as Hstudents.
  { rewrite loaded_insert_ne by done. apply loaded_insert. }
  split; [exact Hstudents|].
  repeat (split; [reflexivity|]).
  split; [|split].
  - intros k Hk. rewrite Hstudents. by rewrite list_lookup_insert_ne.
  - by rewrite !loaded_insert_ne.
  - intros path H1 H2. by rewrite !lookup_insert_ne.
Qed.

Lemma post_activities_written_witness :
  ∃ evolved newLevel fs',
    post_activities clock_2 1717000000001 1717000000002 10 disk_class
      = (Normal (ok 201 (Award homework_record misty_105 evolved newLevel)), fs')
    ∧ (loaded fs' ACTIVITIES_FILE [] : list ActivityRecord)
      = loaded disk_class ACTIVITIES_FILE [] ++ [homework_record]
    ∧ (loaded fs' STUDENTS_FILE [] : list Student)
      = <[1%nat := misty_105]> (loaded disk_class STUDENTS_FILE [])
    ∧ totalPoints misty_105 = totalPoints misty + 10
    ∧ updatedAt misty_105 = Some (toISOString clock_2)
    ∧ student_id misty_105 = student_id misty
    ∧ student_name misty_105 = student_name misty
    ∧ pokemonType misty_105 = pokemonType misty
    ∧ student_createdAt misty_105 = student_createdAt misty
    ∧ (∀ k, k ≠ 1%nat →
         (loaded fs' STUDENTS_FILE [] : list Student) !! k
         = (loaded disk_class STUDENTS_FILE [] : list Student) !! k)
    ∧ (loaded fs' CREATED_ACTIVITIES_FILE [] : list CreatedActivity)
      = loaded disk_class CREATED_ACTIVITIES_FILE []
    ∧ (∀ path, path ≠ STUDENTS_FILE → path ≠ ACTIVITIES_FILE →
         fs' !! path = disk_class !! path).
Proof.
  apply (post_activities_written clock_2 1717000000001 1717000000002 10 disk_class
           1 0 misty homework); try done.
Defined.

(** X6: which status [POST /api/activities] answers with on a disk of the
    data model, for ids that are safe integers and points that are an
    integer: 400 exactly when a field is missing or the points are not from
    1 to 100; otherwise 404 exactly when the student or the activity is not
    found; otherwise 201 or 500.  A 400 or a 404 leaves the disk as it
    is. *)
Theorem post_activities_status `{Engine} (clock : Clock)
    (student activity awarded : Z) (fs : FileSystem) :
  data_model fs = true →
  safe student → safe activity →
  let valid := student ≠ 0 ∧ activity ≠ 0 ∧ 1 ≤ awarded ≤ 100 in
  let found :=
    is_Some (find_student student fs)
    ∧ is_Some (list_find (λ a, activity_id a = activity)
                 (loaded fs CREATED_ACTIVITIES_FILE [])) in
  ∃ response fs',
    post_activities clock student activity awarded fs = (Normal response, fs')
    ∧ (status response = 400 ↔ ¬ valid)
    ∧ (status response = 404 ↔ valid ∧ ¬ found)
    ∧ (status response = 201 ∨ status response = 500 ↔ valid ∧ found)
    ∧ (status response = 400 ∨ status response = 404 → fs' = fs).
Proof.
  intros _ Hstudent Hactivity valid found.
  destruct (decide valid) as [Hvalid|Hinvalid]; cycle 1.
  { exists (failure 400), fs. split.
    - unfold post_activities.
      destruct (_ || _ || _) eqn:Hfalsy; [reflexivity|].
      destruct ((awarded <? 1) || (awarded >? 100)) eqn:Hrange; [reflexivity|].
      exfalso. apply Hinvalid. unfold valid.
      rewrite !orb_false_iff, !Z.eqb_neq in Hfalsy. apply in_range in Hrange. tauto.
    - cbn. intuition (try done; try lia). }
  destruct Hvalid as (Hs & Ha & Hp).
  rewrite post_activities_run by done.
  rewrite (parseInt_Number_safe student Hstudent),
    (parseInt_Number_safe activity Hactivity).
  subst valid found.
  destruct (find_student student fs) as [[i old]|].
  2:{ eexists _, _. split; [reflexivity|]. cbn.
      assert (¬ is_Some (@None (nat * Student))) by (by intros [? ?]).
      intuition (try done; try lia). }
  destruct (list_find _ (loaded fs CREATED_ACTIVITIES_FILE [])) as [[j created]|].
  2:{ eexists _, _. split; [reflexivity|]. cbn.
      assert (¬ is_Some (@None (nat * CreatedActivity))) by (by intros [? ?]).
      intuition (try done; try lia). }
  cbv zeta.
  assert (is_Some (Some (i, old))) by eauto.
  assert (is_Some (Some (j, created))) by eauto.
  destruct (fs !! ACTIVITIES_FILE) as [[text|]|] eqn:Hfile;
    (eexists _, _; split; [reflexivity|]); cbn;
    intuition (try done; try lia).
Qed.

Lemma post_activities_status_witness :
  ∃ response fs',
    post_activities clock_2 1717000000001 7 10 disk_class = (Normal response, fs')
    ∧ status response = 404 ∧ fs' = disk_class.
Proof.
  destruct (post_activities_status clock_2 1717000000001 7 10 disk_class eq_refl)
    as (response & fs' & Hrun & _ & H404 & _ & Hquiet);
    [by vm_compute; split; discriminate..|].
  exists response, fs'. split; [exact Hrun|].
  assert (status response = 404) as Hstatus.
  { apply H404. split; [lia|]. intros [_ [p Hp]]. by vm_compute in Hp. }
  split; [exact Hstatus|]. apply Hquiet. by right.
Defined.

(** X7: the two writes of an award are not undone together: on a disk of
    the data model, when the student and the activity are found, the new
    total is a safe integer, the write of the registry completes and the
    ledger cannot be written, the answer is 500, the ledger is as it was,
    and the registry on the disk has the student with the points added. *)
Theorem post_activities_half_written `{Engine} (clock : Clock)
    (student activity awarded : Z) (fs : FileSystem) (i j : nat) (old : Student)
    (created : CreatedActivity) :
  data_model fs = true →
  student ≠ 0 → activity ≠ 0 → 1 ≤ awarded ≤ 100 →
  find_student student fs = Some (i, old) →
  list_find (λ a, activity_id a = activity) (loaded fs CREATED_ACTIVITIES_FILE [])
    = Some (j, created) →
  safe (totalPoints old + awarded) →
  let updated :=
    with_totalPoints old (totalPoints old + awarded) (toISOString clock) in
  fst (writeJSONFile STUDENTS_FILE (<[i := updated]> (loaded fs STUDENTS_FILE [])) fs)
  = Normal () →
  fs !! ACTIVITIES_FILE = Some Denied →
  ∃ fs',
    post_activities clock student activity awarded fs = (Normal (failure 500), fs')
    ∧ find_student student fs' = Some (i, updated)
    ∧ fs' !! ACTIVITIES_FILE = fs !! ACTIVITIES_FILE
    ∧ (loaded fs' ACTIVITIES_FILE [] : list ActivityRecord) = [].
Proof.
  intros Hmodel Hs Ha Hp Hfind Hcreated Hsum updated _ Hfile.
  destruct (find_student_safe fs student i old (data_model_students fs Hmodel) Hfind)
    as [Hstudent _].
  pose proof (activity_found_safe fs activity j created
                (data_model_activities fs Hmodel) Hcreated) as Hactivity.
  rewrite post_activities_run by done.
  rewrite (parseInt_Number_safe student Hstudent),
    (parseInt_Number_safe activity Hactivity), Hfind, Hcreated, Hfile.
  cbv zeta. rewrite (to_double_safe _ Hsum). fold updated.
  eexists. split; [reflexivity|]. split; [|split].
  - unfold find_student. rewrite loaded_insert.
    eapply list_find_insert; [exact Hfind|].
    apply list_find_Some in Hfind as (_ & Hn & _). exact Hn.
  - by rewrite lookup_insert_ne.
  - apply loaded_denied. by rewrite lookup_insert_ne.
Qed.

Lemma post_activities_half_written_witness :
  ∃ fs',
    post_activities clock_2 1717000000001 1717000000002 10 disk_locked
      = (Normal (failure 500), fs')
    ∧ find_student 1717000000001 fs' = Some (1%nat, misty_105)
    ∧ fs' !! ACTIVITIES_FILE = disk_locked !! ACTIVITIES_FILE
    ∧ (loaded fs' ACTIVITIES_FILE [] : list ActivityRecord) = [].
Proof.
  apply (post_activities_half_written clock_2 1717000000001 1717000000002 10
           disk_locked 1 0 misty homework); try done.
Defined.

(** ** What a request writes *)

Ltac solve_writes :=
  unfold writes_of; run_handler; cbn [snd];
  first [ by left
        | by right; left; eexists
        | by right; right; left; eexists
        | by right; right; right; eexists _, _ ].

Lemma post_activities_writes `{Engine} (clock : Clock) (student activity awarded : Z)
    (fs : FileSystem) :
  writes_of fs (snd (post_activities clock student activity awarded fs)).
Proof.
  destruct (decide (student ≠ 0 ∧ activity ≠ 0 ∧ 1 ≤ awarded ≤ 100))
    as [(Hs & Ha & Hp)|Hinvalid].
  - rewrite post_activities_run by done.
    destruct (find_student _ fs) as [[i old]|]; [|by left].
    destruct (list_find _ _) as [[j created]|]; [|by left].
    cbv zeta.
    destruct (fs !! ACTIVITIES_FILE) as [[text|]|]; cbn [snd].
    + by right; right; right; eexists _, _.
    + by right; left; eexists.
    + by right; right; right; eexists _, _.
  - unfold post_activities.
    destruct (_ || _ || _) eqn:Hfalsy; [by left|].
    destruct ((awarded <? 1) || (awarded >? 100)) eqn:Hrange; [by left|].
    exfalso. apply Hinvalid.
    rewrite !orb_false_iff, !Z.eqb_neq in Hfalsy. apply in_range in Hrange. tauto.
Qed.

Lemma app_writes `{Engine} (clock : Clock) (request : Request) (fs : FileSystem) :
  writes_of fs (snd (app clock request fs)).
Proof.
  destruct request; cbn [app]; try apply post_activities_writes.
  - unfold get_students. solve_writes.
  - unfold post_students. solve_writes.
  - unfold put_students. solve_writes.
  - unfold delete_students. solve_writes.
  - unfold get_created_activities. solve_writes.
  - unfold post_created_activities. solve_writes.
  - unfold delete_created_activities. solve_writes.
  - unfold get_activities. solve_writes.
  - unfold get_activities_student. solve_writes.
  - unfold get_ranking. solve_writes.
  - unfold get_stats. solve_writes.
  - by left.
Qed.

Lemma CREATED_ACTIVITIES_FILE_ne_STUDENTS_FILE : CREATED_ACTIVITIES_FILE ≠ STUDENTS_FILE.
Proof. done. Qed.

Lemma CREATED_ACTIVITIES_FILE_ne_ACTIVITIES_FILE :
  CREATED_ACTIVITIES_FILE ≠ ACTIVITIES_FILE.
Proof. done. Qed.

(** X8: the ledger only grows, by one record at a time: whatever the
    request, the award records read after it are the records read before
    it, in their order, followed by at most one new record. *)
Theorem app_ledger_appends (clock : Clock) (request : Request) (fs : FileSystem) :
  ∃ added : list ActivityRecord,
    loaded (snd (app clock request fs)) ACTIVITIES_FILE []
    = loaded fs ACTIVITIES_FILE [] ++ added
    ∧ (length added ≤ 1)%nat.
Proof.
  destruct (app_writes clock request fs)
    as [->|[[students ->]|[[created ->]|(students & record & ->)]]].
  - exists []. split; [by rewrite app_nil_r|cbn; lia].
  - exists []. rewrite loaded_insert_ne by done. split; [by rewrite app_nil_r|cbn; lia].
  - exists []. rewrite loaded_insert_ne by done. split; [by rewrite app_nil_r|cbn; lia].
  - exists [record]. rewrite loaded_insert. split; [done|cbn; lia].
Qed.

(** X9: the server writes its three data files and nothing else: a path
    that is none of them holds after a request what it held before, and a
    GET leaves the whole disk as it is. *)
Theorem app_writes_data_files (clock : Clock) (request : Request) (fs : FileSystem) :
  (∀ path, path ≠ STUDENTS_FILE → path ≠ ACTIVITIES_FILE →
     path ≠ CREATED_ACTIVITIES_FILE →
     snd (app clock request fs) !! path = fs !! path)
  ∧ (is_GET request = true → snd (app clock request fs) = fs).
Proof.
  split.
  - intros path H1 H2 H3.
    destruct (app_writes clock request fs)
      as [->|[[students ->]|[[created ->]|(students & record & ->)]]];
      by rewrite ?lookup_insert_ne.
  - destruct request; try done; intros _; cbn [app].
    + by rewrite get_students_run.
    + unfold get_created_activities. by rewrite try_catch_read.
    + unfold get_activities. by rewrite try_catch_read.
    + unfold get_activities_student. destruct (parseInt _); [done|].
      by rewrite try_catch_read.
    + unfold get_ranking. by rewrite try_catch_read.
    + unfold get_stats. rewrite try_catch_read. unfold try_catch.
      by rewrite !read_bind.
Qed.

(** ** Deleting does not cascade *)

Lemma delete_students_writes `{Engine} (id : string) (fs : FileSystem) :
  snd (delete_students id fs) = fs
  ∨ ∃ students : list Student,
      snd (delete_students id fs)
      = <[STUDENTS_FILE := File (JSON_stringify students)]> fs.
Proof.
  unfold delete_students. run_handler; cbn [snd]; first [by left | by right; eexists].
Qed.

Lemma delete_created_activities_writes `{Engine} (id : string) (fs : FileSystem) :
  snd (delete_created_activities id fs) = fs
  ∨ ∃ createdActivities : list CreatedActivity,
      snd (delete_created_activities id fs)
      = <[CREATED_ACTIVITIES_FILE := File (JSON_stringify createdActivities)]> fs.
Proof.
  unfold delete_created_activities.
  run_handler; cbn [snd]; first [by left | by right; eexists].
Qed.

Lemma get_activities_student_run `{Engine} (id : string) (fs : FileSystem) :
  get_activities_student id fs =
  match parseInt id with
  | NaN => (Normal (failure 400), fs)
  | Num n =>
      (Normal (ok 200 (Activities
         (filter (λ a, studentId a = n) (loaded fs ACTIVITIES_FILE [])))), fs)
  end.
Proof.
  unfold get_activities_student. destruct (parseInt id); [reflexivity|].
  by rewrite try_catch_read.
Qed.

(** X10: deleting a student or an activity leaves the award records that
    name it: after [DELETE /api/students/:id] the ledger and the activities
    read as before, and the awards listed for any student are the awards
    listed before; after [DELETE /api/created-activities/:id] the registry
    and the ledger read as before. *)
Theorem delete_keeps_awards (id student : string) (fs : FileSystem) :
  (let fs' := snd (delete_students id fs) in
   (loaded fs' ACTIVITIES_FILE [] : list ActivityRecord) = loaded fs ACTIVITIES_FILE []
   ∧ (loaded fs' CREATED_ACTIVITIES_FILE [] : list CreatedActivity)
     = loaded fs CREATED_ACTIVITIES_FILE []
   ∧ fst (get_activities_student student fs') = fst (get_activities_student student fs))
  ∧ (let fs' := snd (delete_created_activities id fs) in
     (loaded fs' ACTIVITIES_FILE [] : list ActivityRecord) = loaded fs ACTIVITIES_FILE []
     ∧ (loaded fs' STUDENTS_FILE [] : list Student) = loaded fs STUDENTS_FILE []
     ∧ fst (get_activities_student student fs') = fst (get_activities_student student fs)).
Proof.
  split; cbv zeta.
  - assert ((loaded (snd (delete_students id fs)) ACTIVITIES_FILE []
             : list ActivityRecord) = loaded fs ACTIVITIES_FILE []) as Hledger.
    { destruct (delete_students_writes id fs) as [->|[students ->]]; [done|].
      by rewrite loaded_insert_ne. }
    split; [exact Hledger|]. split.
    + destruct (delete_students_writes id fs) as [->|[students ->]]; [done|].
      by rewrite loaded_insert_ne.
    + rewrite !get_activities_student_run. destruct (parseInt student); [done|].
      cbn [fst]. by rewrite Hledger.
  - assert ((loaded (snd (delete_created_activities id fs)) ACTIVITIES_FILE []
             : list ActivityRecord) = loaded fs ACTIVITIES_FILE []) as Hledger.
    { destruct (delete_created_activities_writes id fs) as [->|[created ->]]; [done|].
      by rewrite loaded_insert_ne. }
    split; [exact Hledger|]. split.
    + destruct (delete_created_activities_writes id fs) as [->|[created ->]]; [done|].
      by rewrite loaded_insert_ne.
    + rewrite !get_activities_student_run. destruct (parseInt student); [done|].
      cbn [fst]. by rewrite Hledger.
Qed.





Lemma filter_all {A} (P : A → Prop) `{∀ x, Decision (P x)} (l : list A) :
  Forall P l → filter P l = l.
Proof.
  induction 1 as [|x l Hx Hl IH]; [done|].
  rewrite filter_cons_True by done. by rewrite IH.
Qed.

(** X12: on a disk of the data model, creating a student and deleting it
    by its id gives back the registry, when no stored student has the id
    the clock gave and both writes complete. *)
Theorem post_then_delete_students `{Engine} (clock : Clock) (name type id : string)
    (fs : FileSystem) :
  students_stored fs = true →
  name ≠ "" → type ≠ "" →
  Forall (λ s, toLowerCase (student_name s) ≠ toLowerCase name)
    (loaded fs STUDENTS_FILE []) →
  parseInt id = Num (Date_now clock) →
  Forall (λ s, student_id s ≠ Date_now clock) (loaded fs STUDENTS_FILE []) →
  let newStudent :=
    {| student_id := Date_now clock; student_name := trim name; pokemonType := type;
       totalPoints := 0; student_createdAt := toISOString clock; updatedAt := None |} in
  let fs1 := snd (post_students clock name type fs) in
  fst (writeJSONFile STUDENTS_FILE (loaded fs STUDENTS_FILE [] ++ [newStudent]) fs)
  = Normal () →
  fst (writeJSONFile STUDENTS_FILE (loaded fs STUDENTS_FILE [] : list Student) fs1)
  = Normal () →
  ∃ fs2,
    delete_students id fs1 = (Normal (ok 200 NoData), fs2)
    ∧ (loaded fs2 STUDENTS_FILE [] : list Student) = loaded fs STUDENTS_FILE [].
Proof.
  intros _ Hname Htype Hfree Hid Hfresh newStudent fs1 Hfile _.
  apply writeJSONFile_completes in Hfile.
  assert (loaded fs1 STUDENTS_FILE [] = loaded fs STUDENTS_FILE [] ++ [newStudent])
    as Hloaded.
  { subst fs1. rewrite post_students_run by done. cbv zeta.
    rewrite (proj2 (list_find_None _ _) Hfree).
    destruct (fs !! STUDENTS_FILE) as [[text|]|]; [|done|]; cbn [snd];
      by rewrite loaded_insert. }
  destruct (delete_students_run id _ fs1 Hid) as [_ Hsome]. cbv zeta in Hsome.
  eexists. split.
  - apply Hsome. rewrite Hloaded. apply Exists_app. right. by constructor.
  - rewrite loaded_insert, Hloaded, filter_app.
    rewrite filter_cons_False by (intros Hne; by apply Hne).
    rewrite filter_nil, app_nil_r.
    by apply filter_all.
Qed.

Lemma post_then_delete_students_witness :
  ∃ fs2,
    delete_students "1717000060000" (snd (post_students clock_2 "Misty" "Water" disk_ash))
    = (Normal (ok 200 NoData), fs2)
    ∧ (loaded fs2 STUDENTS_FILE [] : list Student) = loaded disk_ash STUDENTS_FILE [].
Proof.
  apply (post_then_delete_students clock_2 "Misty" "Water" "1717000060000" disk_ash);
    try done; repeat constructor; done.
Defined.

(** ** Listing the awards of a student *)



(** ** The ranking is the top of the list *)

(** X14: on a disk of the data model, for a limit [n ≥ 0] the ranking is
    the first [n] of the candidates sorted by points from high to low: the
    ranking is sorted, the total counts the ranking and the students left
    out, together they are students of the registry, no student left out
    has more points than a ranked one, and students are left out only when
    the ranking is full.  Without a category the candidates are all the
    students. *)
Theorem get_ranking_top `{Engine} (pokemon limit : option string) (n : Z)
    (fs : FileSystem) :
  students_stored fs = true →
  match limit with Some text => parseInt text | None => Num 5 end = Num n →
  0 ≤ n →
  ∃ ranking rest,
    get_ranking pokemon limit fs
      = (Normal (ok 200 (Ranking ranking (Z.of_nat (length (ranking ++ rest))))), fs)
    ∧ StronglySorted (λ a b, totalPoints b ≤ totalPoints a) ranking
    ∧ ranking ++ rest ⊆+ loaded fs STUDENTS_FILE []
    ∧ (pokemon = None → ranking ++ rest ≡ₚ loaded fs STUDENTS_FILE [])
    ∧ (∀ r s, r ∈ ranking → s ∈ rest → totalPoints s ≤ totalPoints r)
    ∧ (rest ≠ [] → Z.of_nat (length ranking) = n).
Proof.
  intros _ Hlimit Hn.
  set (candidates :=
    match pokemon with
    | Some type =>
        if negb (String.eqb type "") && negb (String.eqb type "all")
        then filter (λ student, pokemonType student = type) (loaded fs STUDENTS_FILE [])
        else loaded fs STUDENTS_FILE []
    | None => loaded fs STUDENTS_FILE []
    end).
  set (sorted := sort (λ a b, totalPoints b - totalPoints a) candidates).
  exists (take (Z.to_nat n) sorted), (drop (Z.to_nat n) sorted).
  rewrite take_drop.
  pose proof (sort_perm totalPoints candidates) as Hperm. fold sorted in Hperm.
  pose proof (sort_sorted totalPoints candidates) as Hsorted. fold sorted in Hsorted.
  split; [|split; [|split; [|split; [|split]]]].
  - unfold get_ranking. rewrite try_catch_read, Hlimit. fold candidates. fold sorted.
    by rewrite slice0_take.
  - by apply StronglySorted_take.
  - rewrite Hperm. subst candidates. destruct pokemon as [type|]; [|done].
    destruct (_ && _); [|done]. apply sublist_submseteq, sublist_filter.
  - intros ->. exact Hperm.
  - intros r s Hr Hs. rewrite <- (take_drop (Z.to_nat n) sorted) in Hsorted.
    exact (StronglySorted_app_1_elem_of _ _ _ _ _ Hsorted Hr Hs).
  - intros Hrest. rewrite length_take.
    destruct (decide (Z.to_nat n ≤ length sorted)%nat) as [Hle|Hgt]; [lia|].
    rewrite drop_ge in Hrest by lia. done.
Qed.

Lemma get_ranking_top_witness :
  ∃ ranking rest,
    get_ranking None (Some "1") disk_class
      = (Normal (ok 200 (Ranking ranking (Z.of_nat (length (ranking ++ rest))))),
         disk_class)
    ∧ StronglySorted (λ a b, totalPoints b ≤ totalPoints a) ranking
    ∧ ranking ++ rest ⊆+ loaded disk_class STUDENTS_FILE []
    ∧ (@None string = None → ranking ++ rest ≡ₚ loaded disk_class STUDENTS_FILE [])
    ∧ (∀ r s, r ∈ ranking → s ∈ rest → totalPoints s ≤ totalPoints r)
    ∧ (rest ≠ [] → Z.of_nat (length ranking) = 1).
Proof.
  apply (get_ranking_top None (Some "1") 1 disk_class); [reflexivity|reflexivity|lia].
Defined.

(** ** Statistics add up *)

Lemma count_sum_increment `{Countable K} (key : K) (counts : gmap K Z) :
  count_sum (increment key counts) = count_sum counts + 1.
Proof.
  unfold count_sum, increment.
  destruct (counts !! key) as [count|] eqn:Hkey; cbn [default].
  - rewrite <- insert_delete_eq.
    rewrite map_fold_insert_L; [|intros; lia|apply lookup_delete_eq].
    rewrite (map_fold_delete_L _ _ key count counts); [unfold id; lia|intros; lia|done].
  - rewrite map_fold_insert_L; [unfold id; lia|intros; lia|done].
Qed.

Lemma count_sum_foldl {A} `{Countable K} (key : A → K) (l : list A)
    (counts : gmap K Z) :
  count_sum (foldl (λ counts x, increment (key x) counts) counts l)
  = count_sum counts + Z.of_nat (length l).
Proof.
  revert counts. induction l as [|x l IH]; intros counts; cbn [foldl length]; [lia|].
  rewrite IH, count_sum_increment. lia.
Qed.

(** X15: on a disk of the data model whose categories are counted (none
    is the name of a property an object literal inherits), the two
    distributions of the statistics count every student once: the counts
    of the categories are numbers that add up to the number of students, so
    do the counts of the levels, and no level counted is above 2. *)
Theorem get_stats_distributions (fs : FileSystem) :
  data_model fs = true →
  forallb (λ s, counted (pokemonType s)) (loaded fs STUDENTS_FILE []) = true →
  ∃ stats (categories : gmap string Z),
    get_stats fs = (Normal (ok 200 (Stats stats)), fs)
    ∧ pokemonDistribution stats = Count <$> categories
    ∧ count_sum categories = totalStudents stats
    ∧ count_sum (evolutionDistribution stats) = totalStudents stats
    ∧ (∀ lv count, evolutionDistribution stats !! lv = Some count → lv ≤ 2 ∧ 1 ≤ count)
    ∧ (∀ type count, categories !! type = Some count → 1 ≤ count).
Proof.
  intros _ Hcounted.
  eexists _, (foldl (λ counts s, increment (pokemonType s) counts) ∅
                (loaded fs STUDENTS_FILE [])).
  split; [apply get_stats_run|].
  cbn [pokemonDistribution evolutionDistribution totalStudents].
  split; [|split; [|split; [|split]]].
  - pose proof (foldl_count_category (loaded fs STUDENTS_FILE []) ∅ Hcounted) as Htally.
    by rewrite fmap_empty in Htally.
  - rewrite (count_sum_foldl pokemonType). unfold count_sum. by rewrite map_fold_empty.
  - rewrite (count_sum_foldl (λ s, level (totalPoints s))). unfold count_sum.
    by rewrite map_fold_empty.
  - intros lv count. rewrite (foldl_increment (λ s, level (totalPoints s))).
    cbv zeta. rewrite lookup_empty. cbn [default].
    destruct (Z.eqb_spec (Z.of_nat (length
      (filter (λ s : Student, level (totalPoints s) = lv) (loaded fs STUDENTS_FILE []))))
      0) as [|Hpos]; [done|].
    intros [= <-]. split; [|lia].
    destruct (filter _ _) as [|s l] eqn:Hfilter; [done|].
    assert (s ∈ filter (λ s : Student, level (totalPoints s) = lv)
                  (loaded fs STUDENTS_FILE [])) as Hs
      by (rewrite Hfilter; left).
    apply list_elem_of_filter in Hs as [<- _]. apply level_le_2.
  - intros type count. rewrite (foldl_increment pokemonType).
    cbv zeta. rewrite lookup_empty. cbn [default].
    destruct (Z.eqb_spec (Z.of_nat (length
      (filter (λ s : Student, pokemonType s = type) (loaded fs STUDENTS_FILE []))))
      0) as [|Hpos]; [done|].
    intros [= <-]. lia.
Qed.

Lemma get_stats_distributions_witness :
  ∃ stats (categories : gmap string Z),
    get_stats disk_league = (Normal (ok 200 (Stats stats)), disk_league)
    ∧ pokemonDistribution stats = Count <$> categories
    ∧ count_sum categories = 4
    ∧ count_sum (evolutionDistribution stats) = 4.
Proof.
  destruct (get_stats_distributions disk_league eq_refl eq_refl)
    as (stats & categories & Hrun & Htally & Hsum & Hlevels & _).
  exists stats, categories. split; [exact Hrun|]. split; [exact Htally|].
  assert (totalStudents stats = 4) as Htotal.
  { rewrite get_stats_run in Hrun. injection Hrun as <-. reflexivity. }
  rewrite <- Htotal. by split.
Defined.

Lemma sum_insert (l : list Student) (i : nat) (old new : Student) :
  l !! i = Some old →
  foldr Z.add 0 (map totalPoints (<[i := new]> l))
  = foldr Z.add 0 (map totalPoints l) - totalPoints old + totalPoints new.
Proof.
  revert i. induction l as [|s l IH]; intros [|i] Hi; try done.
  - injection Hi as ->. cbn [insert list_insert map foldr]. lia.
  - specialize (IH i Hi).
    change (<[S i := new]> (s :: l)) with (s :: <[i := new]> l).
    cbn [map foldr]. lia.
Qed.

Lemma magnitude_insert (l : list Student) (i : nat) (old new : Student) :
  l !! i = Some old →
  magnitude (<[i := new]> l)
  = magnitude l - Z.abs (totalPoints old) + Z.abs (totalPoints new).
Proof.
  unfold magnitude. revert i. induction l as [|s l IH]; intros [|i] Hi; try done.
  - injection Hi as ->. cbn [insert list_insert foldr]. lia.
  - specialize (IH i Hi).
    change (<[S i := new]> (s :: l)) with (s :: <[i := new]> l).
    cbn [foldr]. lia.
Qed.

Lemma magnitude_lookup (l : list Student) (i : nat) (s : Student) :
  l !! i = Some s → Z.abs (totalPoints s) ≤ magnitude l.
Proof.
  intros Hi. pose proof (magnitude_insert l i s s Hi) as Hsame.
  pose proof (magnitude_insert l i s (with_totalPoints s 0 "") Hi) as Hzero.
  pose proof (magnitude_nonneg (<[i := with_totalPoints s 0 ""]> l)).
  cbn [totalPoints with_totalPoints] in Hzero. lia.
Qed.

(** X16: on a disk of the data model whose totals, with the points
    awarded, stay below 2^53 in magnitude, an award that answers 201 shows
    in the statistics: the sum of the points grows by the points awarded,
    the number of awards by one, and the numbers of students and of
    activities stay. *)
Theorem award_in_stats `{Engine} (clock : Clock) (student activity awarded : Z)
    (fs fs' : FileSystem) (response : Response) :
  post_activities clock student activity awarded fs = (Normal response, fs') →
  status response = 201 →
  data_model fs = true →
  magnitude (loaded fs STUDENTS_FILE []) + awarded < 2 ^ 53 →
  ∃ before after,
    get_stats fs = (Normal (ok 200 (Stats before)), fs)
    ∧ get_stats fs' = (Normal (ok 200 (Stats after)), fs')
    ∧ stats_totalPoints after = stats_totalPoints before + awarded
    ∧ totalActivitiesAssigned after = totalActivitiesAssigned before + 1
    ∧ totalStudents after = totalStudents before
    ∧ totalActivities after = totalActivities before.
Proof.
  intros Hrun Hstatus _ Hsmall.
  destruct (post_activities_201 _ _ _ _ _ _ _ Hrun Hstatus)
    as (i & old & j & created & Hfind & _ & Hrange & _ & ->).
  apply list_find_Some in Hfind as (Hi & _).
  pose proof (magnitude_lookup _ _ _ Hi) as Hold.
  pose proof (magnitude_nonneg (loaded fs STUDENTS_FILE [])) as Hnonneg.
  eexists _, _. split; [apply get_stats_run|]. split; [apply get_stats_run|].
  cbn [stats_totalPoints totalActivitiesAssigned totalStudents totalActivities].
  rewrite (loaded_insert_ne STUDENTS_FILE), (loaded_insert STUDENTS_FILE) by done.
  rewrite (loaded_insert ACTIVITIES_FILE).
  rewrite !(loaded_insert_ne CREATED_ACTIVITIES_FILE) by done.
  rewrite (parseInt_Number_safe awarded (in_range_safe awarded Hrange)).
  rewrite (to_double_exact (totalPoints old + awarded)) by lia.
  rewrite !foldl_sum_points.
  - rewrite (sum_insert _ _ old) by done. cbn [totalPoints with_totalPoints].
    rewrite length_insert, length_app. cbn [length]. split; [lia|]. split; [lia|]. done.
  - cbn [Z.abs]. lia.
  - rewrite (magnitude_insert _ _ old) by done.
    cbn [Z.abs totalPoints with_totalPoints]. lia.
Qed.

Lemma award_in_stats_witness :
  ∃ before after,
    get_stats disk_class = (Normal (ok 200 (Stats before)), disk_class)
    ∧ get_stats (snd (post_activities clock_2 1717000000001 1717000000002 10 disk_class))
      = (Normal (ok 200 (Stats after)),
         snd (post_activities clock_2 1717000000001 1717000000002 10 disk_class))
    ∧ stats_totalPoints after = stats_totalPoints before + 10
    ∧ totalActivitiesAssigned after = totalActivitiesAssigned before + 1
    ∧ totalStudents after = totalStudents before
    ∧ totalActivities after = totalActivities before.
Proof.
  apply (award_in_stats clock_2 1717000000001 1717000000002 10 disk_class
           (snd (post_activities clock_2 1717000000001 1717000000002 10 disk_class))
           (ok 201 (Award homework_record misty_105 true 1)));
    [reflexivity|reflexivity|reflexivity|by vm_compute].
Defined.

(** ** Creating an activity *)

Lemma post_created_activities_run `{Engine} (clock : Clock) (name : string) (n : Z)
    (text : string) (fs : FileSystem) :
  name ≠ "" → 1 ≤ n ≤ 100 →
  let createdActivities := loaded fs CREATED_ACTIVITIES_FILE [] in
  let newActivity :=
    {| activity_id := Date_now clock; activity_name := trim name; defaultPoints := n;
       description := if String.eqb text "" then "" else trim text;
       activity_createdAt := toISOString clock |} in
  post_created_activities clock name n text fs =
  match list_find (λ a, toLowerCase (activity_name a) = toLowerCase name)
          createdActivities with
  | Some _ => (Normal (failure 409), fs)
  | None =>
      match fs !! CREATED_ACTIVITIES_FILE with
      | Some Denied => (Normal (failure 500), fs)
      | _ => (Normal (ok 201 (OneCreatedActivity newActivity)),
              <[CREATED_ACTIVITIES_FILE :=
                  File (JSON_stringify (createdActivities ++ [newActivity]))]> fs)
      end
  end.
Proof.
  intros Hname Hn createdActivities newActivity. unfold post_created_activities.
  apply String.eqb_neq in Hname. rewrite Hname.
  assert ((n =? 0) = false) as -> by (apply Z.eqb_neq; lia).
  rewrite (proj2 (in_range n) Hn). cbn [orb].
  rewrite (parseInt_Number_safe n (in_range_safe n Hn)).
  rewrite try_catch_read. fold createdActivities.
  destruct (list_find _ createdActivities) as [[i a]|]; [reflexivity|].
  unfold try_catch. rewrite bind_run, writeJSONFile_run.
  by destruct (fs !! CREATED_ACTIVITIES_FILE) as [[data|]|].
Qed.

Lemma post_created_activities_invalid `{Engine} (clock : Clock) (name : string)
    (n : Z) (text : string) (fs : FileSystem) :
  ¬ (name ≠ "" ∧ 1 ≤ n ≤ 100) →
  post_created_activities clock name n text fs = (Normal (failure 400), fs).
Proof.
  intros Hinvalid. unfold post_created_activities.
  destruct (String.eqb_spec name "") as [->|Hname]; [reflexivity|].
  destruct (Z.eqb_spec n 0) as [->|Hn]; [reflexivity|]. cbn [orb].
  destruct ((n <? 1) || (n >? 100)) eqn:Hrange; [reflexivity|].
  apply in_range in Hrange. tauto.
Qed.


Lemma get_created_activities_run (fs : FileSystem) :
  get_created_activities fs
  = (Normal (ok 200 (CreatedActivities (loaded fs CREATED_ACTIVITIES_FILE []))), fs).
Proof. unfold get_created_activities. by rewrite try_catch_read. Qed.

(** X17: on a disk of the data model, a request with a name, points that
    are an integer from 1 to 100, a name no stored activity has up to case
    and a write of the activities file that completes answers 201 with an
    activity that has the clock's id, the trimmed name, the points and the
    trimmed description (the empty text when the request has none); the
    activities listed afterwards are the old ones followed by it, and no
    other path changes. *)
Theorem post_created_activities_created `{Engine} (clock : Clock) (name : string)
    (n : Z) (text : string) (fs : FileSystem) :
  activities_stored fs = true →
  name ≠ "" → 1 ≤ n ≤ 100 →
  Forall (λ a, toLowerCase (activity_name a) ≠ toLowerCase name)
    (loaded fs CREATED_ACTIVITIES_FILE []) →
  let newActivity :=
    {| activity_id := Date_now clock; activity_name := trim name; defaultPoints := n;
       description := if String.eqb text "" then "" else trim text;
       activity_createdAt := toISOString clock |} in
  fst (writeJSONFile CREATED_ACTIVITIES_FILE
         (loaded fs CREATED_ACTIVITIES_FILE [] ++ [newActivity]) fs) = Normal () →
  ∃ fs',
    post_created_activities clock name n text fs
      = (Normal (ok 201 (OneCreatedActivity newActivity)), fs')
    ∧ get_created_activities fs'
      = (Normal (ok 200 (CreatedActivities
           (loaded fs CREATED_ACTIVITIES_FILE [] ++ [newActivity]))), fs')
    ∧ (∀ path, path ≠ CREATED_ACTIVITIES_FILE → fs' !! path = fs !! path).
Proof.
  intros _ Hname Hn Hfree newActivity Hfile.
  apply writeJSONFile_completes in Hfile.
  rewrite post_created_activities_run by done. cbv zeta.
  rewrite (proj2 (list_find_None _ _) Hfree).
  eexists. split; [by destruct (fs !! CREATED_ACTIVITIES_FILE) as [[data|]|]|].
  split.
  - by rewrite get_created_activities_run, loaded_insert.
  - intros path Hpath. by rewrite lookup_insert_ne.
Qed.

Lemma post_created_activities_created_witness :
  ∃ fs',
    post_created_activities clock_2 " Quiz" 20 "weekly " disk_class
      = (Normal (ok 201 (OneCreatedActivity
           {| activity_id := Date_now clock_2; activity_name := "Quiz";
              defaultPoints := 20; description := "weekly";
              activity_createdAt := toISOString clock_2 |})), fs')
    ∧ get_created_activities fs'
      = (Normal (ok 200 (CreatedActivities
           (loaded disk_class CREATED_ACTIVITIES_FILE [] ++
            [{| activity_id := Date_now clock_2; activity_name := "Quiz";
                defaultPoints := 20; description := "weekly";
                activity_createdAt := toISOString clock_2 |}]))), fs')
    ∧ (∀ path, path ≠ CREATED_ACTIVITIES_FILE → fs' !! path = disk_class !! path).
Proof.
  exact (post_created_activities_created clock_2 " Quiz" 20 "weekly " disk_class
           eq_refl ltac:(done) ltac:(lia) ltac:(repeat constructor; done) eq_refl).
Defined.

(** X18: which status [POST /api/created-activities] answers with on a
    disk of the data model, for points that are an integer: 400 exactly
    when the name is missing or the points are not from 1 to 100 (zero
    counts as missing); otherwise 409 exactly when a stored activity has
    the name up to case; otherwise 201 when the write of the activities
    file completes and 500 when it does not.  A 400 and a 409 leave the
    disk as it was. *)
Theorem post_created_activities_status `{Engine} (clock : Clock) (name : string)
    (n : Z) (text : string) (fs : FileSystem) :
  activities_stored fs = true →
  let valid := name ≠ "" ∧ 1 ≤ n ≤ 100 in
  let taken :=
    Exists (λ a, toLowerCase (activity_name a) = toLowerCase name)
      (loaded fs CREATED_ACTIVITIES_FILE []) in
  let newActivity :=
    {| activity_id := Date_now clock; activity_name := trim name; defaultPoints := n;
       description := if String.eqb text "" then "" else trim text;
       activity_createdAt := toISOString clock |} in
  let written :=
    fst (writeJSONFile CREATED_ACTIVITIES_FILE
           (loaded fs CREATED_ACTIVITIES_FILE [] ++ [newActivity]) fs) = Normal () in
  ∃ response fs',
    post_created_activities clock name n text fs = (Normal response, fs')
    ∧ (status response = 400 ↔ ¬ valid)
    ∧ (status response = 409 ↔ valid ∧ taken)
    ∧ (status response = 201 ↔ valid ∧ ¬ taken ∧ written)
    ∧ (status response = 500 ↔ valid ∧ ¬ taken ∧ ¬ written)
    ∧ (status response = 400 ∨ status response = 409 → fs' = fs).
Proof.
  intros _ valid taken newActivity written.
  assert (written ↔ fs !! CREATED_ACTIVITIES_FILE ≠ Some Denied) as Hwritten
    by apply writeJSONFile_completes.
  clearbody written.
  destruct (decide valid) as [[Hname Hn]|Hinvalid].
  2:{ rewrite post_created_activities_invalid by done.
      eexists _, _. split; [reflexivity|]. cbn. intuition (try done; try lia). }
  assert valid as Hvalid by done.
  rewrite post_created_activities_run by done. cbv zeta.
  pose proof (list_find_Exists
    (λ a, toLowerCase (activity_name a) = toLowerCase name)
    (loaded fs CREATED_ACTIVITIES_FILE [])) as Hex. fold taken in Hex.
  destruct (list_find _ _) as [p|] eqn:Hfind.
  { assert taken as Htaken by (apply Hex; eauto).
    eexists _, _. split; [reflexivity|]. cbn.
    intuition (try done; try lia). }
  assert (¬ taken) as Htaken by (intros [? ?]%Hex; done).
  destruct (fs !! CREATED_ACTIVITIES_FILE) as [[data|]|] eqn:Hfile;
    (eexists _, _; split; [reflexivity|]); cbn;
    intuition (try done; try lia).
Qed.

Lemma post_created_activities_status_witness :
  ∃ response fs',
    post_created_activities clock_2 "HOMEWORK" 20 "" disk_class = (Normal response, fs')
    ∧ status response = 409 ∧ fs' = disk_class.
Proof.
  destruct (post_created_activities_status clock_2 "HOMEWORK" 20 "" disk_class eq_refl)
    as (response & fs' & Hrun & _ & H409 & _ & _ & Hquiet).
  exists response, fs'. split; [exact Hrun|].
  assert (status response = 409) as Hstatus.
  { apply H409. split; [split; [done|lia]|]. vm_compute. by left. }
  split; [exact Hstatus|]. apply Hquiet. by right.
Defined.



(** ** What requests keep *)

Lemma post_activities_invalid `{Engine} (clock : Clock) (student activity awarded : Z)
    (fs : FileSystem) :
  ¬ (student ≠ 0 ∧ activity ≠ 0 ∧ 1 ≤ awarded ≤ 100) →
  post_activities clock student activity awarded fs = (Normal (failure 400), fs).
Proof.
  intros Hinvalid. unfold post_activities.
  destruct (_ || _ || _) eqn:Hfalsy; [reflexivity|].
  destruct ((awarded <? 1) || (awarded >? 100)) eqn:Hrange; [reflexivity|].
  exfalso. apply Hinvalid.
  rewrite !orb_false_iff, !Z.eqb_neq in Hfalsy. apply in_range in Hrange. lia.
Qed.

Lemma identity_with_totalPoints (student : Student) (total : Z) (stamp : string) :
  identity (with_totalPoints student total stamp) = identity student.
Proof. reflexivity. Qed.

Lemma identity_insert (l : list Student) (i : nat) (old new : Student) :
  l !! i = Some old → identity new = identity old →
  identity <$> <[i := new]> l = identity <$> l.
Proof.
  intros Hi Hnew. rewrite list_fmap_insert, Hnew.
  apply list_insert_id. by rewrite list_lookup_fmap, Hi.
Qed.

Ltac students_kept :=
  run_handler; cbn [snd]; rewrite ?loaded_insert_ne by done; by left.

(** The registry after a request: the students of before with their
    identities, some of them gone, or one student more. *)
Lemma app_registry `{Engine} (clock : Clock) (request : Request) (fs : FileSystem) :
  let before := loaded fs STUDENTS_FILE [] in
  let after := loaded (snd (app clock request fs)) STUDENTS_FILE [] in
  sublist (identity <$> after) (identity <$> before)
  ∨ ∃ name type,
      request = POST_students name type
      ∧ Forall (λ s, toLowerCase (student_name s) ≠ toLowerCase name) before
      ∧ after = before ++
          [{| student_id := Date_now clock; student_name := trim name;
              pokemonType := type; totalPoints := 0;
              student_createdAt := toISOString clock; updatedAt := None |}].
Proof.
  cbv zeta. destruct request as
    [|name type|id total|id| |name n text|id| |student activity awarded|id
     |pokemon limit| |]; cbn [app].
  - unfold get_students. students_kept.
  - unfold post_students. run_handler; cbn [snd];
      first [ by left
            | right; exists name, type; split; [done|];
              split; [by apply (proj1 (list_find_None _ _))|by rewrite loaded_insert] ].
  - destruct (parseInt id) as [|k] eqn:Hid.
    + unfold put_students. rewrite Hid. by left.
    + rewrite (put_students_run clock id k total fs Hid). unfold find_student.
      destruct (list_find _ _) as [[i old]|] eqn:Hfind; [|by left].
      cbn [snd]. rewrite loaded_insert. left.
      apply list_find_Some in Hfind as (Hi & _).
      rewrite (identity_insert _ _ old); [done|done|by destruct total].
  - destruct (parseInt id) as [|k] eqn:Hid.
    + unfold delete_students. rewrite Hid. by left.
    + destruct (delete_students_run id k fs Hid) as [Hnone Hsome]. cbv zeta in *.
      destruct (decide (Exists (λ s, student_id s = k) (loaded fs STUDENTS_FILE [])))
        as [Hex|Hnex].
      * rewrite (Hsome Hex). cbn [snd]. rewrite loaded_insert. left.
        apply fmap_sublist, sublist_filter.
      * rewrite Hnone; [by left|].
        apply Forall_forall. intros s Hs Heq. apply Hnex, Exists_exists. eauto.
  - unfold get_created_activities. students_kept.
  - unfold post_created_activities. students_kept.
  - unfold delete_created_activities. students_kept.
  - unfold get_activities. students_kept.
  - destruct (decide (student ≠ 0 ∧ activity ≠ 0 ∧ 1 ≤ awarded ≤ 100))
      as [(Hs & Ha & Hp)|Hinvalid].
    + rewrite post_activities_run by done. unfold find_student.
      destruct (list_find _ (loaded fs STUDENTS_FILE [])) as [[i old]|] eqn:Hfind;
        [|by left].
      destruct (list_find _ (loaded fs CREATED_ACTIVITIES_FILE [])) as [[j created]|];
        [|by left].
      cbv zeta. apply list_find_Some in Hfind as (Hi & _). left.
      destruct (fs !! ACTIVITIES_FILE) as [[data|]|]; cbn [snd];
        rewrite ?loaded_insert_ne by done; rewrite loaded_insert;
        by rewrite (identity_insert _ _ old).
    + rewrite post_activities_invalid by done. by left.
  - unfold get_activities_student. students_kept.
  - unfold get_ranking. students_kept.
  - unfold get_stats. students_kept.
  - by left.
Qed.

(** X20: on a disk of the data model, no request renames a student,
    changes its id, type or creation date, or reorders the registry: the
    ids, names, types and creation dates read after a request are a sublist
    of those read before, or, for a [POST /api/students], those read before
    followed by the clock's id, the trimmed name, the type and the clock's
    date. *)
Theorem app_identities `{Engine} (clock : Clock) (request : Request)
    (fs : FileSystem) :
  data_model fs = true →
  let before := identity <$> loaded fs STUDENTS_FILE [] in
  let after := identity <$> loaded (snd (app clock request fs)) STUDENTS_FILE [] in
  sublist after before
  ∨ ∃ name type,
      request = POST_students name type
      ∧ after = before ++ [(Date_now clock, trim name, type, toISOString clock)].
Proof.
  intros _. cbv zeta. destruct (app_registry clock request fs) as [Hkept|Hnew];
    [by left|].
  destruct Hnew as (name & type & -> & _ & Hafter). right. exists name, type.
  split; [done|]. cbv zeta in Hafter. by rewrite Hafter, fmap_app.
Qed.

Lemma app_identities_witness :
  sublist
    (identity <$> loaded (snd (app clock_2 (POST_students "Misty" "Water") disk_ash))
                    STUDENTS_FILE [])
    (identity <$> loaded disk_ash STUDENTS_FILE [])
  ∨ ∃ name type,
      POST_students "Misty" "Water" = POST_students name type
      ∧ identity <$> loaded (snd (app clock_2 (POST_students "Misty" "Water") disk_ash))
                       STUDENTS_FILE []
        = (identity <$> loaded disk_ash STUDENTS_FILE [])
          ++ [(Date_now clock_2, trim name, type, toISOString clock_2)].
Proof.
  apply (app_identities clock_2 (POST_students "Misty" "Water") disk_ash).
  reflexivity.
Defined.

Ltac range_kept :=
  run_handler; cbn [snd]; rewrite ?loaded_insert_ne by done; done.

(** X21: points stay in range: on a disk of the data model where every
    award record has points from 1 to 100 and every activity has default
    points from 1 to 100, the same holds after any request whose number
    fields are integers. *)
Theorem app_points_in_range `{Engine} (clock : Clock) (request : Request)
    (fs : FileSystem) :
  data_model fs = true →
  Forall (λ a, 1 ≤ points a ≤ 100) (loaded fs ACTIVITIES_FILE []) →
  Forall (λ a, 1 ≤ defaultPoints a ≤ 100) (loaded fs CREATED_ACTIVITIES_FILE []) →
  let fs' := snd (app clock request fs) in
  Forall (λ a, 1 ≤ points a ≤ 100) (loaded fs' ACTIVITIES_FILE [])
  ∧ Forall (λ a, 1 ≤ defaultPoints a ≤ 100) (loaded fs' CREATED_ACTIVITIES_FILE []).
Proof.
  intros _ Hledger Hcreated. cbv zeta. destruct request as
    [|name type|id total|id| |name n text|id| |student activity awarded|id
     |pokemon limit| |]; cbn [app].
  - unfold get_students. range_kept.
  - unfold post_students. range_kept.
  - unfold put_students. range_kept.
  - unfold delete_students. range_kept.
  - unfold get_created_activities. range_kept.
  - destruct (decide (name ≠ "" ∧ 1 ≤ n ≤ 100)) as [[Hname Hn]|Hinvalid].
    + rewrite post_created_activities_run by done. cbv zeta.
      destruct (list_find _ _) as [[i a]|]; [done|].
      destruct (fs !! CREATED_ACTIVITIES_FILE) as [[data|]|]; cbn [snd];
        rewrite ?loaded_insert_ne by done; rewrite ?loaded_insert;
        (split; [done|]); try done;
        (apply Forall_app; split; [done|]); by constructor.
    + by rewrite post_created_activities_invalid.
  - destruct (parseInt id) as [|k] eqn:Hid.
    + unfold delete_created_activities. by rewrite Hid.
    + destruct (delete_created_activities_run id k fs Hid) as [Hnone Hsome].
      cbv zeta in *.
      destruct (decide (Exists (λ a, activity_id a = k)
                          (loaded fs CREATED_ACTIVITIES_FILE []))) as [Hex|Hnex].
      * rewrite (Hsome Hex). cbn [snd].
        rewrite loaded_insert_ne by done. rewrite loaded_insert.
        split; [done|]. apply Forall_forall. intros a [_ Ha]%list_elem_of_filter.
        rewrite Forall_forall in Hcreated. by apply Hcreated.
      * rewrite Hnone; [done|].
        apply Forall_forall. intros a Ha Heq. apply Hnex, Exists_exists. eauto.
  - unfold get_activities. range_kept.
  - destruct (decide (student ≠ 0 ∧ activity ≠ 0 ∧ 1 ≤ awarded ≤ 100))
      as [(Hs & Ha & Hp)|Hinvalid].
    + rewrite post_activities_run by done.
      destruct (find_student _ fs) as [[i old]|]; [|done].
      destruct (list_find _ _) as [[j created]|]; [|done].
      cbv zeta.
      destruct (fs !! ACTIVITIES_FILE) as [[data|]|] eqn:Hfile; cbn [snd];
        rewrite ?(loaded_insert_ne CREATED_ACTIVITIES_FILE) by done;
        (split; [|done]).
      * rewrite loaded_insert. apply Forall_app. split; [done|].
        by constructor.
      * by rewrite loaded_insert_ne.
      * rewrite loaded_insert. apply Forall_app. split; [done|].
        by constructor.
    + by rewrite post_activities_invalid.
  - unfold get_activities_student. range_kept.
  - unfold get_ranking. range_kept.
  - unfold get_stats. range_kept.
  - done.
Qed.

Lemma app_points_in_range_witness :
  Forall (λ a, 1 ≤ points a ≤ 100)
    (loaded (snd (app clock_2 (POST_activities 1717000000001 1717000000002 10)
                    disk_class)) ACTIVITIES_FILE [])
  ∧ Forall (λ a, 1 ≤ defaultPoints a ≤ 100)
      (loaded (snd (app clock_2 (POST_activities 1717000000001 1717000000002 10)
                      disk_class)) CREATED_ACTIVITIES_FILE []).
Proof.
  apply (app_points_in_range clock_2 (POST_activities 1717000000001 1717000000002 10)
           disk_class).
  - reflexivity.
  - constructor.
  - repeat constructor; done.
Defined.

(** ** The store, one path at a time *)

(** X22: [writeJSONFile] touches one path: after a write to a path,
    whether it completed or threw, [readJSONFile] returns for any other path
    what it returned before, and the disk holds there what it held. *)
Theorem write_then_read_other {A B} `{JSON A} `{JSON B} (filePath other : string)
    (data : A) (defaultValue : B) (fs : FileSystem) :
  other ≠ filePath →
  let fs' := snd (writeJSONFile filePath data fs) in
  fst (readJSONFile other defaultValue fs') = fst (readJSONFile other defaultValue fs)
  ∧ fs' !! other = fs !! other.
Proof.
  intros Hne fs'. subst fs'. rewrite !readJSONFile_loaded, writeJSONFile_run.
  destruct (fs !! filePath) as [[text|]|]; cbn [fst snd];
    rewrite ?loaded_insert_ne, ?lookup_insert_ne by done; done.
Qed.

Lemma write_then_read_other_witness :
  fst (readJSONFile CREATED_ACTIVITIES_FILE ([] : list CreatedActivity)
         (snd (writeJSONFile STUDENTS_FILE [ash] disk_class)))
  = fst (readJSONFile CREATED_ACTIVITIES_FILE ([] : list CreatedActivity) disk_class)
  ∧ snd (writeJSONFile STUDENTS_FILE [ash] disk_class) !! CREATED_ACTIVITIES_FILE
    = disk_class !! CREATED_ACTIVITIES_FILE.
Proof.
  apply (write_then_read_other STUDENTS_FILE CREATED_ACTIVITIES_FILE [ash]
           ([] : list CreatedActivity) disk_class).
  done.
Defined.

(** X23: on a disk with no students file, or with an empty one, a
    [POST /api/students] with a name and a type whose write completes
    answers 201, and the registry read afterwards is the new student
    alone; no other path changes. *)
Theorem post_students_first `{Engine} (clock : Clock) (name type : string)
    (fs : FileSystem) :
  name ≠ "" → type ≠ "" →
  fs !! STUDENTS_FILE = None ∨ fs !! STUDENTS_FILE = Some (File "") →
  let newStudent :=
    {| student_id := Date_now clock; student_name := trim name; pokemonType := type;
       totalPoints := 0; student_createdAt := toISOString clock; updatedAt := None |} in
  fst (writeJSONFile STUDENTS_FILE [newStudent] fs) = Normal () →
  ∃ fs',
    post_students clock name type fs = (Normal (ok 201 (OneStudent newStudent)), fs')
    ∧ (loaded fs' STUDENTS_FILE [] : list Student) = [newStudent]
    ∧ (∀ path, path ≠ STUDENTS_FILE → fs' !! path = fs !! path).
Proof.
  intros Hname Htype Hfile newStudent _.
  rewrite post_students_run by done. cbv zeta.
  assert (loaded fs STUDENTS_FILE [] = ([] : list Student)) as ->.
  { unfold loaded. by destruct Hfile as [->| ->]. }
  eexists. split; [by destruct Hfile as [->| ->]|]. split.
  - by rewrite loaded_insert.
  - intros path Hpath. by rewrite lookup_insert_ne.
Qed.

Lemma post_students_first_witness :
  ∃ fs',
    post_students clock_2 "Misty" "Water" disk_blank
    = (Normal (ok 201 (OneStudent
         {| student_id := Date_now clock_2; student_name := "Misty";
            pokemonType := "Water"; totalPoints := 0;
            student_createdAt := toISOString clock_2; updatedAt := None |})), fs')
    ∧ (loaded fs' STUDENTS_FILE [] : list Student)
      = [{| student_id := Date_now clock_2; student_name := "Misty";
            pokemonType := "Water"; totalPoints := 0;
            student_createdAt := toISOString clock_2; updatedAt := None |}]
    ∧ (∀ path, path ≠ STUDENTS_FILE → fs' !! path = disk_blank !! path).
Proof.
  exact (post_students_first clock_2 "Misty" "Water" disk_blank
           ltac:(done) ltac:(done) (or_intror eq_refl) eq_refl).
Defined.

(** ** The answers of the server *)




(** ** After deleting an activity *)



(** ** Levels *)

(** X26: an award moves the level by one step at most: on a disk of the
    data model, when [POST /api/activities] answers 201 for a student whose
    new total is a safe integer, the new level is the level of the total
    before or the next one, it is the next one exactly when [evolved] is
    set, and it is never above 2. *)
Theorem award_level `{Engine} (clock : Clock) (student activity awarded : Z)
    (fs fs' : FileSystem) (response : Response) (i : nat) (old : Student) :
  post_activities clock student activity awarded fs = (Normal response, fs') →
  status response = 201 →
  data_model fs = true →
  safe student →
  find_student student fs = Some (i, old) →
  safe (totalPoints old + awarded) →
  ∃ record updated evolved newLevel,
    data response = Award record updated evolved newLevel
    ∧ level (totalPoints old) ≤ newLevel ≤ level (totalPoints old) + 1
    ∧ (evolved = true ↔ newLevel = level (totalPoints old) + 1)
    ∧ (evolved = false ↔ newLevel = level (totalPoints old))
    ∧ newLevel ≤ 2.
Proof.
  intros Hrun Hstatus Hmodel Hstudent Hfind Hsum.
  destruct (post_activities_201 _ _ _ _ _ _ _ Hrun Hstatus)
    as (i' & old' & j & created & Hfind' & _ & Hrange & Hresponse & _).
  rewrite (parseInt_Number_safe student Hstudent), Hfind in Hfind'.
  injection Hfind' as <- <-.
  destruct (find_student_safe fs student i old (data_model_students fs Hmodel) Hfind)
    as [_ Hold].
  cbv zeta in Hresponse. subst response.
  rewrite (parseInt_Number_safe awarded (in_range_safe awarded Hrange)).
  rewrite (to_double_safe _ Hsum).
  eexists _, _, _, _. split; [reflexivity|].
  cbn [totalPoints with_totalPoints].
  rewrite (level_safe _ Hsum), (level_safe _ Hold).
  assert (Z.min 2 (totalPoints old / 100) ≤ Z.min 2 ((totalPoints old + awarded) / 100)
          ≤ Z.min 2 (totalPoints old / 100) + 1) as Hstep.
  { Z.div_mod_to_equations. lia. }
  split; [done|]. split; [|split; [|lia]].
  - rewrite Z.gtb_gt. lia.
  - rewrite Z.gtb_ltb, Z.ltb_ge. lia.
Qed.

Lemma award_level_witness :
  ∃ record updated evolved newLevel,
    Award homework_record misty_105 true 1 = Award record updated evolved newLevel
    ∧ level (totalPoints misty) ≤ newLevel ≤ level (totalPoints misty) + 1
    ∧ (evolved = true ↔ newLevel = level (totalPoints misty) + 1)
    ∧ (evolved = false ↔ newLevel = level (totalPoints misty))
    ∧ newLevel ≤ 2.
Proof.
  apply (award_level clock_2 1717000000001 1717000000002 10 disk_class
           (snd (post_activities clock_2 1717000000001 1717000000002 10 disk_class))
           (ok 201 (Award homework_record misty_105 true 1)) 1 misty);
    try reflexivity; by vm_compute.
Defined.

(** ** Ties in the ranking *)





(** ** Distinct names and ids *)

(** X28: names stay distinct: on a disk of the data model, when the
    stored names differ up to case and a [POST /api/students], if that is
    the request, has a name that trimming leaves as it is, the stored names
    differ up to case after the request. *)
Theorem app_names_distinct `{Engine} (clock : Clock) (request : Request)
    (fs : FileSystem) :
  data_model fs = true →
  NoDup ((λ s, toLowerCase (student_name s)) <$> loaded fs STUDENTS_FILE []) →
  (∀ name type, request = POST_students name type → trim name = name) →
  NoDup ((λ s, toLowerCase (student_name s)) <$>
           loaded (snd (app clock request fs)) STUDENTS_FILE []).
Proof.
  intros _ Hdistinct Htrimmed.
  destruct (app_registry clock request fs) as [Hkept|Hnew]; cbv zeta in *.
  - eapply sublist_NoDup; [exact Hdistinct|].
    apply (fmap_sublist (λ t : Z * string * string * string, toLowerCase t.1.1.2))
      in Hkept.
    by rewrite <- !list_fmap_compose in Hkept.
  - destruct Hnew as (name & type & Hrequest & Hfree & ->).
    rewrite fmap_app. apply NoDup_app. split; [done|]. split; [|apply NoDup_singleton].
    intros key (s & -> & Hs)%list_elem_of_fmap Hkey.
    apply list_elem_of_singleton in Hkey. cbn [student_name] in Hkey.
    rewrite (Htrimmed name type Hrequest) in Hkey.
    rewrite Forall_forall in Hfree. by apply (Hfree s Hs).
Qed.

Lemma app_names_distinct_witness :
  NoDup ((λ s, toLowerCase (student_name s)) <$>
           loaded (snd (app clock_2 (POST_students "Misty" "Water") disk_ash))
             STUDENTS_FILE []).
Proof.
  apply (app_names_distinct clock_2 (POST_students "Misty" "Water") disk_ash).
  - reflexivity.
  - assert (loaded disk_ash STUDENTS_FILE [] = [ash]) as -> by reflexivity.
    apply NoDup_singleton.
  - intros name type Hrequest. injection Hrequest as <- _. reflexivity.
Defined.

(** X29: ids stay distinct: when the stored students have distinct ids
    and none of them has the id the clock gives, the stored students have
    distinct ids after the request. *)
Theorem app_ids_distinct (clock : Clock) (request : Request) (fs : FileSystem) :
  NoDup (student_id <$> loaded fs STUDENTS_FILE []) →
  Forall (λ s, student_id s ≠ Date_now clock) (loaded fs STUDENTS_FILE []) →
  NoDup (student_id <$> loaded (snd (app clock request fs)) STUDENTS_FILE []).
Proof.
  intros Hdistinct Hfresh.
  destruct (app_registry clock request fs) as [Hkept|Hnew]; cbv zeta in *.
  - eapply sublist_NoDup; [exact Hdistinct|].
    apply (fmap_sublist (λ t : Z * string * string * string, t.1.1.1)) in Hkept.
    by rewrite <- !list_fmap_compose in Hkept.
  - destruct Hnew as (name & type & _ & _ & ->).
    rewrite fmap_app. apply NoDup_app. split; [done|]. split; [|apply NoDup_singleton].
    intros key (s & -> & Hs)%list_elem_of_fmap Hkey.
    apply list_elem_of_singleton in Hkey. cbn [student_id] in Hkey.
    rewrite Forall_forall in Hfresh. by apply (Hfresh s Hs).
Qed.

Lemma app_ids_distinct_witness :
  NoDup (student_id <$>
           loaded (snd (app clock_2 (POST_students "Misty" "Water") disk_ash))
             STUDENTS_FILE []).
Proof.
  apply (app_ids_distinct clock_2 (POST_students "Misty" "Water") disk_ash).
  - assert (loaded disk_ash STUDENTS_FILE [] = [ash]) as -> by reflexivity.
    apply NoDup_singleton.
  - assert (loaded disk_ash STUDENTS_FILE [] = [ash]) as -> by reflexivity.
    by repeat constructor.
Defined.
